(** * LoRaWAN Class A MAC layer (lr1mac): a shallow embedding of
      [lr1mac/src/lr1_stack_mac_layer.c] and the properties of its
      frame-counter window, ADR loop, RX window timing, duty-cycle timer,
      join request and MAC command parser.

    Conventions.
    - C unsigned integers of width w are values of [Z] in [0, 2^w); every
      operation that can leave the range is wrapped explicitly ([u8], [u16],
      [u32]).  [i32] reinterprets a 32-bit pattern as a signed value.
    - Byte buffers ([uint8_t x[N]]) are [list Z]; [buf_get] reads, [buf_set]
      writes one cell, [memcpy] copies a run of cells.  A write outside the
      buffer is undefined in C; the model leaves the buffer unchanged there.
    - The collaborators whose code is outside this file (regional layer
      [smtc_real_*], crypto, radio planner, board support) are records of
      operations; the MAC functions are parametrised by them.
    - [double] expressions of [compute_rx_window_parameters] are evaluated
      in exact rational arithmetic ([Q]). *)

From Stdlib Require Import ZArith List Bool Lia QArith Qround.
Import ListNotations.
Open Scope Z_scope.

(** ** Machine integers *)

Definition u8 (x : Z) : Z := x mod 2 ^ 8.
Definition u16 (x : Z) : Z := x mod 2 ^ 16.
Definition u32 (x : Z) : Z := x mod 2 ^ 32.

(** Reinterpretation of a 32-bit pattern as [int32_t] (two's complement). *)
Definition i32 (x : Z) : Z :=
  let y := u32 x in if y <? 2 ^ 31 then y else y - 2 ^ 32.

(** The [MIN] and [MAX] macros of [lr1mac_utilities.h]. *)
Definition MIN (a b : Z) : Z := if a <? b then a else b.
Definition MAX (a b : Z) : Z := if a >? b then a else b.

(** ** Byte buffers *)

Definition buf_get (l : list Z) (i : Z) : Z :=
  if i <? 0 then 0 else nth (Z.to_nat i) l 0.

Fixpoint upd_nth (n : nat) (v : Z) (l : list Z) : list Z :=
  match l, n with
  | [], _ => []
  | _ :: t, O => v :: t
  | h :: t, S k => h :: upd_nth k v t
  end.

Definition buf_set (l : list Z) (i : Z) (v : Z) : list Z :=
  if i <? 0 then l else upd_nth (Z.to_nat i) v l.

(** [memcpy (dst + off, src, n)]: cell [off + k] of [dst] receives cell [k]
    of [src], for [k < n]. *)
Fixpoint memcpy_from (dst : list Z) (off : Z) (src : list Z) (k : Z) (n : nat)
  : list Z :=
  match n with
  | O => dst
  | S m => memcpy_from (buf_set dst (off + k) (buf_get src k)) off src (k + 1) m
  end.

Definition memcpy (dst : list Z) (off : Z) (src : list Z) (n : Z) : list Z :=
  memcpy_from dst off src 0 (Z.to_nat n).

(** The first [n] cells of a buffer: the bytes of a frame of size [n]. *)
Definition frame_bytes (l : list Z) (n : Z) : list Z := firstn (Z.to_nat n) l.

(** The four bytes of a [uint32_t] as they lie in memory on the little-endian
    target ([memcpy (buf, (uint8_t* ) &mic, 4)]). *)
Definition le32_bytes (x : Z) : list Z :=
  [Z.land x 255; Z.land (Z.shiftr x 8) 255;
   Z.land (Z.shiftr x 16) 255; Z.land (Z.shiftr x 24) 255].

(** ** Constants *)

Definition MAX_FCNT_GAP : Z := 16384.

(** Modelled from the spec: [status_lorawan_t] is declared outside this file.
    The code adds statuses as integers ([status += ...]) and compares the sum
    with [OKLORAWAN]; success is 0 and the error value is -1. *)
Definition OKLORAWAN : Z := 0.
Definition ERRORLORAWAN : Z := -1.

(** Modelled from the spec: frame layout constants, declared outside this
    file.  The FHDR without FOpts is MHDR(1) + DevAddr(4) + FCtrl(1) + FCnt(2)
    = 8 bytes and is followed by FPort(1), so the FRMPayload of a frame
    without FOpts starts at offset 9; the MIC is 4 bytes; MAC-only frames use
    port 0; the shortest data frame is MHDR(1) + DevAddr(4) + FCtrl(1) +
    FCnt(2) + MIC(4) = 12 bytes; the major version of LoRaWAN R1 is 0. *)
Definition FHDROFFSET : Z := 9.
Definition MICSIZE : Z := 4.
Definition PORTNWK : Z := 0.
Definition MIN_LORAWAN_PAYLOAD_SIZE : Z := 12.
Definition LORAWANR1 : Z := 0.
Definition UP_LINK : Z := 0.

(** Modelled from the spec: message types of the MHDR (LoRaWAN 1.0.x). *)
Definition JOIN_REQUEST : Z := 0.
Definition JOIN_ACCEPT : Z := 1.
Definition UNCONF_DATA_UP : Z := 2.
Definition UNCONF_DATA_DOWN : Z := 3.
Definition CONF_DATA_UP : Z := 4.
Definition CONF_DATA_DOWN : Z := 5.
Definition REJOIN_REQUEST : Z := 6.
Definition PROPRIETARY : Z := 7.

(** Modelled from the spec: MAC command identifiers and the sizes of the
    requests (CID included) and of the answers (LoRaWAN 1.0.x), declared
    outside this file. *)
Definition LINK_CHECK_ANS : Z := 2.
Definition LINK_ADR_REQ : Z := 3.
Definition DUTY_CYCLE_REQ : Z := 4.
Definition RXPARRAM_SETUP_REQ : Z := 5.
Definition DEV_STATUS_REQ : Z := 6.
Definition NEW_CHANNEL_REQ : Z := 7.
Definition RXTIMING_SETUP_REQ : Z := 8.
Definition TXPARAM_SETUP_REQ : Z := 9.
Definition DL_CHANNEL_REQ : Z := 10.

Definition LINK_ADR_ANS : Z := 3.
Definition DUTY_CYCLE_ANS : Z := 4.
Definition RXPARRAM_SETUP_ANS : Z := 5.
Definition DEV_STATUS_ANS : Z := 6.
Definition NEW_CHANNEL_ANS : Z := 7.
Definition RXTIMING_SETUP_ANS : Z := 8.
Definition TXPARAM_SETUP_ANS : Z := 9.
Definition DL_CHANNEL_ANS : Z := 10.

Definition LINK_CHECK_ANS_SIZE : Z := 3.
Definition LINK_ADR_REQ_SIZE : Z := 5.
Definition DUTY_CYCLE_REQ_SIZE : Z := 2.
Definition RXPARRAM_SETUP_REQ_SIZE : Z := 5.
Definition DEV_STATUS_REQ_SIZE : Z := 1.
Definition NEW_CHANNEL_REQ_SIZE : Z := 6.
Definition RXTIMING_SETUP_REQ_SIZE : Z := 2.
Definition TXPARAM_SETUP_REQ_SIZE : Z := 2.
Definition DL_CHANNEL_REQ_SIZE : Z := 5.

Definition LINK_ADR_ANS_SIZE : Z := 2.
Definition DUTY_CYCLE_ANS_SIZE : Z := 1.
Definition RXPARRAM_SETUP_ANS_SIZE : Z := 2.
Definition DEV_STATUS_ANS_SIZE : Z := 3.
Definition NEW_CHANNEL_ANS_SIZE : Z := 2.
Definition RXTIMING_SETUP_ANS_SIZE : Z := 1.
Definition TXPARAM_SETUP_ANS_SIZE : Z := 1.
Definition DL_CHANNEL_ANS_SIZE : Z := 2.

(** Modelled from the spec: the GFSK whitening and CRC parameters of the
    LoRaWAN FSK data rate, declared outside this file. *)
Definition GFSK_WHITENING_SEED : Z := 0x01FF.
Definition GFSK_CRC_SEED : Z := 0x1D0F.
Definition GFSK_CRC_POLYNOMIAL : Z := 0x1021.

(** ** Enumerations *)

Inductive modulation_type_t := LORA | FSK.
Inductive join_status_t := NOT_JOINED | JOINED.
Inductive lr1mac_radio_state_t :=
  RADIOSTATE_IDLE | RADIOSTATE_TXON | RADIOSTATE_TXFINISHED | RADIOSTATE_RX1FINISHED.
Inductive type_of_ans_t :=
  NOFRAME_TOSEND | NWKFRAME_TOSEND | USERACK_TOSEND | USRFRAME_TORETRANSMIT.
Inductive rx_win_type_t := RX1 | RX2.
Inductive rx_packet_type_t :=
  NO_MORE_VALID_RX_PACKET | USER_RX_PACKET | USERRX_FOPTSPACKET | NWKRXPACKET
| JOIN_ACCEPT_PACKET.
Inductive available_app_packet_t :=
  NO_LORA_RXPACKET_AVAILABLE | LORA_RX_PACKET_AVAILABLE.
Inductive status_channel_t :=
  OKCHANNEL | ERROR_CHANNEL | ERROR_CHANNEL_CNTL | ERROR_CHANNEL_MASK.
Inductive channel_enabled_t := CHANNEL_DISABLED | CHANNEL_ENABLED.

(** The bandwidths, in the order of the [name_bw] table. *)
Inductive lr1mac_bandwidth_t :=
  BW007 | BW010 | BW015 | BW020 | BW031 | BW041 | BW062
| BW125 | BW200 | BW250 | BW400 | BW500 | BW800 | BW1600.

(** ** Radio planner tasks and radio parameters *)

(** Modelled from the spec: the status type of the planner is declared
    outside this file.  The code compares statuses with [RP_HOOK_STATUS_OK]
    only; the two other constructors stand for an unknown hook and for a slot
    that is not free. *)
Inductive rp_hook_status_t :=
  RP_HOOK_STATUS_OK | RP_HOOK_STATUS_ID_ERROR | RP_TASK_STATUS_ALREADY_RUNNING.
Inductive rp_task_type_t :=
  RP_TASK_TYPE_RX_LORA | RP_TASK_TYPE_RX_FSK | RP_TASK_TYPE_TX_LORA
| RP_TASK_TYPE_TX_FSK.
Inductive rp_task_state_t := RP_TASK_STATE_SCHEDULE | RP_TASK_STATE_ASAP.

Record rp_task_t := {
  hook_id : Z;
  task_type : rp_task_type_t;
  task_state : rp_task_state_t;
  start_time_ms : Z;
  duration_time_ms : Z
}.

Inductive ral_gfsk_crc_t := RAL_GFSK_CRC_2_BYTES_INV.

Record ral_params_lora_t := {
  lora_freq_in_hz : Z;
  lora_sf : Z;
  lora_bw : lr1mac_bandwidth_t;
  lora_cr : Z;
  lora_sync_word : Z;
  lora_pbl_len_in_symb : Z;
  lora_pwr_in_dbm : Z;
  lora_pld_len_in_bytes : Z;
  lora_pld_is_fix : bool;
  lora_crc_is_on : bool;
  lora_invert_iq_is_on : bool;
  lora_symb_nb_timeout : Z
}.

Record ral_params_gfsk_t := {
  gfsk_freq_in_hz : Z;
  gfsk_pld_is_fix : bool;
  gfsk_pld_len_in_bytes : Z;
  gfsk_pwr_in_dbm : Z;
  gfsk_fdev_in_hz : Z;
  gfsk_pbl_len_in_bytes : Z;
  gfsk_sync_word : list Z;
  gfsk_sync_word_len_in_bytes : Z;
  gfsk_br_in_bps : Z;
  gfsk_bw_ssb_in_hz : Z;
  gfsk_dc_free_is_on : bool;
  gfsk_whitening_seed : Z;
  gfsk_crc_type : ral_gfsk_crc_t;
  gfsk_crc_seed : Z;
  gfsk_crc_polynomial : Z
}.

(** [rp_radio_params_t]: the packet type with the member of the union that
    the code fills; [RP_PARAMS_ZERO] is the zero-initialised bundle. *)
Inductive rp_radio_params_t :=
| RP_PARAMS_ZERO
| RP_TX_LORA (p : ral_params_lora_t)
| RP_TX_GFSK (p : ral_params_gfsk_t)
| RP_RX_LORA (p : ral_params_lora_t) (timeout_in_ms : Z)
| RP_RX_GFSK (p : ral_params_gfsk_t) (timeout_in_ms : Z).

Definition pkt_type_is_lora (p : rp_radio_params_t) : bool :=
  match p with RP_TX_LORA _ | RP_RX_LORA _ _ => true | _ => false end.

(** ** The MAC object

    [lr1_stack_mac_t]: the fields of the C object that the functions below
    read or write.  [real] is the regional context behind the [real] pointer,
    [rp] the radio planner behind the [rp] pointer, and [mcu_issue] counts the
    calls of the fatal handler [bsp_mcu_handle_lr1mac_issue]. *)

Record lr1_stack_mac_t (R P : Type) := Build_mac {
  real : R;
  rp : P;
  mcu_issue : Z;
  (* identity and keys *)
  dev_eui : list Z;
  app_eui : list Z;
  app_key : list Z;
  nwk_skey : list Z;
  app_skey : list Z;
  dev_nonce : Z;
  dev_addr : Z;
  join_status : join_status_t;
  (* session parameters *)
  fcnt_up : Z;
  fcnt_dwn : Z;
  tx_data_rate : Z;
  tx_data_rate_adr : Z;
  tx_power : Z;
  tx_power_offset : Z;
  nb_trans : Z;
  nb_trans_cpt : Z;
  rx1_dr_offset : Z;
  rx2_data_rate : Z;
  rx1_delay_s : Z;
  max_eirp_dbm : Z;
  uplink_dwell_time : Z;
  downlink_dwell_time : Z;
  max_duty_cycle_index : Z;
  (* uplink frame *)
  tx_fport : Z;
  tx_mtype : Z;
  tx_major_bits : Z;
  tx_fctrl : Z;
  tx_ack_bit : Z;
  app_payload_size : Z;
  tx_payload_size : Z;
  tx_payload : list Z;
  tx_fopts_length : Z;
  tx_fopts_data : list Z;
  tx_fopts_lengthsticky : Z;
  tx_fopts_datasticky : list Z;
  tx_fopts_current_length : Z;
  tx_fopts_current_data : list Z;
  (* downlink frame *)
  rx_fport : Z;
  rx_mtype : Z;
  rx_major : Z;
  rx_fctrl : Z;
  rx_ack_bit : Z;
  rx_fopts_length : Z;
  rx_fopts : list Z;
  rx_payload_size : Z;
  rx_payload : list Z;
  rx_payload_empty : Z;
  available_app_packet : available_app_packet_t;
  (* duty cycle *)
  tx_duty_cycle_time_off_ms : Z;
  tx_duty_cycle_timestamp_ms : Z;
  (* MAC commands and their answers *)
  nwk_payload : list Z;
  nwk_payload_size : Z;
  nwk_payload_index : Z;
  nwk_ans : list Z;
  nwk_ans_size : Z;
  type_of_ans_to_send : type_of_ans_t;
  (* ADR *)
  adr_ack_cnt : Z;
  adr_ack_cnt_confirmed_frame : Z;
  adr_ack_limit : Z;
  adr_ack_delay : Z;
  adr_ack_req : Z;
  adr_enable : Z;
  (* join back-off *)
  next_time_to_join_seconds : Z;
  retry_join_cpt : Z;
  first_join_timestamp : Z;
  (* radio *)
  tx_sf : Z;
  tx_modulation_type : modulation_type_t;
  tx_bw : lr1mac_bandwidth_t;
  tx_frequency : Z;
  rx1_frequency : Z;
  rx1_sf : Z;
  rx1_bw : lr1mac_bandwidth_t;
  rx1_modulation_type : modulation_type_t;
  rx2_frequency : Z;
  rx2_sf : Z;
  rx2_bw : lr1mac_bandwidth_t;
  rx2_modulation_type : modulation_type_t;
  radio_process_state : lr1mac_radio_state_t;
  rx_timeout_ms : Z;
  rx_window_symb : Z;
  rx_offset_ms : Z;
  isr_radio_timestamp : Z;
  rtc_target_timer_ms : Z;
  send_at_time : bool;
  rx_snr : Z;
  rx_rssi : Z
}.

Arguments Build_mac {R P}.
Arguments real {R P}. Arguments rp {R P}. Arguments mcu_issue {R P}.
Arguments dev_eui {R P}. Arguments app_eui {R P}. Arguments app_key {R P}.
Arguments nwk_skey {R P}. Arguments app_skey {R P}. Arguments dev_nonce {R P}.
Arguments dev_addr {R P}. Arguments join_status {R P}. Arguments fcnt_up {R P}.
Arguments fcnt_dwn {R P}. Arguments tx_data_rate {R P}.
Arguments tx_data_rate_adr {R P}. Arguments tx_power {R P}.
Arguments tx_power_offset {R P}. Arguments nb_trans {R P}.
Arguments nb_trans_cpt {R P}. Arguments rx1_dr_offset {R P}.
Arguments rx2_data_rate {R P}. Arguments rx1_delay_s {R P}.
Arguments max_eirp_dbm {R P}. Arguments uplink_dwell_time {R P}.
Arguments downlink_dwell_time {R P}. Arguments max_duty_cycle_index {R P}.
Arguments tx_fport {R P}. Arguments tx_mtype {R P}. Arguments tx_major_bits {R P}.
Arguments tx_fctrl {R P}. Arguments tx_ack_bit {R P}.
Arguments app_payload_size {R P}. Arguments tx_payload_size {R P}.
Arguments tx_payload {R P}. Arguments tx_fopts_length {R P}.
Arguments tx_fopts_data {R P}. Arguments tx_fopts_lengthsticky {R P}.
Arguments tx_fopts_datasticky {R P}. Arguments tx_fopts_current_length {R P}.
Arguments tx_fopts_current_data {R P}. Arguments rx_fport {R P}.
Arguments rx_mtype {R P}. Arguments rx_major {R P}. Arguments rx_fctrl {R P}.
Arguments rx_ack_bit {R P}. Arguments rx_fopts_length {R P}.
Arguments rx_fopts {R P}. Arguments rx_payload_size {R P}.
Arguments rx_payload {R P}. Arguments rx_payload_empty {R P}.
Arguments available_app_packet {R P}.
Arguments tx_duty_cycle_time_off_ms {R P}.
Arguments tx_duty_cycle_timestamp_ms {R P}. Arguments nwk_payload {R P}.
Arguments nwk_payload_size {R P}. Arguments nwk_payload_index {R P}.
Arguments nwk_ans {R P}. Arguments nwk_ans_size {R P}.
Arguments type_of_ans_to_send {R P}. Arguments adr_ack_cnt {R P}.
Arguments adr_ack_cnt_confirmed_frame {R P}. Arguments adr_ack_limit {R P}.
Arguments adr_ack_delay {R P}. Arguments adr_ack_req {R P}.
Arguments adr_enable {R P}. Arguments next_time_to_join_seconds {R P}.
Arguments retry_join_cpt {R P}. Arguments first_join_timestamp {R P}.
Arguments tx_sf {R P}. Arguments tx_modulation_type {R P}. Arguments tx_bw {R P}.
Arguments tx_frequency {R P}. Arguments rx1_frequency {R P}.
Arguments rx1_sf {R P}. Arguments rx1_bw {R P}.
Arguments rx1_modulation_type {R P}. Arguments rx2_frequency {R P}.
Arguments rx2_sf {R P}. Arguments rx2_bw {R P}.
Arguments rx2_modulation_type {R P}. Arguments radio_process_state {R P}.
Arguments rx_timeout_ms {R P}. Arguments rx_window_symb {R P}.
Arguments rx_offset_ms {R P}. Arguments isr_radio_timestamp {R P}.
Arguments rtc_target_timer_ms {R P}. Arguments send_at_time {R P}.
Arguments rx_snr {R P}. Arguments rx_rssi {R P}.

(** Field assignment.  [mac_eta] rebuilds an object from its projections;
    the assignment to one field is obtained by abstracting that projection. *)

Definition mac_eta {R P} (m : lr1_stack_mac_t R P) : lr1_stack_mac_t R P :=
  Build_mac (real m) (rp m) (mcu_issue m) (dev_eui m) (app_eui m) (app_key m)
    (nwk_skey m) (app_skey m) (dev_nonce m) (dev_addr m) (join_status m)
    (fcnt_up m) (fcnt_dwn m) (tx_data_rate m) (tx_data_rate_adr m) (tx_power m)
    (tx_power_offset m) (nb_trans m) (nb_trans_cpt m) (rx1_dr_offset m)
    (rx2_data_rate m) (rx1_delay_s m) (max_eirp_dbm m) (uplink_dwell_time m)
    (downlink_dwell_time m) (max_duty_cycle_index m) (tx_fport m) (tx_mtype m)
    (tx_major_bits m) (tx_fctrl m) (tx_ack_bit m) (app_payload_size m)
    (tx_payload_size m) (tx_payload m) (tx_fopts_length m) (tx_fopts_data m)
    (tx_fopts_lengthsticky m) (tx_fopts_datasticky m)
    (tx_fopts_current_length m) (tx_fopts_current_data m) (rx_fport m)
    (rx_mtype m) (rx_major m) (rx_fctrl m) (rx_ack_bit m) (rx_fopts_length m)
    (rx_fopts m) (rx_payload_size m) (rx_payload m) (rx_payload_empty m)
    (available_app_packet m) (tx_duty_cycle_time_off_ms m)
    (tx_duty_cycle_timestamp_ms m) (nwk_payload m) (nwk_payload_size m)
    (nwk_payload_index m) (nwk_ans m) (nwk_ans_size m) (type_of_ans_to_send m)
    (adr_ack_cnt m) (adr_ack_cnt_confirmed_frame m) (adr_ack_limit m)
    (adr_ack_delay m) (adr_ack_req m) (adr_enable m)
    (next_time_to_join_seconds m) (retry_join_cpt m) (first_join_timestamp m)
    (tx_sf m) (tx_modulation_type m) (tx_bw m) (tx_frequency m)
    (rx1_frequency m) (rx1_sf m) (rx1_bw m) (rx1_modulation_type m)
    (rx2_frequency m) (rx2_sf m) (rx2_bw m) (rx2_modulation_type m)
    (radio_process_state m) (rx_timeout_ms m) (rx_window_symb m)
    (rx_offset_ms m) (isr_radio_timestamp m) (rtc_target_timer_ms m)
    (send_at_time m) (rx_snr m) (rx_rssi m).

Ltac assign_field R P proj :=
  let e := eval cbv beta delta [mac_eta] in (@mac_eta R P) in
  let e' := eval pattern (@proj R P) in e in
  lazymatch e' with
  | ?F _ =>
      let t := eval cbv beta in (fun v (m : lr1_stack_mac_t R P) => F (fun _ => v) m) in
      exact t
  end.

Section Assign.
Context {R P : Type}.
Local Abbreviation mac := (lr1_stack_mac_t R P).

Definition set_real : R -> mac -> mac :=
  ltac:(assign_field R P @real).
Definition set_rp : P -> mac -> mac :=
  ltac:(assign_field R P @rp).
Definition set_mcu_issue : Z -> mac -> mac :=
  ltac:(assign_field R P @mcu_issue).
Definition set_dev_nonce : Z -> mac -> mac :=
  ltac:(assign_field R P @dev_nonce).
Definition set_dev_addr : Z -> mac -> mac :=
  ltac:(assign_field R P @dev_addr).
Definition set_join_status : join_status_t -> mac -> mac :=
  ltac:(assign_field R P @join_status).
Definition set_fcnt_up : Z -> mac -> mac :=
  ltac:(assign_field R P @fcnt_up).
Definition set_fcnt_dwn : Z -> mac -> mac :=
  ltac:(assign_field R P @fcnt_dwn).
Definition set_tx_data_rate : Z -> mac -> mac :=
  ltac:(assign_field R P @tx_data_rate).
Definition set_tx_data_rate_adr : Z -> mac -> mac :=
  ltac:(assign_field R P @tx_data_rate_adr).
Definition set_tx_power : Z -> mac -> mac :=
  ltac:(assign_field R P @tx_power).
Definition set_nb_trans : Z -> mac -> mac :=
  ltac:(assign_field R P @nb_trans).
Definition set_nb_trans_cpt : Z -> mac -> mac :=
  ltac:(assign_field R P @nb_trans_cpt).
Definition set_rx1_dr_offset : Z -> mac -> mac :=
  ltac:(assign_field R P @rx1_dr_offset).
Definition set_rx2_data_rate : Z -> mac -> mac :=
  ltac:(assign_field R P @rx2_data_rate).
Definition set_rx1_delay_s : Z -> mac -> mac :=
  ltac:(assign_field R P @rx1_delay_s).
Definition set_max_eirp_dbm : Z -> mac -> mac :=
  ltac:(assign_field R P @max_eirp_dbm).
Definition set_uplink_dwell_time : Z -> mac -> mac :=
  ltac:(assign_field R P @uplink_dwell_time).
Definition set_downlink_dwell_time : Z -> mac -> mac :=
  ltac:(assign_field R P @downlink_dwell_time).
Definition set_max_duty_cycle_index : Z -> mac -> mac :=
  ltac:(assign_field R P @max_duty_cycle_index).
Definition set_tx_fport : Z -> mac -> mac :=
  ltac:(assign_field R P @tx_fport).
Definition set_tx_mtype : Z -> mac -> mac :=
  ltac:(assign_field R P @tx_mtype).
Definition set_tx_fctrl : Z -> mac -> mac :=
  ltac:(assign_field R P @tx_fctrl).
Definition set_tx_ack_bit : Z -> mac -> mac :=
  ltac:(assign_field R P @tx_ack_bit).
Definition set_app_payload_size : Z -> mac -> mac :=
  ltac:(assign_field R P @app_payload_size).
Definition set_tx_payload_size : Z -> mac -> mac :=
  ltac:(assign_field R P @tx_payload_size).
Definition set_tx_payload : list Z -> mac -> mac :=
  ltac:(assign_field R P @tx_payload).
Definition set_tx_fopts_length : Z -> mac -> mac :=
  ltac:(assign_field R P @tx_fopts_length).
Definition set_tx_fopts_data : list Z -> mac -> mac :=
  ltac:(assign_field R P @tx_fopts_data).
Definition set_tx_fopts_lengthsticky : Z -> mac -> mac :=
  ltac:(assign_field R P @tx_fopts_lengthsticky).
Definition set_tx_fopts_datasticky : list Z -> mac -> mac :=
  ltac:(assign_field R P @tx_fopts_datasticky).
Definition set_tx_fopts_current_length : Z -> mac -> mac :=
  ltac:(assign_field R P @tx_fopts_current_length).
Definition set_tx_fopts_current_data : list Z -> mac -> mac :=
  ltac:(assign_field R P @tx_fopts_current_data).
Definition set_rx_fport : Z -> mac -> mac :=
  ltac:(assign_field R P @rx_fport).
Definition set_rx_mtype : Z -> mac -> mac :=
  ltac:(assign_field R P @rx_mtype).
Definition set_rx_major : Z -> mac -> mac :=
  ltac:(assign_field R P @rx_major).
Definition set_rx_fctrl : Z -> mac -> mac :=
  ltac:(assign_field R P @rx_fctrl).
Definition set_rx_ack_bit : Z -> mac -> mac :=
  ltac:(assign_field R P @rx_ack_bit).
Definition set_rx_fopts_length : Z -> mac -> mac :=
  ltac:(assign_field R P @rx_fopts_length).
Definition set_rx_fopts : list Z -> mac -> mac :=
  ltac:(assign_field R P @rx_fopts).
Definition set_rx_payload_size : Z -> mac -> mac :=
  ltac:(assign_field R P @rx_payload_size).
Definition set_rx_payload : list Z -> mac -> mac :=
  ltac:(assign_field R P @rx_payload).
Definition set_rx_payload_empty : Z -> mac -> mac :=
  ltac:(assign_field R P @rx_payload_empty).
Definition set_available_app_packet : available_app_packet_t -> mac -> mac :=
  ltac:(assign_field R P @available_app_packet).
Definition set_tx_duty_cycle_time_off_ms : Z -> mac -> mac :=
  ltac:(assign_field R P @tx_duty_cycle_time_off_ms).
Definition set_tx_duty_cycle_timestamp_ms : Z -> mac -> mac :=
  ltac:(assign_field R P @tx_duty_cycle_timestamp_ms).
Definition set_nwk_payload : list Z -> mac -> mac :=
  ltac:(assign_field R P @nwk_payload).
Definition set_nwk_payload_size : Z -> mac -> mac :=
  ltac:(assign_field R P @nwk_payload_size).
Definition set_nwk_payload_index : Z -> mac -> mac :=
  ltac:(assign_field R P @nwk_payload_index).
Definition set_nwk_ans : list Z -> mac -> mac :=
  ltac:(assign_field R P @nwk_ans).
Definition set_nwk_ans_size : Z -> mac -> mac :=
  ltac:(assign_field R P @nwk_ans_size).
Definition set_type_of_ans_to_send : type_of_ans_t -> mac -> mac :=
  ltac:(assign_field R P @type_of_ans_to_send).
Definition set_adr_ack_cnt : Z -> mac -> mac :=
  ltac:(assign_field R P @adr_ack_cnt).
Definition set_adr_ack_cnt_confirmed_frame : Z -> mac -> mac :=
  ltac:(assign_field R P @adr_ack_cnt_confirmed_frame).
Definition set_adr_ack_limit : Z -> mac -> mac :=
  ltac:(assign_field R P @adr_ack_limit).
Definition set_adr_ack_delay : Z -> mac -> mac :=
  ltac:(assign_field R P @adr_ack_delay).
Definition set_adr_ack_req : Z -> mac -> mac :=
  ltac:(assign_field R P @adr_ack_req).
Definition set_next_time_to_join_seconds : Z -> mac -> mac :=
  ltac:(assign_field R P @next_time_to_join_seconds).
Definition set_retry_join_cpt : Z -> mac -> mac :=
  ltac:(assign_field R P @retry_join_cpt).
Definition set_rx1_frequency : Z -> mac -> mac :=
  ltac:(assign_field R P @rx1_frequency).
Definition set_rx1_sf : Z -> mac -> mac :=
  ltac:(assign_field R P @rx1_sf).
Definition set_rx1_bw : lr1mac_bandwidth_t -> mac -> mac :=
  ltac:(assign_field R P @rx1_bw).
Definition set_rx1_modulation_type : modulation_type_t -> mac -> mac :=
  ltac:(assign_field R P @rx1_modulation_type).
Definition set_rx2_frequency : Z -> mac -> mac :=
  ltac:(assign_field R P @rx2_frequency).
Definition set_rx2_sf : Z -> mac -> mac :=
  ltac:(assign_field R P @rx2_sf).
Definition set_rx2_bw : lr1mac_bandwidth_t -> mac -> mac :=
  ltac:(assign_field R P @rx2_bw).
Definition set_rx2_modulation_type : modulation_type_t -> mac -> mac :=
  ltac:(assign_field R P @rx2_modulation_type).
Definition set_radio_process_state : lr1mac_radio_state_t -> mac -> mac :=
  ltac:(assign_field R P @radio_process_state).
Definition set_rx_timeout_ms : Z -> mac -> mac :=
  ltac:(assign_field R P @rx_timeout_ms).
Definition set_rx_window_symb : Z -> mac -> mac :=
  ltac:(assign_field R P @rx_window_symb).
Definition set_rx_offset_ms : Z -> mac -> mac :=
  ltac:(assign_field R P @rx_offset_ms).
Definition set_isr_radio_timestamp : Z -> mac -> mac :=
  ltac:(assign_field R P @isr_radio_timestamp).
Definition set_send_at_time : bool -> mac -> mac :=
  ltac:(assign_field R P @send_at_time).
Definition set_rx_snr : Z -> mac -> mac :=
  ltac:(assign_field R P @rx_snr).
Definition set_rx_rssi : Z -> mac -> mac :=
  ltac:(assign_field R P @rx_rssi).

(** [bsp_mcu_handle_lr1mac_issue ()]: the fatal handler is recorded. *)
Definition bsp_mcu_handle_lr1mac_issue (m : mac) : mac :=
  set_mcu_issue (mcu_issue m + 1) m.
End Assign.

(** ** Collaborators

    The regional layer, the crypto primitives, the radio planner and the
    board support package are outside this file.  Each is a record of the
    operations that the MAC layer calls.  An operation that receives the
    [lr1_mac] pointer and may write through it is a function from objects to
    objects. *)

Record smtc_real_ops (R P : Type) := {
  ADR_LIMIT_CONF_UP : Z;
  NO_RX_PACKET_CNT : Z;
  smtc_real_default_max_eirp_get : lr1_stack_mac_t R P -> Z;
  smtc_real_adr_ack_limit_get : lr1_stack_mac_t R P -> Z;
  smtc_real_adr_ack_delay_get : lr1_stack_mac_t R P -> Z;
  smtc_real_get_join_sf5_toa_in_ms : lr1_stack_mac_t R P -> Z;
  smtc_real_next_dr_get : lr1_stack_mac_t R P -> lr1_stack_mac_t R P;
  smtc_real_dr_decrement : lr1_stack_mac_t R P -> lr1_stack_mac_t R P;
  smtc_real_min_dr_channel_get : lr1_stack_mac_t R P -> Z;
  smtc_real_max_dr_channel_get : lr1_stack_mac_t R P -> Z;
  smtc_real_is_valid_size : lr1_stack_mac_t R P -> Z -> Z -> Z;
  smtc_real_max_payload_size_get : lr1_stack_mac_t R P -> Z -> Z;
  smtc_real_coding_rate_get : lr1_stack_mac_t R P -> Z;
  smtc_real_sync_word_get : lr1_stack_mac_t R P -> Z;
  smtc_real_preamble_get : lr1_stack_mac_t R P -> Z -> Z;
  smtc_real_gfsk_sync_word_get : lr1_stack_mac_t R P -> list Z;
  smtc_real_rx_config_set :
    lr1_stack_mac_t R P -> rx_win_type_t -> lr1_stack_mac_t R P;
  smtc_real_memory_save : lr1_stack_mac_t R P -> lr1_stack_mac_t R P;
  smtc_real_channel_mask_build :
    lr1_stack_mac_t R P -> Z -> Z -> status_channel_t * lr1_stack_mac_t R P;
  smtc_real_is_acceptable_dr : lr1_stack_mac_t R P -> Z -> Z;
  smtc_real_is_valid_tx_power : lr1_stack_mac_t R P -> Z -> Z;
  smtc_real_channel_mask_set : lr1_stack_mac_t R P -> lr1_stack_mac_t R P;
  smtc_real_power_set : lr1_stack_mac_t R P -> Z -> lr1_stack_mac_t R P;
  smtc_real_is_valid_rx1_dr_offset : lr1_stack_mac_t R P -> Z -> Z;
  smtc_real_is_valid_dr : lr1_stack_mac_t R P -> Z -> Z;
  smtc_real_decode_freq_from_buf : lr1_stack_mac_t R P -> list Z -> Z;
  smtc_real_is_valid_rx_frequency : lr1_stack_mac_t R P -> Z -> Z;
  smtc_real_is_valid_channel_index : lr1_stack_mac_t R P -> Z -> Z;
  smtc_real_is_valid_tx_frequency : lr1_stack_mac_t R P -> Z -> Z;
  smtc_real_tx_frequency_channel_set :
    lr1_stack_mac_t R P -> Z -> Z -> lr1_stack_mac_t R P;
  smtc_real_rx1_frequency_channel_set :
    lr1_stack_mac_t R P -> Z -> Z -> lr1_stack_mac_t R P;
  smtc_real_min_dr_channel_set :
    lr1_stack_mac_t R P -> Z -> Z -> lr1_stack_mac_t R P;
  smtc_real_max_dr_channel_set :
    lr1_stack_mac_t R P -> Z -> Z -> lr1_stack_mac_t R P;
  smtc_real_channel_enabled_set :
    lr1_stack_mac_t R P -> channel_enabled_t -> Z -> lr1_stack_mac_t R P;
  smtc_real_tx_frequency_channel_get : lr1_stack_mac_t R P -> Z -> Z;
  smtc_real_max_eirp_dbm_from_idx : Z -> Z;
  lr1mac_cmd_mac_ans_size : Z -> Z
}.

Arguments ADR_LIMIT_CONF_UP {R P}. Arguments NO_RX_PACKET_CNT {R P}.
Arguments smtc_real_default_max_eirp_get {R P}.
Arguments smtc_real_adr_ack_limit_get {R P}.
Arguments smtc_real_adr_ack_delay_get {R P}.
Arguments smtc_real_get_join_sf5_toa_in_ms {R P}.
Arguments smtc_real_next_dr_get {R P}. Arguments smtc_real_dr_decrement {R P}.
Arguments smtc_real_min_dr_channel_get {R P}.
Arguments smtc_real_max_dr_channel_get {R P}.
Arguments smtc_real_is_valid_size {R P}.
Arguments smtc_real_max_payload_size_get {R P}.
Arguments smtc_real_coding_rate_get {R P}.
Arguments smtc_real_sync_word_get {R P}. Arguments smtc_real_preamble_get {R P}.
Arguments smtc_real_gfsk_sync_word_get {R P}.
Arguments smtc_real_rx_config_set {R P}. Arguments smtc_real_memory_save {R P}.
Arguments smtc_real_channel_mask_build {R P}.
Arguments smtc_real_is_acceptable_dr {R P}.
Arguments smtc_real_is_valid_tx_power {R P}.
Arguments smtc_real_channel_mask_set {R P}. Arguments smtc_real_power_set {R P}.
Arguments smtc_real_is_valid_rx1_dr_offset {R P}.
Arguments smtc_real_is_valid_dr {R P}.
Arguments smtc_real_decode_freq_from_buf {R P}.
Arguments smtc_real_is_valid_rx_frequency {R P}.
Arguments smtc_real_is_valid_channel_index {R P}.
Arguments smtc_real_is_valid_tx_frequency {R P}.
Arguments smtc_real_tx_frequency_channel_set {R P}.
Arguments smtc_real_rx1_frequency_channel_set {R P}.
Arguments smtc_real_min_dr_channel_set {R P}.
Arguments smtc_real_max_dr_channel_set {R P}.
Arguments smtc_real_channel_enabled_set {R P}.
Arguments smtc_real_tx_frequency_channel_get {R P}.
Arguments smtc_real_max_eirp_dbm_from_idx {R P}.
Arguments lr1mac_cmd_mac_ans_size {R P}.

(** Crypto primitives.  A C call [f (buf, size, ...)] receives the [size]
    bytes at [buf] as a list; a primitive that writes bytes returns them. *)
Record crypto_ops := {
  lora_crypto_payload_encrypt : list Z -> list Z -> Z -> Z -> Z -> list Z;
  lora_crypto_add_mic : list Z -> list Z -> Z -> Z -> Z -> list Z;
  payload_decrypt : list Z -> list Z -> Z -> Z -> Z -> list Z;
  check_mic : list Z -> list Z -> Z -> Z -> Z -> Z;
  join_compute_mic : list Z -> list Z -> Z;
  join_decrypt : list Z -> list Z -> list Z;
  check_join_mic : list Z -> list Z -> Z -> Z
}.

(** Radio planner: hook lookup, task submission, and the packet status that
    the planner latched for a hook. *)
Record rp_ops (P : Type) := {
  rp_hook_get_id : P -> rp_hook_status_t * Z;
  rp_task_enqueue :
    P -> rp_task_t -> list Z -> Z -> rp_radio_params_t -> rp_hook_status_t * P;
  rp_snr_pkt_in_db : P -> Z -> Z;
  rp_rssi_pkt_in_dbm : P -> Z -> Z
}.

Arguments rp_hook_get_id {P}. Arguments rp_task_enqueue {P}.
Arguments rp_snr_pkt_in_db {P}. Arguments rp_rssi_pkt_in_dbm {P}.

(** Board support: compile-time board constants, the radio selected at
    compile time, and the battery gauge. *)
Inductive radio_board_t := SX1280 | SX126X.

Record bsp_ops := {
  radio_board : radio_board_t;
  BSP_CRYSTAL_ERROR : Z;
  BSP_BOARD_DELAY_RX_SETTING_MS : Z;
  BSP_MIN_RX_TIMEOUT_DELAY_MS : Z;
  bsp_mcu_get_battery_level : Z
}.

(** ** Frame counter window *)

(** [fcnt_dwn_accept (fcnt_dwn_tmp, &fcnt_lorawan)]: the returned pair is the
    status and the value left in [*fcnt_lorawan]. *)
Definition fcnt_dwn_accept (fcnt_dwn_tmp fcnt_lorawan : Z) : Z * Z :=
  let fcnt_dwn_lsb := u16 (Z.land fcnt_lorawan 0x0000FFFF) in
  let fcnt_dwn_msb := Z.land fcnt_lorawan 0xFFFF0000 in
  if (fcnt_dwn_tmp >? fcnt_dwn_lsb) || (fcnt_lorawan =? 0xFFFFFFFF) then
    if fcnt_lorawan =? 0xFFFFFFFF
    then (OKLORAWAN, fcnt_dwn_tmp)
    else (OKLORAWAN, u32 (fcnt_dwn_msb + fcnt_dwn_tmp))
  else if fcnt_dwn_lsb - fcnt_dwn_tmp >? MAX_FCNT_GAP then
    (OKLORAWAN, u32 (fcnt_dwn_msb + Z.shiftl 1 16 + fcnt_dwn_tmp))
  else (ERRORLORAWAN, fcnt_lorawan).

(** ** RX window parameters *)

Definition bw_khz (bw : lr1mac_bandwidth_t) : Z :=
  match bw with
  | BW125 => 125
  | BW250 => 250
  | BW500 => 500
  | BW800 => 800
  | BW1600 => 1600
  | _ => 125
  end.

(** The values computed by [compute_rx_window_parameters], before they are
    stored: [tsymbol], [rx_window_symb], [rx_offset_ms], [rx_timeout_ms]. *)
Definition rx_error_ms_of (clock_accuracy rx_delay_ms : Z) : Z :=
  u32 (clock_accuracy * rx_delay_ms) / 1000.

Definition min_rx_symbols : Z := 6.

Definition tsymbol_of (sf : Z) (bw : lr1mac_bandwidth_t)
  (rx_modulation_type : modulation_type_t) : Q :=
  match rx_modulation_type with
  | LORA => inject_Z (Z.shiftl 1 sf) / inject_Z (bw_khz bw)
  | FSK => 8 / inject_Z sf
  end%Q.

Definition rx_window_symb_of (sf : Z) (bw : lr1mac_bandwidth_t)
  (clock_accuracy rx_delay_ms : Z) (rx_modulation_type : modulation_type_t) : Z :=
  let rx_error_ms := rx_error_ms_of clock_accuracy rx_delay_ms in
  match rx_modulation_type with
  | LORA =>
      let bw_temp := bw_khz bw in
      u16 (MAX (u32 ((2 * min_rx_symbols - 8)
                     + Z.shiftr (u32 (2 * rx_error_ms * bw_temp)) sf + 1))
               min_rx_symbols)
  | FSK =>
      u16 (MAX (u32 ((2 * min_rx_symbols - 8)
                     + Z.shiftr (u32 (2 * rx_error_ms * sf)) 3 + 1))
               min_rx_symbols)
  end.

Definition rx_offset_ms_of (tsymbol : Q) (rx_window_symb board_delay_ms : Z) : Z :=
  Qceiling (4 * tsymbol - (inject_Z rx_window_symb * tsymbol) / 2
            - inject_Z board_delay_ms) * (-1).

Definition rx_timeout_ms_of (tsymbol : Q) (rx_window_symb : Z) : Z :=
  Qceiling (inject_Z rx_window_symb * tsymbol).

(** ** The MAC layer functions *)

(** [n] consecutive cells of a buffer, from cell [off]. *)
Definition buf_sub (l : list Z) (off n : Z) : list Z :=
  firstn (Z.to_nat n) (skipn (Z.to_nat off) l).

(** The [uint32_t] read by [memcpy (&x, &buf[off], 4)] on the little-endian
    target. *)
Definition le32_read (l : list Z) (off : Z) : Z :=
  buf_get l off + Z.shiftl (buf_get l (off + 1)) 8
  + Z.shiftl (buf_get l (off + 2)) 16 + Z.shiftl (buf_get l (off + 3)) 24.

Section MacLayer.
Context {R P : Type}.
Context (rl : smtc_real_ops R P) (cr : crypto_ops) (rpo : rp_ops P)
        (bsp : bsp_ops).
Local Abbreviation mac := (lr1_stack_mac_t R P).

(** [now_ms] is the value returned by [bsp_rtc_get_time_ms ()]. *)
Definition lr1_stack_mac_session_init (now_ms : Z) (m : mac) : mac :=
  let m := set_fcnt_dwn 0xFFFFFFFF m in
  let m := set_fcnt_up 0 m in
  let m := set_retry_join_cpt 0 m in
  let m := set_adr_ack_cnt 0 m in
  let m := set_adr_ack_cnt_confirmed_frame 0 m in
  let m := set_tx_fopts_current_length 0 m in
  let m := set_tx_fopts_length 0 m in
  let m := set_tx_fopts_lengthsticky 0 m in
  let m := set_nwk_ans_size 0 m in
  let m := set_nwk_payload_size 0 m in
  let m := set_nwk_payload_index 0 m in
  let m := set_max_eirp_dbm (smtc_real_default_max_eirp_get rl m) m in
  let m := set_uplink_dwell_time 1 m in
  let m := set_downlink_dwell_time 1 m in
  let m := set_max_duty_cycle_index 0 m in
  let m := set_tx_duty_cycle_time_off_ms 0 m in
  set_tx_duty_cycle_timestamp_ms now_ms m.

Definition mac_header_set (m : mac) : mac :=
  set_tx_payload
    (buf_set (tx_payload m) 0
       (u8 (Z.shiftl (Z.land (tx_mtype m) 0x7) 5 + Z.land (tx_major_bits m) 0x3)))
    m.

Definition frame_header_set (m : mac) : mac :=
  let p := tx_payload m in
  let p := buf_set p 1 (u8 (Z.land (dev_addr m) 0x000000FF)) in
  let p := buf_set p 2 (u8 (Z.shiftr (Z.land (dev_addr m) 0x0000FF00) 8)) in
  let p := buf_set p 3 (u8 (Z.shiftr (Z.land (dev_addr m) 0x00FF0000) 16)) in
  let p := buf_set p 4 (u8 (Z.shiftr (Z.land (dev_addr m) 0xFF000000) 24)) in
  let p := buf_set p 5 (tx_fctrl m) in
  let p := buf_set p 6 (u8 (Z.land (fcnt_up m) 0x000000FF)) in
  let p := buf_set p 7 (u8 (Z.shiftr (Z.land (fcnt_up m) 0x0000FF00) 8)) in
  let p := memcpy p 8 (tx_fopts_current_data m) (tx_fopts_current_length m) in
  let p := buf_set p (8 + tx_fopts_current_length m) (tx_fport m) in
  set_tx_payload p m.

Definition lr1_stack_mac_tx_frame_build (m : mac) : mac :=
  let m := set_tx_fctrl 0 m in
  let m := set_tx_fctrl
             (u8 (Z.shiftl (adr_enable m) 7 + Z.shiftl (adr_ack_req m) 6
                  + Z.shiftl (tx_ack_bit m) 5
                  + Z.land (tx_fopts_current_length m) 0x0F)) m in
  let m := set_tx_ack_bit 0 m in
  let m := set_rx_ack_bit 0 m in
  let m := mac_header_set m in
  let m := frame_header_set m in
  set_tx_payload_size
    (u8 (app_payload_size m + FHDROFFSET + tx_fopts_current_length m)) m.

Definition lr1_stack_mac_tx_frame_encrypt (m : mac) : mac :=
  let off := FHDROFFSET + tx_fopts_current_length m in
  let enc :=
    lora_crypto_payload_encrypt cr
      (buf_sub (tx_payload m) off (app_payload_size m))
      (if tx_fport m =? PORTNWK then nwk_skey m else app_skey m)
      (dev_addr m) UP_LINK (fcnt_up m) in
  let m := set_tx_payload
             (memcpy (tx_payload m) off enc (app_payload_size m)) m in
  let mic :=
    lora_crypto_add_mic cr (frame_bytes (tx_payload m) (tx_payload_size m))
      (nwk_skey m) (dev_addr m) UP_LINK (fcnt_up m) in
  let m := set_tx_payload (memcpy (tx_payload m) (tx_payload_size m) mic 4) m in
  set_tx_payload_size (u8 (tx_payload_size m + 4)) m.

(** The radio parameters and the planner task prepared by
    [lr1_stack_mac_tx_radio_start]. *)
Definition tx_radio_params (m : mac) : rp_radio_params_t :=
  match tx_modulation_type m with
  | LORA =>
      RP_TX_LORA
        {| lora_freq_in_hz := tx_frequency m;
           lora_sf := tx_sf m;
           lora_bw := tx_bw m;
           lora_cr := smtc_real_coding_rate_get rl m;
           lora_sync_word := smtc_real_sync_word_get rl m;
           lora_pbl_len_in_symb := smtc_real_preamble_get rl m (tx_sf m);
           lora_pwr_in_dbm := tx_power m + tx_power_offset m;
           lora_pld_len_in_bytes := tx_payload_size m;
           lora_pld_is_fix := false;
           lora_crc_is_on := true;
           lora_invert_iq_is_on := false;
           lora_symb_nb_timeout := 0 |}
  | FSK =>
      RP_TX_GFSK
        {| gfsk_freq_in_hz := tx_frequency m;
           gfsk_pld_is_fix := false;
           gfsk_pld_len_in_bytes := tx_payload_size m;
           gfsk_pwr_in_dbm := tx_power m + tx_power_offset m;
           gfsk_fdev_in_hz := 25000;
           gfsk_pbl_len_in_bytes := 5;
           gfsk_sync_word := smtc_real_gfsk_sync_word_get rl m;
           gfsk_sync_word_len_in_bytes := 3;
           gfsk_br_in_bps := tx_sf m * 1000;
           gfsk_bw_ssb_in_hz := tx_sf m * 1000;
           gfsk_dc_free_is_on := true;
           gfsk_whitening_seed := GFSK_WHITENING_SEED;
           gfsk_crc_type := RAL_GFSK_CRC_2_BYTES_INV;
           gfsk_crc_seed := GFSK_CRC_SEED;
           gfsk_crc_polynomial := GFSK_CRC_POLYNOMIAL |}
  end.

Definition tx_rp_task (m : mac) (my_hook_id : Z) : rp_task_t :=
  {| hook_id := my_hook_id;
     task_type := match tx_modulation_type m with
                  | LORA => RP_TASK_TYPE_TX_LORA
                  | FSK => RP_TASK_TYPE_TX_FSK
                  end;
     task_state := if send_at_time m then RP_TASK_STATE_SCHEDULE
                   else RP_TASK_STATE_ASAP;
     start_time_ms := rtc_target_timer_ms m;
     duration_time_ms := 2000 |}.

Definition lr1_stack_mac_tx_radio_start (m : mac) : mac :=
  let radio_params := tx_radio_params m in
  let '(hook_status, my_hook_id) := rp_hook_get_id rpo (rp m) in
  let m := match hook_status with
           | RP_HOOK_STATUS_OK => m
           | _ => bsp_mcu_handle_lr1mac_issue m
           end in
  let rp_task := tx_rp_task m my_hook_id in
  let m := if send_at_time m then set_send_at_time false m else m in
  let '(enq, rp') :=
    rp_task_enqueue rpo (rp m) rp_task (tx_payload m) (tx_payload_size m)
      radio_params in
  let m := set_rp rp' m in
  match enq with
  | RP_HOOK_STATUS_OK =>
      let m := set_radio_process_state RADIOSTATE_TXON m in
      if tx_mtype m =? CONF_DATA_UP
      then set_adr_ack_cnt_confirmed_frame (adr_ack_cnt_confirmed_frame m + 1) m
      else set_adr_ack_cnt (adr_ack_cnt m + 1) m
  | _ => m
  end.

(** ** Join request *)

(** The loop that copies the two EUIs, last byte first. *)
Fixpoint join_eui_copy (n : nat) (i : Z) (app_eui dev_eui : list Z)
  (p : list Z) : list Z :=
  match n with
  | O => p
  | S k =>
      let p := buf_set p (1 + i) (buf_get app_eui (7 - i)) in
      let p := buf_set p (9 + i) (buf_get dev_eui (7 - i)) in
      join_eui_copy k (i + 1) app_eui dev_eui p
  end.

Definition lr1_stack_mac_join_request_build (m : mac) : mac :=
  let m := set_dev_nonce (u16 (dev_nonce m + 1)) m in
  let m := set_tx_mtype JOIN_REQUEST m in
  let m := set_nb_trans_cpt 1 m in
  let m := set_nb_trans 1 m in
  let m := mac_header_set m in
  let p := join_eui_copy 8 0 (app_eui m) (dev_eui m) (tx_payload m) in
  let p := buf_set p 17 (u8 (Z.land (dev_nonce m) 0x00FF)) in
  let p := buf_set p 18 (u8 (Z.shiftr (Z.land (dev_nonce m) 0xFF00) 8)) in
  let m := set_tx_payload p m in
  let m := set_tx_payload_size 19 m in
  let mic :=
    join_compute_mic cr (frame_bytes (tx_payload m) (tx_payload_size m))
      (app_key m) in
  let m := set_tx_payload
             (memcpy (tx_payload m) (tx_payload_size m) (le32_bytes mic) 4) m in
  let m := set_tx_payload_size (u8 (tx_payload_size m + 4)) m in
  smtc_real_memory_save rl m.

(** ** Duty-cycle timer *)

(** [rtc_now] is the value returned by [bsp_rtc_get_time_ms ()]; the
    result is the [int32_t] returned. *)
Definition lr1_stack_network_next_free_duty_cycle_ms_get (rtc_now : Z)
  (m : mac) : Z :=
  if tx_duty_cycle_time_off_ms m >? 0 then
    let delta_t :=
      if rtc_now >=? tx_duty_cycle_timestamp_ms m
      then u32 (rtc_now - tx_duty_cycle_timestamp_ms m)
      else u32 (u32 (0xFFFFFFFF - tx_duty_cycle_timestamp_ms m) + rtc_now) in
    if delta_t >? tx_duty_cycle_time_off_ms m
    then 0
    else i32 (tx_duty_cycle_time_off_ms m - delta_t)
  else 0.

(** ** RX windows *)

Definition compute_rx_window_parameters (m : mac) (sf : Z)
  (bw : lr1mac_bandwidth_t) (clock_accuracy rx_delay_ms board_delay_ms : Z)
  (rx_modulation_type : modulation_type_t) : mac :=
  let tsymbol := tsymbol_of sf bw rx_modulation_type in
  let rx_window_symb :=
    rx_window_symb_of sf bw clock_accuracy rx_delay_ms rx_modulation_type in
  let m := set_rx_offset_ms
             (rx_offset_ms_of tsymbol rx_window_symb board_delay_ms) m in
  let m := set_rx_window_symb rx_window_symb m in
  set_rx_timeout_ms (rx_timeout_ms_of tsymbol rx_window_symb) m.

Definition rx_modulation_of (m : mac) (type : rx_win_type_t) : modulation_type_t :=
  match type with
  | RX1 => rx1_modulation_type m
  | RX2 => rx2_modulation_type m
  end.

Definition rx_radio_params (m : mac) (type : rx_win_type_t) : rp_radio_params_t :=
  match rx_modulation_of m type with
  | LORA =>
      let sf := match type with RX1 => rx1_sf m | RX2 => rx2_sf m end in
      RP_RX_LORA
        {| lora_freq_in_hz :=
             match type with RX1 => rx1_frequency m | RX2 => rx2_frequency m end;
           lora_sf := sf;
           lora_bw := match type with RX1 => rx1_bw m | RX2 => rx2_bw m end;
           lora_cr := smtc_real_coding_rate_get rl m;
           lora_sync_word := smtc_real_sync_word_get rl m;
           lora_pbl_len_in_symb := smtc_real_preamble_get rl m sf;
           lora_pwr_in_dbm := 0;
           lora_pld_len_in_bytes := 255;
           lora_pld_is_fix := false;
           lora_crc_is_on := false;
           lora_invert_iq_is_on := true;
           lora_symb_nb_timeout := rx_window_symb m |}
        match radio_board bsp with
        | SX1280 => MAX (rx_timeout_ms m) (BSP_MIN_RX_TIMEOUT_DELAY_MS bsp)
        | SX126X => 3000
        end
  | FSK =>
      let sf := match type with RX1 => rx1_sf m | RX2 => rx2_sf m end in
      RP_RX_GFSK
        {| gfsk_freq_in_hz :=
             match type with RX1 => rx1_frequency m | RX2 => rx2_frequency m end;
           gfsk_pld_is_fix := false;
           gfsk_pld_len_in_bytes := 255;
           gfsk_pwr_in_dbm := 0;
           gfsk_fdev_in_hz := 0;
           gfsk_pbl_len_in_bytes := 5;
           gfsk_sync_word := smtc_real_gfsk_sync_word_get rl m;
           gfsk_sync_word_len_in_bytes := 3;
           gfsk_br_in_bps := sf * 1000;
           gfsk_bw_ssb_in_hz := sf * 1000;
           gfsk_dc_free_is_on := true;
           gfsk_whitening_seed := GFSK_WHITENING_SEED;
           gfsk_crc_type := RAL_GFSK_CRC_2_BYTES_INV;
           gfsk_crc_seed := GFSK_CRC_SEED;
           gfsk_crc_polynomial := GFSK_CRC_POLYNOMIAL |}
        (rx_timeout_ms m)
  end.

Definition rx_rp_task (m : mac) (type : rx_win_type_t) (my_hook_id : Z)
  (time_to_start : Z) : rp_task_t :=
  {| hook_id := my_hook_id;
     task_type := if pkt_type_is_lora (rx_radio_params m type)
                  then RP_TASK_TYPE_RX_LORA else RP_TASK_TYPE_RX_FSK;
     task_state := RP_TASK_STATE_SCHEDULE;
     start_time_ms := time_to_start;
     duration_time_ms := rx_timeout_ms m |}.

Definition lr1_stack_mac_rx_radio_start (m : mac) (type : rx_win_type_t)
  (time_to_start : Z) : mac :=
  let radio_params := rx_radio_params m type in
  let '(hook_status, my_hook_id) := rp_hook_get_id rpo (rp m) in
  let m := match hook_status with
           | RP_HOOK_STATUS_OK => m
           | _ => bsp_mcu_handle_lr1mac_issue m
           end in
  let rp_task := rx_rp_task m type my_hook_id time_to_start in
  let '(_, rp') :=
    rp_task_enqueue rpo (rp m) rp_task (rx_payload m) 255 radio_params in
  set_rp rp' m.

(** The delay of a window after the end of the transmission. *)
Definition rx_delay_ms_of (m : mac) (type : rx_win_type_t) : Z :=
  match type with
  | RX1 => u32 (rx1_delay_s m * 1000)
  | RX2 => u32 (rx1_delay_s m * 1000 + 1000)
  end.

(** [tcurrent_ms] is the clock read at the entry of the function, [now2_ms]
    the clock read when the planner task is built. *)
Definition lr1_stack_mac_rx_timer_configure (tcurrent_ms now2_ms : Z)
  (m : mac) (type : rx_win_type_t) : mac :=
  let m := smtc_real_rx_config_set rl m type in
  let sf := match type with RX1 => rx1_sf m | RX2 => rx2_sf m end in
  let bw := match type with RX1 => rx1_bw m | RX2 => rx2_bw m end in
  let delay_ms := rx_delay_ms_of m type in
  let mod_type := rx_modulation_of m type in
  let m := compute_rx_window_parameters m (u8 sf) bw (BSP_CRYSTAL_ERROR bsp)
             delay_ms (u8 (BSP_BOARD_DELAY_RX_SETTING_MS bsp)) mod_type in
  let talarm_ms := u32 (delay_ms + isr_radio_timestamp m - tcurrent_ms) in
  if i32 (talarm_ms - rx_offset_ms m) <? 0 then
    match type with
    | RX1 => set_radio_process_state RADIOSTATE_RX1FINISHED m
    | RX2 => set_radio_process_state RADIOSTATE_IDLE m
    end
  else
    let m := smtc_real_rx_config_set rl m type in
    lr1_stack_mac_rx_radio_start m type
      (u32 (now2_ms + talarm_ms - rx_offset_ms m)).

(** ** Downlink decoding *)

Definition rx_payload_size_check (m : mac) : Z :=
  if rx_payload_size m <? MIN_LORAWAN_PAYLOAD_SIZE then ERRORLORAWAN
  else OKLORAWAN.

Definition is_uplink_mtype (t : Z) : bool :=
  (t =? JOIN_REQUEST) || (t =? UNCONF_DATA_UP) || (t =? CONF_DATA_UP)
  || (t =? REJOIN_REQUEST).

Definition rx_mhdr_extract (m : mac) : Z * mac :=
  let m := set_rx_mtype (Z.shiftr (buf_get (rx_payload m) 0) 5) m in
  let m := set_rx_major (Z.land (buf_get (rx_payload m) 0) 0x3) m in
  let status := if is_uplink_mtype (rx_mtype m) then ERRORLORAWAN
                else OKLORAWAN in
  let m := set_tx_ack_bit (if rx_mtype m =? CONF_DATA_DOWN then 1 else 0) m in
  (status, m).

(** Returns the status, the 16-bit counter read from the frame, and the
    object. *)
Definition rx_fhdr_extract (m : mac) (dev_addr_ref : Z) : Z * Z * mac :=
  let dev_addr_tmp := u32 (le32_read (rx_payload m) 1) in
  let status := if dev_addr_tmp =? dev_addr_ref then OKLORAWAN
                else ERRORLORAWAN in
  let m := set_rx_fctrl (buf_get (rx_payload m) 5) m in
  let fcnt_dwn_tmp :=
    u16 (buf_get (rx_payload m) 6 + Z.shiftl (buf_get (rx_payload m) 7) 8) in
  let m := set_rx_fopts_length (Z.land (rx_fctrl m) 0x0F) m in
  let m := set_rx_fopts
             (memcpy (rx_fopts m) 0 (skipn 8 (rx_payload m))
                (rx_fopts_length m)) m in
  let m :=
    if rx_payload_size m >? 8 + MICSIZE + rx_fopts_length m then
      let m := set_rx_fport
                 (buf_get (rx_payload m) (8 + rx_fopts_length m)) m in
      set_rx_payload_empty 0 m
    else set_rx_payload_empty 1 m in
  (status, fcnt_dwn_tmp, m).

(** The part of [lr1_stack_mac_rx_frame_decode] that runs once the MIC of
    a data frame has been verified. *)
Definition rx_frame_accept (m : mac) : rx_packet_type_t * mac :=
  let m := set_adr_ack_cnt 0 m in
  let m := set_adr_ack_cnt_confirmed_frame 0 m in
  let m := set_tx_fopts_lengthsticky 0 m in
  let ack := Z.land (rx_fctrl m) 0x20 =? 0x20 in
  let conf := tx_mtype m =? CONF_DATA_UP in
  let m := if negb (negb ack && conf) then set_nb_trans_cpt 1 m else m in
  let m := if ack && conf then set_rx_ack_bit 1 m else m in
  if rx_payload_empty m =? 0 then
    let m := set_rx_payload_size
               (u8 (rx_payload_size m - FHDROFFSET - rx_fopts_length m)) m in
    if rx_fport m =? 0 then
      if rx_fopts_length m =? 0 then
        let dec :=
          payload_decrypt cr
            (buf_sub (rx_payload m) FHDROFFSET (rx_payload_size m))
            (nwk_skey m) (dev_addr m) 1 (fcnt_dwn m) in
        let m := set_nwk_payload
                   (memcpy (nwk_payload m) 0 dec (rx_payload_size m)) m in
        let m := set_nwk_payload_size (rx_payload_size m) m in
        (NWKRXPACKET, m)
      else (NO_MORE_VALID_RX_PACKET, m)
    else
      let dec :=
        payload_decrypt cr
          (buf_sub (rx_payload m) (FHDROFFSET + rx_fopts_length m)
             (rx_payload_size m))
          (app_skey m) (dev_addr m) 1 (fcnt_dwn m) in
      let m := set_rx_payload
                 (memcpy (rx_payload m) 0 dec (rx_payload_size m)) m in
      let '(t, m) :=
        if negb (rx_fopts_length m =? 0) then
          let m := set_nwk_payload
                     (memcpy (nwk_payload m) 0 (rx_fopts m)
                        (rx_fopts_length m)) m in
          (USERRX_FOPTSPACKET, set_nwk_payload_size (rx_fopts_length m) m)
        else (NO_MORE_VALID_RX_PACKET, m) in
      (t, set_available_app_packet LORA_RX_PACKET_AVAILABLE m)
  else
    if negb (rx_fopts_length m =? 0) then
      let m := set_nwk_payload
                 (memcpy (nwk_payload m) 0 (rx_fopts m) (rx_fopts_length m)) m in
      (USERRX_FOPTSPACKET, set_nwk_payload_size (rx_fopts_length m) m)
    else (NO_MORE_VALID_RX_PACKET, m).

Definition lr1_stack_mac_rx_frame_decode (m : mac) : rx_packet_type_t * mac :=
  let status := OKLORAWAN in
  let status := status + rx_payload_size_check m in
  let '(st, m) := rx_mhdr_extract m in
  let status := status + st in
  if rx_mtype m =? JOIN_ACCEPT then
    let dec :=
      join_decrypt cr (buf_sub (rx_payload m) 1 (rx_payload_size m - 1))
        (app_key m) in
    let m := set_rx_payload
               (memcpy (rx_payload m) 1 dec (rx_payload_size m - 1)) m in
    let m := set_rx_payload_size (u8 (rx_payload_size m - MICSIZE)) m in
    let mic_in := le32_read (rx_payload m) (rx_payload_size m) in
    let status :=
      status + check_join_mic cr
                 (frame_bytes (rx_payload m) (rx_payload_size m))
                 (app_key m) mic_in in
    if status =? OKLORAWAN then (JOIN_ACCEPT_PACKET, m)
    else (NO_MORE_VALID_RX_PACKET, m)
  else
    let '(st, fcnt_dwn_tmp, m) := rx_fhdr_extract m (dev_addr m) in
    let status := status + st in
    let '(status, m) :=
      if status =? OKLORAWAN then
        let '(st, c) := fcnt_dwn_accept fcnt_dwn_tmp (fcnt_dwn m) in
        (st, set_fcnt_dwn c m)
      else (status, m) in
    let '(status, m) :=
      if status =? OKLORAWAN then
        let m := set_rx_payload_size (u8 (rx_payload_size m - MICSIZE)) m in
        let mic_in := le32_read (rx_payload m) (rx_payload_size m) in
        (status + check_mic cr
                    (frame_bytes (rx_payload m) (rx_payload_size m))
                    (nwk_skey m) (dev_addr m) (fcnt_dwn m) mic_in, m)
      else (status, m) in
    if status =? OKLORAWAN then rx_frame_accept m
    else (NO_MORE_VALID_RX_PACKET, m).

(** ** Periodic update: join back-off, ADR, retransmission, MAC answers *)

Fixpoint cmd_ans_cut_loop (fuel : nat) (nwk_ans : list Z)
  (nwk_ans_size_in max_allowed_size p_tmp p : Z) : Z :=
  match fuel with
  | O => p
  | S k =>
      if p_tmp <? MIN nwk_ans_size_in max_allowed_size then
        let p_tmp := p_tmp + lr1mac_cmd_mac_ans_size rl (buf_get nwk_ans p_tmp) in
        if p_tmp <=? max_allowed_size
        then cmd_ans_cut_loop k nwk_ans nwk_ans_size_in max_allowed_size p_tmp p_tmp
        else p
      else p
  end.

(** The loop visits at most 255 commands when every answer has a positive
    size. *)
Definition lr1_stack_mac_cmd_ans_cut (nwk_ans : list Z)
  (nwk_ans_size_in max_allowed_size : Z) : Z :=
  u8 (cmd_ans_cut_loop 256 nwk_ans nwk_ans_size_in max_allowed_size 0 0).

Definition join_toa_ms (m : mac) : Z :=
  u32 (Z.shiftl (smtc_real_get_join_sf5_toa_in_ms rl m) (tx_sf m - 5)).

(** The ADR part of [lr1_stack_mac_update]. *)
Definition update_adr (m : mac) : mac :=
  let m :=
    if (adr_ack_cnt m >=? adr_ack_limit m)
       && (adr_ack_cnt m <=? adr_ack_limit m + adr_ack_delay m)
    then set_adr_ack_req 1 m else m in
  let m :=
    if (adr_ack_cnt m <? adr_ack_limit m)
       || (adr_ack_cnt m >? adr_ack_limit m + adr_ack_delay m)
    then set_adr_ack_req 0 m else m in
  let m :=
    if adr_ack_cnt m >=? adr_ack_limit m + adr_ack_delay m then
      let m := smtc_real_dr_decrement rl m in
      if negb (tx_data_rate_adr m =? smtc_real_min_dr_channel_get rl m)
      then set_adr_ack_cnt (adr_ack_limit m) m
      else m
    else m in
  let m :=
    if adr_ack_cnt_confirmed_frame m >=? ADR_LIMIT_CONF_UP rl then
      let m := set_adr_ack_cnt_confirmed_frame 0 m in
      smtc_real_dr_decrement rl m
    else m in
  if adr_ack_cnt m + adr_ack_cnt_confirmed_frame m >=? NO_RX_PACKET_CNT rl
  then bsp_mcu_handle_lr1mac_issue m
  else m.

(** The selection of the carrier of the MAC answers. *)
Definition update_fopts (m : mac) : mac :=
  let m :=
    if tx_fopts_length m + tx_fopts_lengthsticky m >? 15 then
      let m := set_nwk_ans_size
                 (u8 (tx_fopts_lengthsticky m + tx_fopts_length m)) m in
      let m := set_nwk_ans
                 (memcpy (nwk_ans m) 0 (tx_fopts_datasticky m)
                    (tx_fopts_lengthsticky m)) m in
      let m := set_nwk_ans
                 (memcpy (nwk_ans m) (tx_fopts_lengthsticky m)
                    (tx_fopts_data m) (tx_fopts_length m)) m in
      set_type_of_ans_to_send NWKFRAME_TOSEND m
    else
      let m := set_tx_fopts_current_length
                 (u8 (tx_fopts_lengthsticky m + tx_fopts_length m)) m in
      let m := set_tx_fopts_current_data
                 (memcpy (tx_fopts_current_data m) 0 (tx_fopts_datasticky m)
                    (tx_fopts_lengthsticky m)) m in
      set_tx_fopts_current_data
        (memcpy (tx_fopts_current_data m) (tx_fopts_lengthsticky m)
           (tx_fopts_data m) (tx_fopts_length m)) m in
  set_tx_fopts_length 0 m.

(** The [NWKFRAME_TOSEND] case of the final [switch]. *)
Definition update_nwk_frame (m : mac) : mac :=
  let status :=
    smtc_real_is_valid_size rl m (tx_data_rate m) (nwk_ans_size m) in
  let m :=
    if negb (status =? OKLORAWAN) then
      set_nwk_ans_size
        (lr1_stack_mac_cmd_ans_cut (nwk_ans m) (nwk_ans_size m)
           (u8 (smtc_real_max_payload_size_get rl m (tx_data_rate m)))) m
    else m in
  let m := set_tx_payload
             (memcpy (tx_payload m) FHDROFFSET (nwk_ans m) (nwk_ans_size m)) m in
  let m := set_app_payload_size (nwk_ans_size m) m in
  let m := set_tx_fport PORTNWK m in
  let m := set_tx_mtype UNCONF_DATA_UP m in
  let m := lr1_stack_mac_tx_frame_build m in
  lr1_stack_mac_tx_frame_encrypt m.

(** The join back-off, or the selection of the next data rate.
    [current_time_s] is the value returned by [bsp_rtc_get_time_s ()]. *)
Definition update_join (current_time_s : Z) (m : mac) : mac :=
  match join_status m with
  | NOT_JOINED =>
      let m := set_retry_join_cpt (u32 (retry_join_cpt m + 1)) m in
      if current_time_s <? u32 (first_join_timestamp m + 3600) then
        set_next_time_to_join_seconds
          (u32 (current_time_s + join_toa_ms m / 10)) m
      else if current_time_s <? u32 (first_join_timestamp m + 36000 + 3600) then
        set_next_time_to_join_seconds
          (u32 (current_time_s + join_toa_ms m)) m
      else
        set_next_time_to_join_seconds
          (u32 (current_time_s + u32 (join_toa_ms m * 10))) m
  | JOINED => smtc_real_next_dr_get rl m
  end.

(** The retransmission counter and the uplink frame counter. *)
Definition update_retrans (m : mac) : mac :=
  if nb_trans_cpt m <=? 1 then
    let m := set_fcnt_up (u32 (fcnt_up m + 1)) m in
    set_nb_trans_cpt 1 m
  else
    let m := set_type_of_ans_to_send USRFRAME_TORETRANSMIT m in
    set_nb_trans_cpt (nb_trans_cpt m - 1) m.

(** The final [switch (type_of_ans_to_send)]. *)
Definition update_send (m : mac) : mac :=
  match type_of_ans_to_send m with
  | NWKFRAME_TOSEND => update_nwk_frame m
  | _ => m
  end.

(** [lr1_stack_mac_update], block after block. *)
Definition lr1_stack_mac_update (current_time_s : Z) (m : mac) : mac :=
  let m := set_adr_ack_limit (smtc_real_adr_ack_limit_get rl m) m in
  let m := set_adr_ack_delay (smtc_real_adr_ack_delay_get rl m) m in
  let m := set_type_of_ans_to_send NOFRAME_TOSEND m in
  let m := update_join current_time_s m in
  let m := update_adr m in
  let m := update_retrans m in
  let m := update_fopts m in
  update_send m.

(** ** MAC command parser *)

Definition link_check_parser (m : mac) : mac :=
  set_nwk_payload_index (u8 (nwk_payload_index m + LINK_CHECK_ANS_SIZE)) m.

(** The byte at offset [k] of the command under the cursor. *)
Definition cmd_byte (m : mac) (k : Z) : Z :=
  buf_get (nwk_payload m) (nwk_payload_index m + k).

(** First loop of [link_adr_parser]: the unified channel mask. *)
Fixpoint link_adr_mask_loop (n : nat) (i : Z) (m : mac)
  (statusChannel : status_channel_t) (status_ans : Z)
  : mac * status_channel_t * Z :=
  match n with
  | O => (m, statusChannel, status_ans)
  | S k =>
      let channel_mask_temp :=
        u16 (cmd_byte m (i * LINK_ADR_REQ_SIZE + 2)
             + Z.shiftl (cmd_byte m (i * LINK_ADR_REQ_SIZE + 3)) 8) in
      let ChMAstCntlTemp :=
        Z.shiftr (Z.land (cmd_byte m (i * LINK_ADR_REQ_SIZE + 4)) 0x70) 4 in
      let '(statusChannel, m) :=
        smtc_real_channel_mask_build rl m ChMAstCntlTemp channel_mask_temp in
      let status_ans :=
        match statusChannel with
        | ERROR_CHANNEL_CNTL => Z.land status_ans 0x6
        | _ => status_ans
        end in
      link_adr_mask_loop k (i + 1) m statusChannel status_ans
  end.

(** Last loop of [link_adr_parser]: one answer per request. *)
Fixpoint link_adr_ans_loop (n : nat) (i : Z) (len status_ans : Z)
  (d : list Z) : list Z :=
  match n with
  | O => d
  | S k =>
      let d := buf_set d (len + i * LINK_ADR_ANS_SIZE) LINK_ADR_ANS in
      let d := buf_set d (len + i * LINK_ADR_ANS_SIZE + 1) status_ans in
      link_adr_ans_loop k (i + 1) len status_ans d
  end.

Definition link_adr_parser (m : mac) (nb_link_adr_req : Z) : mac :=
  let '(m, statusChannel, status_ans) :=
    link_adr_mask_loop (Z.to_nat nb_link_adr_req) 0 m OKCHANNEL 0x7 in
  let status_ans :=
    match statusChannel with
    | ERROR_CHANNEL_MASK => Z.land status_ans 0x6
    | _ => status_ans
    end in
  let last := (nb_link_adr_req - 1) * LINK_ADR_REQ_SIZE in
  let dr_tmp := Z.shiftr (Z.land (cmd_byte m (last + 1)) 0xF0) 4 in
  let status_ans :=
    if smtc_real_is_acceptable_dr rl m dr_tmp =? ERRORLORAWAN
    then Z.land status_ans 0x5 else status_ans in
  let tx_power_tmp := Z.land (cmd_byte m (last + 1)) 0x0F in
  let status_ans :=
    if smtc_real_is_valid_tx_power rl m tx_power_tmp =? ERRORLORAWAN
    then Z.land status_ans 0x3 else status_ans in
  let nb_trans_tmp := Z.land (cmd_byte m (last + 4)) 0x0F in
  let m :=
    if status_ans =? 0x7 then
      let m := smtc_real_channel_mask_set rl m in
      let m := smtc_real_power_set rl m tx_power_tmp in
      let m := set_nb_trans nb_trans_tmp m in
      set_tx_data_rate_adr dr_tmp m
    else m in
  let m := set_tx_fopts_data
             (link_adr_ans_loop (Z.to_nat nb_link_adr_req) 0
                (tx_fopts_length m) status_ans (tx_fopts_data m)) m in
  let m := set_nwk_payload_index
             (u8 (nwk_payload_index m + nb_link_adr_req * LINK_ADR_REQ_SIZE)) m in
  set_tx_fopts_length
    (u8 (tx_fopts_length m + nb_link_adr_req * LINK_ADR_ANS_SIZE)) m.

Definition rx_param_setup_parser (m : mac) : mac :=
  let status_ans := 0x7 in
  let rx1_dr_offset_temp := Z.shiftr (Z.land (cmd_byte m 1) 0x70) 4 in
  let status_ans :=
    if smtc_real_is_valid_rx1_dr_offset rl m rx1_dr_offset_temp =? ERRORLORAWAN
    then Z.land status_ans 0x6 else status_ans in
  let rx2_dr_temp := Z.land (cmd_byte m 1) 0x0F in
  let status_ans :=
    if smtc_real_is_valid_dr rl m rx2_dr_temp =? ERRORLORAWAN
    then Z.land status_ans 0x5 else status_ans in
  let rx2_frequency_temp :=
    smtc_real_decode_freq_from_buf rl m
      (skipn (Z.to_nat (nwk_payload_index m + 2)) (nwk_payload m)) in
  let status_ans :=
    if smtc_real_is_valid_rx_frequency rl m rx2_frequency_temp =? ERRORLORAWAN
    then Z.land status_ans 0x3 else status_ans in
  let m :=
    if status_ans =? 0x7 then
      let m := set_rx1_dr_offset rx1_dr_offset_temp m in
      let m := set_rx2_data_rate rx2_dr_temp m in
      set_rx2_frequency rx2_frequency_temp m
    else m in
  let d := buf_set (tx_fopts_datasticky m) (tx_fopts_lengthsticky m)
             RXPARRAM_SETUP_ANS in
  let d := buf_set d (tx_fopts_lengthsticky m + 1) status_ans in
  let m := set_tx_fopts_datasticky d m in
  let m := set_tx_fopts_lengthsticky
             (u8 (tx_fopts_lengthsticky m + RXPARRAM_SETUP_ANS_SIZE)) m in
  set_nwk_payload_index (u8 (nwk_payload_index m + RXPARRAM_SETUP_REQ_SIZE)) m.

Definition duty_cycle_parser (m : mac) : mac :=
  let m := set_max_duty_cycle_index (Z.land (cmd_byte m 1) 0x0F) m in
  let m := set_tx_fopts_data
             (buf_set (tx_fopts_data m) (tx_fopts_length m) DUTY_CYCLE_ANS) m in
  let m := set_tx_fopts_length (u8 (tx_fopts_length m + DUTY_CYCLE_ANS_SIZE)) m in
  set_nwk_payload_index (u8 (nwk_payload_index m + DUTY_CYCLE_REQ_SIZE)) m.

Definition dev_status_parser (m : mac) : mac :=
  let '(_, my_hook_id) := rp_hook_get_id rpo (rp m) in
  let d := buf_set (tx_fopts_data m) (tx_fopts_length m) DEV_STATUS_ANS in
  let d := buf_set d (tx_fopts_length m + 1)
             (u8 (bsp_mcu_get_battery_level bsp)) in
  let d := buf_set d (tx_fopts_length m + 2)
             (Z.land (rp_snr_pkt_in_db rpo (rp m) my_hook_id) 0x3F) in
  let m := set_tx_fopts_data d m in
  let m := set_tx_fopts_length (u8 (tx_fopts_length m + DEV_STATUS_ANS_SIZE)) m in
  set_nwk_payload_index (u8 (nwk_payload_index m + DEV_STATUS_REQ_SIZE)) m.

Definition new_channel_parser (m : mac) : mac :=
  let status_ans := 0x3 in
  let channel_index_temp := cmd_byte m 1 in
  let status_ans :=
    if smtc_real_is_valid_channel_index rl m channel_index_temp =? ERRORLORAWAN
    then Z.land status_ans 0x0 else status_ans in
  let frequency_temp :=
    smtc_real_decode_freq_from_buf rl m
      (skipn (Z.to_nat (nwk_payload_index m + 2)) (nwk_payload m)) in
  let status_ans :=
    if smtc_real_is_valid_tx_frequency rl m frequency_temp =? ERRORLORAWAN
    then Z.land status_ans 0x2 else status_ans in
  let dr_range_min_temp := Z.land (cmd_byte m 5) 0xF in
  let status_ans :=
    if smtc_real_is_valid_dr rl m dr_range_min_temp =? ERRORLORAWAN
    then Z.land status_ans 0x1 else status_ans in
  let dr_range_max_temp := Z.shiftr (Z.land (cmd_byte m 5) 0xF0) 4 in
  let status_ans :=
    if smtc_real_is_valid_dr rl m dr_range_max_temp =? ERRORLORAWAN
    then Z.land status_ans 0x1 else status_ans in
  let status_ans :=
    if dr_range_max_temp <? dr_range_min_temp
    then Z.land status_ans 0x1 else status_ans in
  let m :=
    if status_ans =? 0x3 then
      let m := smtc_real_tx_frequency_channel_set rl m frequency_temp
                 channel_index_temp in
      let m := smtc_real_rx1_frequency_channel_set rl m frequency_temp
                 channel_index_temp in
      let m := smtc_real_min_dr_channel_set rl m dr_range_min_temp
                 channel_index_temp in
      let m := smtc_real_max_dr_channel_set rl m dr_range_max_temp
                 channel_index_temp in
      if frequency_temp =? 0
      then smtc_real_channel_enabled_set rl m CHANNEL_DISABLED channel_index_temp
      else smtc_real_channel_enabled_set rl m CHANNEL_ENABLED channel_index_temp
    else m in
  let d := buf_set (tx_fopts_data m) (tx_fopts_length m) NEW_CHANNEL_ANS in
  let d := buf_set d (tx_fopts_length m + 1) status_ans in
  let m := set_tx_fopts_data d m in
  let m := set_tx_fopts_length (u8 (tx_fopts_length m + NEW_CHANNEL_ANS_SIZE)) m in
  set_nwk_payload_index (u8 (nwk_payload_index m + NEW_CHANNEL_REQ_SIZE)) m.

Definition rx_timing_setup_parser (m : mac) : mac :=
  let m := set_rx1_delay_s (Z.land (cmd_byte m 1) 0xF) m in
  let m := if rx1_delay_s m =? 0 then set_rx1_delay_s 1 m else m in
  let m := set_tx_fopts_datasticky
             (buf_set (tx_fopts_datasticky m) (tx_fopts_lengthsticky m)
                RXTIMING_SETUP_ANS) m in
  let m := set_tx_fopts_lengthsticky
             (u8 (tx_fopts_lengthsticky m + RXTIMING_SETUP_ANS_SIZE)) m in
  set_nwk_payload_index (u8 (nwk_payload_index m + RXTIMING_SETUP_REQ_SIZE)) m.

Definition tx_param_setup_parser (m : mac) : mac :=
  let m := set_max_eirp_dbm
             (smtc_real_max_eirp_dbm_from_idx rl (Z.land (cmd_byte m 1) 0x0F)) m in
  let m := set_uplink_dwell_time
             (Z.shiftr (Z.land (cmd_byte m 1) 0x10) 4) m in
  let m := set_downlink_dwell_time
             (Z.shiftr (Z.land (cmd_byte m 1) 0x20) 5) m in
  let m := set_tx_fopts_datasticky
             (buf_set (tx_fopts_datasticky m) (tx_fopts_lengthsticky m)
                TXPARAM_SETUP_ANS) m in
  let m := set_tx_fopts_lengthsticky
             (u8 (tx_fopts_lengthsticky m + TXPARAM_SETUP_ANS_SIZE)) m in
  set_nwk_payload_index (u8 (nwk_payload_index m + TXPARAM_SETUP_REQ_SIZE)) m.

Definition dl_channel_parser (m : mac) : mac :=
  let status_ans := 0x3 in
  let channel_index_temp := cmd_byte m 1 in
  let status_ans :=
    if smtc_real_tx_frequency_channel_get rl m channel_index_temp =? 0
    then Z.land status_ans 0x1 else status_ans in
  let frequency_temp :=
    smtc_real_decode_freq_from_buf rl m
      (skipn (Z.to_nat (nwk_payload_index m + 2)) (nwk_payload m)) in
  let status_ans :=
    if smtc_real_is_valid_rx_frequency rl m frequency_temp =? ERRORLORAWAN
    then Z.land status_ans 0x2 else status_ans in
  let m :=
    if status_ans =? 0x3
    then smtc_real_rx1_frequency_channel_set rl m frequency_temp
           channel_index_temp
    else m in
  let d := buf_set (tx_fopts_datasticky m) (tx_fopts_lengthsticky m)
             DL_CHANNEL_ANS in
  let d := buf_set d (tx_fopts_lengthsticky m + 1) status_ans in
  let m := set_tx_fopts_datasticky d m in
  let m := set_tx_fopts_lengthsticky
             (u8 (tx_fopts_lengthsticky m + DL_CHANNEL_ANS_SIZE)) m in
  set_nwk_payload_index (u8 (nwk_payload_index m + DL_CHANNEL_REQ_SIZE)) m.

(** The inner [while] of the [LINK_ADR_REQ] case: the number of contiguous
    LinkADRReq blocks.  The cell is read before the bound is tested, as in
    the source; at most 51 blocks fit in a payload. *)
Fixpoint count_link_adr_req (fuel : nat) (m : mac) (nb_link_adr_req : Z) : Z :=
  match fuel with
  | O => nb_link_adr_req
  | S k =>
      if (cmd_byte m (nb_link_adr_req * LINK_ADR_REQ_SIZE) =? LINK_ADR_REQ)
         && (nwk_payload_index m + nb_link_adr_req * LINK_ADR_REQ_SIZE
             <? nwk_payload_size m)
      then count_link_adr_req k m (u8 (nb_link_adr_req + 1))
      else nb_link_adr_req
  end.

(** The nine command identifiers that the [switch] recognises. *)
Definition is_known_cid (c : Z) : bool :=
  (c =? LINK_CHECK_ANS) || (c =? LINK_ADR_REQ) || (c =? DUTY_CYCLE_REQ)
  || (c =? RXPARRAM_SETUP_REQ) || (c =? DEV_STATUS_REQ)
  || (c =? NEW_CHANNEL_REQ) || (c =? RXTIMING_SETUP_REQ)
  || (c =? TXPARAM_SETUP_REQ) || (c =? DL_CHANNEL_REQ).

(** The [switch (cmd_identifier)] of the parser loop. *)
Definition cmd_dispatch (cmd_identifier : Z) (m : mac) : mac :=
  if cmd_identifier =? LINK_CHECK_ANS then link_check_parser m
  else if cmd_identifier =? LINK_ADR_REQ then
    link_adr_parser m (count_link_adr_req 256 m 0)
  else if cmd_identifier =? DUTY_CYCLE_REQ then duty_cycle_parser m
  else if cmd_identifier =? RXPARRAM_SETUP_REQ then rx_param_setup_parser m
  else if cmd_identifier =? DEV_STATUS_REQ then dev_status_parser m
  else if cmd_identifier =? NEW_CHANNEL_REQ then new_channel_parser m
  else if cmd_identifier =? RXTIMING_SETUP_REQ then rx_timing_setup_parser m
  else if cmd_identifier =? TXPARAM_SETUP_REQ then tx_param_setup_parser m
  else if cmd_identifier =? DL_CHANNEL_REQ then dl_channel_parser m
  else set_nwk_payload_size 0 m.

(** One evaluation of the loop condition and, when it holds, one pass
    through the loop body. *)
Inductive parse_step :=
| PARSE_RETURN (status : Z) (m : mac)
| PARSE_CONTINUE (m : mac).

Definition cmd_parse_iteration (m : mac) : parse_step :=
  if nwk_payload_size m >? nwk_payload_index m then
    if tx_fopts_length m >? 200 then PARSE_RETURN ERRORLORAWAN m
    else
      PARSE_CONTINUE
        (cmd_dispatch (buf_get (nwk_payload m) (nwk_payload_index m)) m)
  else PARSE_RETURN OKLORAWAN m.

Fixpoint cmd_parse_loop (fuel : nat) (m : mac) : option (Z * mac) :=
  match fuel with
  | O => None
  | S k =>
      match cmd_parse_iteration m with
      | PARSE_RETURN status m' => Some (status, m')
      | PARSE_CONTINUE m' => cmd_parse_loop k m'
      end
  end.

(** The assignments that precede the loop. *)
Definition cmd_parse_init (m : mac) : mac :=
  let m := set_nwk_payload_index 0 m in
  let m := set_nwk_ans_size 0 m in
  let m := set_tx_fopts_length 0 m in
  set_tx_fopts_lengthsticky 0 m.

(** [fuel] bounds the number of evaluations of the loop condition; [None]
    means that the bound was reached before the function returned. *)
Definition lr1_stack_mac_cmd_parse (fuel : nat) (m : mac)
  : option (Z * mac) :=
  cmd_parse_loop fuel (cmd_parse_init m).

(** [k] passes through the loop body lead from [m] to [m']. *)
Fixpoint cmd_parse_reaches (k : nat) (m m' : mac) : Prop :=
  match k with
  | O => m = m'
  | S j =>
      match cmd_parse_iteration m with
      | PARSE_CONTINUE m1 => cmd_parse_reaches j m1 m'
      | PARSE_RETURN _ _ => False
      end
  end.
End MacLayer.


(** The status that the planner returns to the enqueue of
    [lr1_stack_mac_tx_radio_start]. *)
Definition tx_enqueue_status {R P : Type} (rl : smtc_real_ops R P)
  (rpo : rp_ops P) (m : lr1_stack_mac_t R P) : rp_hook_status_t :=
  fst (rp_task_enqueue rpo (rp m)
         (tx_rp_task m (snd (rp_hook_get_id rpo (rp m))))
         (tx_payload m) (tx_payload_size m) (tx_radio_params rl m)).


(** The fields that the ADR fallback reads or writes: the ADR data rate,
    the two counters of uplinks without downlink, the ADR constants and the
    regional context. *)
Definition adr_view {R P : Type} (m : lr1_stack_mac_t R P)
  : Z * Z * Z * Z * Z * R :=
  (tx_data_rate_adr m, adr_ack_cnt m, adr_ack_cnt_confirmed_frame m,
   adr_ack_limit m, adr_ack_delay m, real m).

(** The fields that the decoding of a data frame reads up to the MIC check,
    with the two ADR counters that a valid downlink resets. *)
Definition rx_view {R P : Type} (m : lr1_stack_mac_t R P)
  : list Z * Z * Z * list Z * Z * Z * Z :=
  (rx_payload m, rx_payload_size m, dev_addr m, nwk_skey m, fcnt_dwn m,
   adr_ack_cnt m, adr_ack_cnt_confirmed_frame m).


(** The regional layer configures the radio settings of an RX window; it
    leaves the timing fields, the radio state and the planner alone. *)
Definition rx_config_frame {R P : Type} (rl : smtc_real_ops R P) : Prop :=
  forall (m : lr1_stack_mac_t R P) (type : rx_win_type_t),
    let m' := smtc_real_rx_config_set rl m type in
    rx1_delay_s m' = rx1_delay_s m
    /\ isr_radio_timestamp m' = isr_radio_timestamp m
    /\ rx_offset_ms m' = rx_offset_ms m
    /\ radio_process_state m' = radio_process_state m
    /\ rp m' = rp m.

(** The state that the radio state machine takes when a window is declared
    missed. *)
Definition rx_missed_state (type : rx_win_type_t) : lr1mac_radio_state_t :=
  match type with
  | RX1 => RADIOSTATE_RX1FINISHED
  | RX2 => RADIOSTATE_IDLE
  end.


(** The buffer of [lr1_stack_mac_join_request_build] when the MIC is
    computed: MHDR, the two EUIs and the incremented DevNonce are in place. *)
Definition join_body {R P : Type} (m : lr1_stack_mac_t R P) : list Z :=
  buf_set
    (buf_set
       (join_eui_copy 8 0 (app_eui m) (dev_eui m)
          (buf_set (tx_payload m) 0
             (u8 (Z.shiftl (Z.land JOIN_REQUEST 0x7) 5
                  + Z.land (tx_major_bits m) 0x3))))
       17 (u8 (Z.land (u16 (dev_nonce m + 1)) 0x00FF)))
    18 (u8 (Z.shiftr (Z.land (u16 (dev_nonce m + 1)) 0xFF00) 8)).


(** ** Reference collaborators

    Concrete collaborators on which the MAC layer can be run: a region with
    one data-rate range, a one-slot radio planner, checksum stand-ins for
    the AES primitives, and a board.  They serve to evaluate the functions
    above on concrete scenarios. *)

Module Ref.

(** The regional context: ADR constants, the data-rate range of the enabled
    channels, the largest payload, and the DevNonce last written to
    non-volatile memory. *)
Record region_t := {
  reg_adr_ack_limit : Z;
  reg_adr_ack_delay : Z;
  reg_min_dr : Z;
  reg_max_dr : Z;
  reg_max_payload : Z;
  nvm_dev_nonce : Z
}.

(** The planner slot of the MAC hook: the task in flight, if any. *)
Definition planner_t := option (rp_task_t * rp_radio_params_t).

Abbreviation mac := (lr1_stack_mac_t region_t planner_t).

(** Modelled from the spec: [smtc_real_dr_decrement] is outside this file;
    the spec says that the ADR fallback decrements the data rate, down to the
    minimum. *)
Definition dr_decrement (m : mac) : mac :=
  if tx_data_rate_adr m >? reg_min_dr (real m)
  then set_tx_data_rate_adr (tx_data_rate_adr m - 1) m
  else m.

(** Modelled from the spec: [smtc_real_next_dr_get] is outside this file; the
    transmit data rate is the ADR-controlled one. *)
Definition next_dr_get (m : mac) : mac :=
  set_tx_data_rate (tx_data_rate_adr m) m.

(** Modelled from the spec: [smtc_real_memory_save] is outside this file; the
    DevNonce belongs to the persistence surface. *)
Definition memory_save (m : mac) : mac :=
  set_real
    {| reg_adr_ack_limit := reg_adr_ack_limit (real m);
       reg_adr_ack_delay := reg_adr_ack_delay (real m);
       reg_min_dr := reg_min_dr (real m);
       reg_max_dr := reg_max_dr (real m);
       reg_max_payload := reg_max_payload (real m);
       nvm_dev_nonce := dev_nonce m |} m.

(** Modelled from the spec: [smtc_real_rx_config_set] is outside this file;
    RX1 listens with the data rate of the transmission (RX1 data-rate offset
    0) on the frequency of the transmission, RX2 with the session's RX2
    parameters, which are already in the object. *)
Definition rx_config_set (m : mac) (type : rx_win_type_t) : mac :=
  match type with
  | RX1 =>
      set_rx1_frequency (tx_frequency m)
        (set_rx1_modulation_type (tx_modulation_type m)
           (set_rx1_bw (tx_bw m) (set_rx1_sf (tx_sf m) m)))
  | RX2 => m
  end.

Definition in_dr_range (m : mac) (dr : Z) : Z :=
  if (reg_min_dr (real m) <=? dr) && (dr <=? reg_max_dr (real m))
  then OKLORAWAN else ERRORLORAWAN.

(** Modelled from the spec: the sizes of the MAC answers by CID, a table
    outside this file (LinkCheckReq 1, LinkADRAns 2, DutyCycleAns 1,
    RXParamSetupAns 2, DevStatusAns 3, NewChannelAns 2, RXTimingSetupAns 1,
    TXParamSetupAns 1, DLChannelAns 2). *)
Definition cmd_mac_ans_size (cid : Z) : Z :=
  if cid =? 2 then 1
  else if cid =? LINK_ADR_ANS then LINK_ADR_ANS_SIZE
  else if cid =? DUTY_CYCLE_ANS then DUTY_CYCLE_ANS_SIZE
  else if cid =? RXPARRAM_SETUP_ANS then RXPARRAM_SETUP_ANS_SIZE
  else if cid =? DEV_STATUS_ANS then DEV_STATUS_ANS_SIZE
  else if cid =? NEW_CHANNEL_ANS then NEW_CHANNEL_ANS_SIZE
  else if cid =? RXTIMING_SETUP_ANS then RXTIMING_SETUP_ANS_SIZE
  else if cid =? TXPARAM_SETUP_ANS then TXPARAM_SETUP_ANS_SIZE
  else if cid =? DL_CHANNEL_ANS then DL_CHANNEL_ANS_SIZE
  else 0.

(** The region.  The operations that the scenarios do not exercise accept
    their argument and leave the object unchanged. *)
Definition region : smtc_real_ops region_t planner_t := {|
  ADR_LIMIT_CONF_UP := 4;
  NO_RX_PACKET_CNT := 2400;
  smtc_real_default_max_eirp_get := fun _ => 16;
  smtc_real_adr_ack_limit_get := fun m => reg_adr_ack_limit (real m);
  smtc_real_adr_ack_delay_get := fun m => reg_adr_ack_delay (real m);
  smtc_real_get_join_sf5_toa_in_ms := fun _ => 21;
  smtc_real_next_dr_get := next_dr_get;
  smtc_real_dr_decrement := dr_decrement;
  smtc_real_min_dr_channel_get := fun m => reg_min_dr (real m);
  smtc_real_max_dr_channel_get := fun m => reg_max_dr (real m);
  smtc_real_is_valid_size :=
    fun m _ size => if size <=? reg_max_payload (real m) then OKLORAWAN
                    else ERRORLORAWAN;
  smtc_real_max_payload_size_get := fun m _ => reg_max_payload (real m);
  smtc_real_coding_rate_get := fun _ => 1;
  smtc_real_sync_word_get := fun _ => 0x34;
  smtc_real_preamble_get := fun _ _ => 8;
  smtc_real_gfsk_sync_word_get := fun _ => [0xC1; 0x94; 0xC1];
  smtc_real_rx_config_set := rx_config_set;
  smtc_real_memory_save := memory_save;
  smtc_real_channel_mask_build := fun m _ _ => (OKCHANNEL, m);
  smtc_real_is_acceptable_dr := in_dr_range;
  smtc_real_is_valid_tx_power := fun _ _ => OKLORAWAN;
  smtc_real_channel_mask_set := fun m => m;
  smtc_real_power_set := fun m _ => m;
  smtc_real_is_valid_rx1_dr_offset := fun _ _ => OKLORAWAN;
  smtc_real_is_valid_dr := in_dr_range;
  smtc_real_decode_freq_from_buf :=
    fun _ b => (buf_get b 0 + Z.shiftl (buf_get b 1) 8
                + Z.shiftl (buf_get b 2) 16) * 100;
  smtc_real_is_valid_rx_frequency := fun _ _ => OKLORAWAN;
  smtc_real_is_valid_channel_index := fun _ _ => OKLORAWAN;
  smtc_real_is_valid_tx_frequency := fun _ _ => OKLORAWAN;
  smtc_real_tx_frequency_channel_set := fun m _ _ => m;
  smtc_real_rx1_frequency_channel_set := fun m _ _ => m;
  smtc_real_min_dr_channel_set := fun m _ _ => m;
  smtc_real_max_dr_channel_set := fun m _ _ => m;
  smtc_real_channel_enabled_set := fun m _ _ => m;
  smtc_real_tx_frequency_channel_get := fun _ _ => 868100000;
  smtc_real_max_eirp_dbm_from_idx := fun i => 8 + 2 * i;
  lr1mac_cmd_mac_ans_size := cmd_mac_ans_size
|}.

(** Modelled from the spec: the planner is outside this file; [enqueue]
    returns OK, or BUSY when the slot of the hook is not free. *)
Definition planner : rp_ops planner_t := {|
  rp_hook_get_id := fun _ => (RP_HOOK_STATUS_OK, 0);
  rp_task_enqueue :=
    fun p task _ _ params =>
      match p with
      | None => (RP_HOOK_STATUS_OK, Some (task, params))
      | Some _ => (RP_TASK_STATUS_ALREADY_RUNNING, p)
      end;
  rp_snr_pkt_in_db := fun _ _ => 0;
  rp_rssi_pkt_in_dbm := fun _ _ => 0
|}.

(** A checksum standing in for AES-CMAC: it depends on every byte of the
    message and on its length. *)
Definition checksum (msg : list Z) : Z :=
  u32 (fold_left (fun acc b => acc * 31 + b + 1) msg 7).

(** Stand-ins for the AES primitives: the cipher is the identity and the MIC
    is the checksum of the message. *)
Definition crypto : crypto_ops := {|
  lora_crypto_payload_encrypt := fun payload _ _ _ _ => payload;
  lora_crypto_add_mic := fun msg _ _ _ _ => le32_bytes (checksum msg);
  payload_decrypt := fun payload _ _ _ _ => payload;
  check_mic :=
    fun msg _ _ _ mic_in =>
      if checksum msg =? mic_in then OKLORAWAN else ERRORLORAWAN;
  join_compute_mic := fun msg _ => checksum msg;
  join_decrypt := fun payload _ => payload;
  check_join_mic :=
    fun msg _ mic_in =>
      if checksum msg =? mic_in then OKLORAWAN else ERRORLORAWAN
|}.

Definition board : bsp_ops := {|
  radio_board := SX126X;
  BSP_CRYSTAL_ERROR := 10;
  BSP_BOARD_DELAY_RX_SETTING_MS := 8;
  BSP_MIN_RX_TIMEOUT_DELAY_MS := 6;
  bsp_mcu_get_battery_level := 254
|}.

Definition zeros (n : nat) : list Z := repeat 0 n.

(** A region with the ADR constants of the fallback scenario:
    [ADR_ACK_LIMIT] 64, [ADR_ACK_DELAY] 32, data rates 0 to 5. *)
Definition region0 : region_t := {|
  reg_adr_ack_limit := 64;
  reg_adr_ack_delay := 32;
  reg_min_dr := 0;
  reg_max_dr := 5;
  reg_max_payload := 51;
  nvm_dev_nonce := 0
|}.

(** A joined device at rest: idle radio, free planner slot, zeroed buffers
    of the sizes of the C arrays, data rate 5, and the session counters as
    [lr1_stack_mac_session_init] leaves them. *)
Definition mac0 : mac :=
  lr1_stack_mac_session_init region 0
    {| real := region0; rp := None; mcu_issue := 0;
       dev_eui := [0x70; 0xB3; 0xD5; 0x7E; 0xD0; 0x00; 0x00; 0x01];
       app_eui := [0x00; 0x16; 0xC0; 0x01; 0xFF; 0xFE; 0x00; 0x01];
       app_key := zeros 16; nwk_skey := zeros 16; app_skey := zeros 16;
       dev_nonce := 0; dev_addr := 0x26011BDA; join_status := JOINED;
       fcnt_up := 0; fcnt_dwn := 0; tx_data_rate := 5; tx_data_rate_adr := 5;
       tx_power := 14; tx_power_offset := 0; nb_trans := 1; nb_trans_cpt := 1;
       rx1_dr_offset := 0; rx2_data_rate := 0; rx1_delay_s := 1;
       max_eirp_dbm := 16; uplink_dwell_time := 0; downlink_dwell_time := 0;
       max_duty_cycle_index := 0;
       tx_fport := 1; tx_mtype := UNCONF_DATA_UP; tx_major_bits := LORAWANR1;
       tx_fctrl := 0; tx_ack_bit := 0; app_payload_size := 0;
       tx_payload_size := 0; tx_payload := zeros 255;
       tx_fopts_length := 0; tx_fopts_data := zeros 255;
       tx_fopts_lengthsticky := 0; tx_fopts_datasticky := zeros 15;
       tx_fopts_current_length := 0; tx_fopts_current_data := zeros 15;
       rx_fport := 0; rx_mtype := 0; rx_major := 0; rx_fctrl := 0;
       rx_ack_bit := 0; rx_fopts_length := 0; rx_fopts := zeros 16;
       rx_payload_size := 0; rx_payload := zeros 255; rx_payload_empty := 0;
       available_app_packet := NO_LORA_RXPACKET_AVAILABLE;
       tx_duty_cycle_time_off_ms := 0; tx_duty_cycle_timestamp_ms := 0;
       nwk_payload := zeros 255; nwk_payload_size := 0; nwk_payload_index := 0;
       nwk_ans := zeros 255; nwk_ans_size := 0;
       type_of_ans_to_send := NOFRAME_TOSEND;
       adr_ack_cnt := 0; adr_ack_cnt_confirmed_frame := 0;
       adr_ack_limit := 0; adr_ack_delay := 0; adr_ack_req := 0;
       adr_enable := 1;
       next_time_to_join_seconds := 0; retry_join_cpt := 0;
       first_join_timestamp := 0;
       tx_sf := 7; tx_modulation_type := LORA; tx_bw := BW125;
       tx_frequency := 868100000;
       rx1_frequency := 868100000; rx1_sf := 7; rx1_bw := BW125;
       rx1_modulation_type := LORA;
       rx2_frequency := 869525000; rx2_sf := 12; rx2_bw := BW125;
       rx2_modulation_type := LORA;
       radio_process_state := RADIOSTATE_IDLE;
       rx_timeout_ms := 0; rx_window_symb := 0; rx_offset_ms := 0;
       isr_radio_timestamp := 0; rtc_target_timer_ms := 0;
       send_at_time := false; rx_snr := 0; rx_rssi := 0 |}.

End Ref.


(** ** The statements of the specification, as functions

    These definitions follow the words of the specification, not the code;
    the properties below compare them with the functions of the MAC layer. *)

Module Spec.

(** FCnt reconstruction: the candidate counter [c] for a stored 32-bit
    counter [s] and a received 16-bit counter [r]; [None] is the rejection
    as a replay. *)
Definition fcnt_candidate (s r : Z) : option Z :=
  if s =? 0xFFFFFFFF then Some r
  else if r >? s mod 2 ^ 16 then Some (Z.land s 0xFFFF0000 + r)
  else if s mod 2 ^ 16 - r >? 16384 then Some (Z.land s 0xFFFF0000 + 2 ^ 16 + r)
  else None.

(** Window width in symbols for LoRa:
    [max (6, 2*6 - 8 + ceil (2 * err_ms * BW_kHz / 2^SF) + 1)], with
    [err_ms = clock_accuracy * delay_ms / 1000]. *)
Definition rx_error_ms (clock_accuracy delay_ms : Z) : Q :=
  inject_Z (clock_accuracy * delay_ms) / 1000.

Definition window_symb_lora (sf bw_khz clock_accuracy delay_ms : Z) : Z :=
  Z.max 6
    (2 * 6 - 8
     + Qceiling (2 * rx_error_ms clock_accuracy delay_ms * inject_Z bw_khz
                 / inject_Z (2 ^ sf))
     + 1).

(** For GFSK, [ceil (2 * err_ms * bitrate / 8)] takes the place of the LoRa
    term. *)
Definition window_symb_gfsk (bitrate clock_accuracy delay_ms : Z) : Z :=
  Z.max 6
    (2 * 6 - 8
     + Qceiling (2 * rx_error_ms clock_accuracy delay_ms * inject_Z bitrate / 8)
     + 1).

(** Early-start offset:
    [ceil ((N/2) * Tsym - 4 * Tsym + board_delay_ms)]. *)
Definition offset_ms (n : Z) (tsym : Q) (board_delay_ms : Z) : Z :=
  Qceiling (inject_Z n / 2 * tsym - 4 * tsym + inject_Z board_delay_ms).

(** Duty-cycle wait: [max (0, time_off_ms - (now - timestamp))], the
    subtraction [now - timestamp] taken modulo 2^32. *)
Definition next_free_duty_cycle_ms (time_off_ms now timestamp : Z) : Z :=
  Z.max 0 (time_off_ms - (now - timestamp) mod 2 ^ 32).

End Spec.

(** ** Scenarios *)

Module Scenario.
Import Ref.

(** One uplink that no downlink answers: the frame is handed to the
    planner, the radio events of the cycle (TxDone, then the time-outs of RX1
    and RX2) free the planner slot and bring the radio state back to idle,
    and the MAC update runs. *)
Definition radio_cycle_done (m : mac) : mac :=
  set_radio_process_state RADIOSTATE_IDLE (set_rp None m).

Definition uplink_without_downlink (m : mac) : mac :=
  lr1_stack_mac_update region crypto 0
    (radio_cycle_done (lr1_stack_mac_tx_radio_start region planner m)).

(** ADR fallback one step before the minimum: data rate 1, 96 uplinks
    without downlink. *)
Definition mac_dr1_cnt96 : mac :=
  set_adr_ack_cnt 96 (set_tx_data_rate_adr 1 mac0).

(** A downlink data frame for the device of [mac0]: unconfirmed data down,
    FCtrl 0, FCnt 0x0020, FPort 1, one payload byte, and a MIC of four zero
    bytes, which does not authenticate the frame. *)
Definition frame_bad_mic : list Z :=
  [0x60; 0xDA; 0x1B; 0x01; 0x26; 0x00; 0x20; 0x00; 0x01; 0xAA;
   0x00; 0x00; 0x00; 0x00].

(** The device holds FCntDown 0x10 and has just received [frame_bad_mic]. *)
Definition mac_bad_mic : mac :=
  set_rx_payload_size 14
    (set_rx_payload (frame_bad_mic ++ zeros 241)
       (set_fcnt_dwn 0x10 mac0)).

(** A downlink on port 0 whose payload is the MAC command stream [cmds] has
    been decoded; the parser runs on it. *)
Definition parse_mac_commands (cmds : list Z) (m : mac) : option mac :=
  let m := set_nwk_payload
             (memcpy (nwk_payload m) 0 cmds (Z.of_nat (length cmds))) m in
  let m := set_nwk_payload_size (Z.of_nat (length cmds)) m in
  match lr1_stack_mac_cmd_parse region planner board 256 m with
  | Some (_, m) => Some m
  | None => None
  end.

(** [n] DutyCycleReq commands. *)
Fixpoint duty_cycle_reqs (n : nat) : list Z :=
  match n with
  | O => []
  | S k => DUTY_CYCLE_REQ :: 0x01 :: duty_cycle_reqs k
  end.

(** A first downlink carries 2 DutyCycleReq; the update that follows puts
    their 2 bytes of answers in the FOpts of the next uplink.  A second
    downlink carries 16 DutyCycleReq: 16 bytes of answers are pending when
    the next update starts. *)
Definition pending_overflow : option mac :=
  match parse_mac_commands (duty_cycle_reqs 2) mac0 with
  | Some m =>
      parse_mac_commands (duty_cycle_reqs 16)
        (lr1_stack_mac_update region crypto 0 m)
  | None => None
  end.

(** RX1 is due exactly now: the transmission ended at 1000 ms, RxDelay is
    1 s, and the clock reads 1000 + 1000 - offset, the offset of SF7/125 kHz
    on the reference board being 16 ms. *)
Definition mac_tx_finished : mac :=
  set_isr_radio_timestamp 1000
    (set_radio_process_state RADIOSTATE_TXFINISHED mac0).

(** The duty-cycle timer was started one millisecond before the clock
    wrapped, with 10 ms to wait. *)
Definition mac_duty_wrap : mac :=
  set_tx_duty_cycle_time_off_ms 10
    (set_tx_duty_cycle_timestamp_ms 0xFFFFFFFF mac0).

(** A probe in place of the join MIC: it returns the number of bytes that
    it is given. *)
Definition crypto_probe : crypto_ops := {|
  lora_crypto_payload_encrypt := lora_crypto_payload_encrypt crypto;
  lora_crypto_add_mic := lora_crypto_add_mic crypto;
  payload_decrypt := payload_decrypt crypto;
  check_mic := check_mic crypto;
  join_compute_mic := fun msg _ => Z.of_nat (length msg);
  join_decrypt := join_decrypt crypto;
  check_join_mic := check_join_mic crypto
|}.

(** A command stream with a byte that is no command identifier (0xFF) after
    one DutyCycleReq and before a DevStatusReq. *)
Definition stream_unknown_cid : list Z :=
  [DUTY_CYCLE_REQ; 0x05; 0xFF; DEV_STATUS_REQ].

Definition mac_stream_unknown_cid : mac :=
  set_nwk_payload_size 4
    (set_nwk_payload (stream_unknown_cid ++ zeros 251) mac0).

End Scenario.


(** * The rest of the MAC layer: join accept and radio planner call-back *)

Section AssignKeys.
Context {R P : Type}.

Definition set_nwk_skey : list Z -> lr1_stack_mac_t R P -> lr1_stack_mac_t R P :=
  ltac:(assign_field R P @nwk_skey).
Definition set_app_skey : list Z -> lr1_stack_mac_t R P -> lr1_stack_mac_t R P :=
  ltac:(assign_field R P @app_skey).
End AssignKeys.

(** The operations of the join procedure that are outside this file.
    [join_compute_skeys] receives the AppKey, the 6 bytes copied from the
    join accept and the DevNonce, and returns the two session keys that the
    C function writes.  [lr1_stack_mac_join_accept] fills the [cf_list] field
    for the regional layer, which is the only reader of that field:
    [smtc_real_cflist_get] receives the 16 bytes beside the object. *)
Record join_ops (R P : Type) := {
  join_compute_skeys : list Z -> list Z -> Z -> list Z * list Z;
  smtc_real_cflist_get : lr1_stack_mac_t R P -> list Z -> lr1_stack_mac_t R P;
  smtc_real_join_snapshot_channel_mask_init :
    lr1_stack_mac_t R P -> lr1_stack_mac_t R P
}.

Arguments join_compute_skeys {R P}. Arguments smtc_real_cflist_get {R P}.
Arguments smtc_real_join_snapshot_channel_mask_init {R P}.

(** Modelled from the spec: the status that the planner reports to the
    call-back is declared outside this file.  The code names three statuses;
    every other one takes the default branch of the [switch]. *)
Inductive rp_status_t :=
  RP_STATUS_TX_DONE | RP_STATUS_RX_PACKET | RP_STATUS_RX_TIMEOUT
| RP_STATUS_OTHER.

(** [rp_get_status] returns the time of the radio event and its status;
    [rp_payload_size] is the cell [rp->payload_size[hook_id]]. *)
Record rp_it_ops (P : Type) := {
  rp_get_status : P -> Z -> Z * rp_status_t;
  rp_payload_size : P -> Z -> Z
}.

Arguments rp_get_status {P}. Arguments rp_payload_size {P}.

Inductive valid_dev_addr_t := UNVALID_DEV_ADDR | VALID_DEV_ADDR_UNICAST.

Section MacLayerIt.
Context {R P : Type}.
Context (rl : smtc_real_ops R P) (jo : join_ops R P) (rpo : rp_ops P)
        (ito : rp_it_ops P).
Local Abbreviation mac := (lr1_stack_mac_t R P).

Definition check_dev_addr (m : mac) (devAddr_to_test : Z) : valid_dev_addr_t :=
  if devAddr_to_test =? dev_addr m then VALID_DEV_ADDR_UNICAST
  else UNVALID_DEV_ADDR.

(** The check of a received frame under interrupt: the returned pair is the
    status and the object. *)
Definition lr1_stack_mac_downlink_check_under_it (m : mac) : Z * mac :=
  let status := OKLORAWAN in
  let rx_mtype_tmp := Z.shiftr (buf_get (rx_payload m) 0) 5 in
  let status :=
    if is_uplink_mtype rx_mtype_tmp then status + ERRORLORAWAN else status in
  match join_status m with
  | JOINED =>
      let dev_addr_tmp := u32 (le32_read (rx_payload m) 1) in
      let status :=
        match check_dev_addr m dev_addr_tmp with
        | UNVALID_DEV_ADDR => status + ERRORLORAWAN
        | VALID_DEV_ADDR_UNICAST => status
        end in
      let m := if negb (status =? OKLORAWAN) then set_rx_payload_size 0 m
               else m in
      (status, m)
  | NOT_JOINED => (status, m)
  end.

(** The call-back of the radio planner.  [now_ms] is the value returned by
    [bsp_rtc_get_time_ms ()].  The field [planner_status], which no other
    function of the file reads, is returned beside the object. *)
Definition lr1_stack_mac_rp_callback (now_ms : Z) (m : mac)
  : rp_status_t * mac :=
  let '(_, my_hook_id) := rp_hook_get_id rpo (rp m) in
  let '(tcurrent_ms, planner_status) := rp_get_status ito (rp m) my_hook_id in
  let '(tcurrent_ms, planner_status, m) :=
    match planner_status with
    | RP_STATUS_TX_DONE => (tcurrent_ms, planner_status, m)
    | RP_STATUS_RX_PACKET =>
        let m := set_rx_snr (rp_snr_pkt_in_db rpo (rp m) my_hook_id) m in
        let m := set_rx_rssi (rp_rssi_pkt_in_dbm rpo (rp m) my_hook_id) m in
        let m := set_rx_payload_size
                   (u8 (rp_payload_size ito (rp m) my_hook_id)) m in
        let '(status, m) := lr1_stack_mac_downlink_check_under_it m in
        if negb (status =? OKLORAWAN)
        then (now_ms, RP_STATUS_RX_TIMEOUT, m)
        else (tcurrent_ms, planner_status, m)
    | RP_STATUS_RX_TIMEOUT => (tcurrent_ms, planner_status, m)
    | RP_STATUS_OTHER => (now_ms, planner_status, m)
    end in
  let m :=
    match radio_process_state m with
    | RADIOSTATE_TXON =>
        let m := set_isr_radio_timestamp tcurrent_ms m in
        set_radio_process_state RADIOSTATE_TXFINISHED m
    | RADIOSTATE_TXFINISHED =>
        set_radio_process_state RADIOSTATE_RX1FINISHED m
    | RADIOSTATE_RX1FINISHED => set_radio_process_state RADIOSTATE_IDLE m
    | RADIOSTATE_IDLE => bsp_mcu_handle_lr1mac_issue m
    end in
  (planner_status, m).

Definition lr1_stack_mac_radio_state_get (m : mac) : lr1mac_radio_state_t :=
  radio_process_state m.

(** The loop that copies the CFList of a join accept. *)
Fixpoint cf_list_copy (n : nat) (i : Z) (rx : list Z) (cf_list : list Z)
  : list Z :=
  match n with
  | O => cf_list
  | S k => cf_list_copy k (i + 1) rx (buf_set cf_list i (buf_get rx (13 + i)))
  end.

(** The first part of [lr1_stack_mac_join_accept]: the session keys and
    the channels. *)
Definition join_accept_keys (m : mac) : mac :=
  let app_nonce := buf_sub (rx_payload m) 1 6 in
  let '(nwk, app) := join_compute_skeys jo (app_key m) app_nonce (dev_nonce m) in
  let m := set_nwk_skey (memcpy (nwk_skey m) 0 nwk 16) m in
  let m := set_app_skey (memcpy (app_skey m) 0 app 16) m in
  if rx_payload_size m >? 13 then
    smtc_real_cflist_get jo m
      (cf_list_copy 16 0 (rx_payload m) (repeat 0 16))
  else smtc_real_join_snapshot_channel_mask_init jo m.

(** The second part: DevAddr, DLSettings, RxDelay and the join status. *)
Definition join_accept_settings (m : mac) : mac :=
  let m := set_dev_addr (u32 (le32_read (rx_payload m) 7)) m in
  let m := set_rx1_dr_offset
             (Z.shiftr (Z.land (buf_get (rx_payload m) 11) 0x70) 4) m in
  let m := set_rx2_data_rate (Z.land (buf_get (rx_payload m) 11) 0x0F) m in
  let m := set_rx1_delay_s (buf_get (rx_payload m) 12) m in
  let m := if rx1_delay_s m =? 0 then set_rx1_delay_s 1 m else m in
  let m := if rx1_delay_s m >? 15 then set_rx1_delay_s 15 m else m in
  set_join_status JOINED m.

(** [lr1_stack_mac_join_accept], part after part; [now_ms] is the clock
    that [lr1_stack_mac_session_init] reads. *)
Definition lr1_stack_mac_join_accept (now_ms : Z) (m : mac) : mac :=
  let m := join_accept_keys m in
  let m := join_accept_settings m in
  lr1_stack_mac_session_init rl now_ms m.

Definition lr1_stack_mac_min_dr_get (m : mac) : Z :=
  u8 (smtc_real_min_dr_channel_get rl m).

Definition lr1_stack_mac_max_dr_get (m : mac) : Z :=
  u8 (smtc_real_max_dr_channel_get rl m).
End MacLayerIt.

(** ** The stages of [rx_frame_accept]

    The function resets the counters of uplinks without downlink, handles
    the acknowledgement of a confirmed uplink, and delivers the payload and
    the FOpts.  The three stages are named here; their composition is
    [rx_frame_accept]. *)

Section AcceptStages.
Context {R P : Type} (cr : crypto_ops).
Local Abbreviation mac := (lr1_stack_mac_t R P).

Definition rx_accept_reset (m : mac) : mac :=
  let m := set_adr_ack_cnt 0 m in
  let m := set_adr_ack_cnt_confirmed_frame 0 m in
  set_tx_fopts_lengthsticky 0 m.

Definition rx_accept_ack (m : mac) : mac :=
  let ack := Z.land (rx_fctrl m) 0x20 =? 0x20 in
  let conf := tx_mtype m =? CONF_DATA_UP in
  let m := if negb (negb ack && conf) then set_nb_trans_cpt 1 m else m in
  if ack && conf then set_rx_ack_bit 1 m else m.

Definition rx_accept_deliver (m : mac) : rx_packet_type_t * mac :=
  if rx_payload_empty m =? 0 then
    let m := set_rx_payload_size
               (u8 (rx_payload_size m - FHDROFFSET - rx_fopts_length m)) m in
    if rx_fport m =? 0 then
      if rx_fopts_length m =? 0 then
        let dec :=
          payload_decrypt cr
            (buf_sub (rx_payload m) FHDROFFSET (rx_payload_size m))
            (nwk_skey m) (dev_addr m) 1 (fcnt_dwn m) in
        let m := set_nwk_payload
                   (memcpy (nwk_payload m) 0 dec (rx_payload_size m)) m in
        let m := set_nwk_payload_size (rx_payload_size m) m in
        (NWKRXPACKET, m)
      else (NO_MORE_VALID_RX_PACKET, m)
    else
      let dec :=
        payload_decrypt cr
          (buf_sub (rx_payload m) (FHDROFFSET + rx_fopts_length m)
             (rx_payload_size m))
          (app_skey m) (dev_addr m) 1 (fcnt_dwn m) in
      let m := set_rx_payload
                 (memcpy (rx_payload m) 0 dec (rx_payload_size m)) m in
      let '(t, m) :=
        if negb (rx_fopts_length m =? 0) then
          let m := set_nwk_payload
                     (memcpy (nwk_payload m) 0 (rx_fopts m)
                        (rx_fopts_length m)) m in
          (USERRX_FOPTSPACKET, set_nwk_payload_size (rx_fopts_length m) m)
        else (NO_MORE_VALID_RX_PACKET, m) in
      (t, set_available_app_packet LORA_RX_PACKET_AVAILABLE m)
  else
    if negb (rx_fopts_length m =? 0) then
      let m := set_nwk_payload
                 (memcpy (nwk_payload m) 0 (rx_fopts m) (rx_fopts_length m)) m in
      (USERRX_FOPTSPACKET, set_nwk_payload_size (rx_fopts_length m) m)
    else (NO_MORE_VALID_RX_PACKET, m).
End AcceptStages.

(** ** Frame conditions on the collaborators *)

(** The regional operations of the join accept leave the received frame in
    place. *)
Definition join_keeps_rx_payload {R P : Type} (jo : join_ops R P) : Prop :=
  forall (m : lr1_stack_mac_t R P) (cf : list Z),
    rx_payload (smtc_real_cflist_get jo m cf) = rx_payload m
    /\ rx_payload (smtc_real_join_snapshot_channel_mask_init jo m)
       = rx_payload m.

(** The fields of the parser of MAC commands: the command stream, its size,
    the cursor and the lengths of the two answer buffers. *)
Definition parse_view {R P : Type} (m : lr1_stack_mac_t R P)
  : list Z * Z * Z * Z * Z :=
  (nwk_payload m, nwk_payload_size m, nwk_payload_index m, tx_fopts_length m,
   tx_fopts_lengthsticky m).

(** The size of the command stream and the cursor. *)
Definition cursor_view {R P : Type} (m : lr1_stack_mac_t R P) : Z * Z :=
  (nwk_payload_size m, nwk_payload_index m).

(** The regional operations that the parsers call write the regional
    settings; they leave the fields of the parser alone. *)
Definition real_keeps_parse_view {R P : Type} (rl : smtc_real_ops R P) : Prop :=
  forall (m : lr1_stack_mac_t R P) (a b : Z) (e : channel_enabled_t),
    parse_view (snd (smtc_real_channel_mask_build rl m a b)) = parse_view m
    /\ parse_view (smtc_real_channel_mask_set rl m) = parse_view m
    /\ parse_view (smtc_real_power_set rl m a) = parse_view m
    /\ parse_view (smtc_real_tx_frequency_channel_set rl m a b) = parse_view m
    /\ parse_view (smtc_real_rx1_frequency_channel_set rl m a b) = parse_view m
    /\ parse_view (smtc_real_min_dr_channel_set rl m a b) = parse_view m
    /\ parse_view (smtc_real_max_dr_channel_set rl m a b) = parse_view m
    /\ parse_view (smtc_real_channel_enabled_set rl m e a) = parse_view m.

(** The fields of the retransmission counter and of the answers to MAC
    commands, which the periodic update manages by itself. *)
Definition update_view {R P : Type} (m : lr1_stack_mac_t R P)
  : Z * Z * Z * Z * Z * list Z * list Z * list Z * type_of_ans_t :=
  (fcnt_up m, nb_trans_cpt m, tx_fopts_length m, tx_fopts_lengthsticky m,
   tx_fopts_current_length m, tx_fopts_data m, tx_fopts_datasticky m,
   tx_fopts_current_data m, type_of_ans_to_send m).

(** The regional operations of the periodic update select data rates; they
    leave the fields of [update_view] and the ADR acknowledgement request
    alone. *)
Definition real_keeps_update_view {R P : Type} (rl : smtc_real_ops R P) : Prop :=
  forall m : lr1_stack_mac_t R P,
    update_view (smtc_real_next_dr_get rl m) = update_view m
    /\ update_view (smtc_real_dr_decrement rl m) = update_view m
    /\ adr_ack_req (smtc_real_dr_decrement rl m) = adr_ack_req m.

(** The selection of a data rate leaves the counter of uplinks without
    downlink, its two thresholds and the ADR acknowledgement request
    alone. *)
Definition real_keeps_adr_window {R P : Type} (rl : smtc_real_ops R P) : Prop :=
  forall m : lr1_stack_mac_t R P,
    adr_ack_cnt (smtc_real_next_dr_get rl m) = adr_ack_cnt m
    /\ adr_ack_limit (smtc_real_next_dr_get rl m) = adr_ack_limit m
    /\ adr_ack_delay (smtc_real_next_dr_get rl m) = adr_ack_delay m
    /\ adr_ack_req (smtc_real_dr_decrement rl m) = adr_ack_req m.

(** ** Answers to MAC commands in a buffer *)

(** [ans_boundary size buf p]: the offset [p] is the end of a whole number
    of answers laid out from offset 0 of [buf], the answer that starts with
    the identifier [c] occupying [size c] bytes. *)
Inductive ans_boundary (size : Z -> Z) (buf : list Z) : Z -> Prop :=
| ans_boundary_0 : ans_boundary size buf 0
| ans_boundary_next (p : Z) :
    ans_boundary size buf p ->
    ans_boundary size buf (p + size (buf_get buf p)).

(** Reference collaborators for the join accept. *)
Module RefIt.

(** Stand-ins for the derivation of the session keys: sixteen copies of the
    low byte of the DevNonce, and of the first byte of the AppNonce. *)
Definition join : join_ops Ref.region_t Ref.planner_t := {|
  join_compute_skeys :=
    fun _ app_nonce dev_nonce =>
      (repeat (dev_nonce mod 256) 16, repeat (buf_get app_nonce 0) 16);
  smtc_real_cflist_get := fun m _ => m;
  smtc_real_join_snapshot_channel_mask_init := fun m => m
|}.

End RefIt.

(** * The real-time clock ([smtc_bsp/arm/stm32/stm32l0xx/smtc_bsp_rtc.c]) *)

Definition u64 (x : Z) : Z := x mod 2 ^ 64.

(** The sub-second counter has [N_PREDIV_S] bits: a tick is 1/1024 s. *)
Definition N_PREDIV_S : Z := 10.
Definition PREDIV_S : Z := Z.shiftl 1 N_PREDIV_S - 1.
Definition PREDIV_A : Z := Z.shiftl 1 (15 - N_PREDIV_S) - 1.

Definition USEC_NUMBER : Z := 1000000.
Definition MSEC_NUMBER : Z := USEC_NUMBER / 1000.
Definition COMMON_FACTOR : Z := 3.
Definition CONV_NUMER : Z := Z.shiftr MSEC_NUMBER COMMON_FACTOR.
Definition CONV_DENOM : Z := Z.shiftl 1 (N_PREDIV_S - COMMON_FACTOR).

Definition DAYS_IN_LEAP_YEAR : Z := 366.
Definition DAYS_IN_YEAR : Z := 365.
Definition SECONDS_IN_1DAY : Z := 86400.
Definition SECONDS_IN_1HOUR : Z := 3600.
Definition SECONDS_IN_1MINUTE : Z := 60.
Definition DAYS_IN_MONTH_CORRECTION_NORM : Z := 0x99AAA0.
Definition DAYS_IN_MONTH_CORRECTION_LEAP : Z := 0x445550.

(** The macro [DIVC (X, N)]; C division truncates. *)
Definition DIVC (x n : Z) : Z := Z.quot (x + n - 1) n.

(** The calendar registers as [HAL_RTC_GetDate] and [HAL_RTC_GetTime] return
    them in binary format; the structures are declared by the HAL, outside
    these sources.  The model keeps the fields that the code reads. *)
Record RTC_DateTypeDef := {
  Year : Z;
  Month : Z;
  Date : Z
}.

Record RTC_TimeTypeDef := {
  Hours : Z;
  Minutes : Z;
  Seconds : Z;
  SubSeconds : Z
}.

(** The computation of [rtc_get_timestamp_in_ticks] on the registers that the
    loop of the function has read ([date], [time]); the result is the
    [uint64_t] returned. *)
Definition rtc_get_timestamp_in_ticks (date : RTC_DateTypeDef)
  (time : RTC_TimeTypeDef) : Z :=
  let seconds :=
    DIVC (u32 ((DAYS_IN_YEAR * 3 + DAYS_IN_LEAP_YEAR) * Year date)) 4 in
  let correction :=
    if Year date mod 4 =? 0 then DAYS_IN_MONTH_CORRECTION_LEAP
    else DAYS_IN_MONTH_CORRECTION_NORM in
  let seconds :=
    u32 (seconds
         + (DIVC ((Month date - 1) * (30 + 31)) 2
            - Z.land (Z.shiftr correction ((Month date - 1) * 2)) 0x03)) in
  let seconds := u32 (seconds + (Date date - 1)) in
  let seconds := u32 (seconds * SECONDS_IN_1DAY) in
  let seconds :=
    u32 (seconds
         + (Seconds time + Minutes time * SECONDS_IN_1MINUTE
            + Hours time * SECONDS_IN_1HOUR)) in
  u64 (Z.shiftl seconds N_PREDIV_S + u32 (PREDIV_S - SubSeconds time)).

Definition bsp_rtc_ms_2_tick (milliseconds : Z) : Z :=
  u32 (u64 (milliseconds * CONV_DENOM) / CONV_NUMER).

Definition bsp_rtc_tick_2_ms (tick : Z) : Z :=
  let seconds := Z.shiftr tick N_PREDIV_S in
  let local_tick := Z.land tick PREDIV_S in
  u32 (u32 (seconds * 1000) + Z.shiftr (u32 (local_tick * 1000)) N_PREDIV_S).

Definition bsp_rtc_ms_2_wakeup_timer_tick (milliseconds : Z) : Z :=
  u32 (u32 (milliseconds * 2) + Z.shiftr (u32 (6 * milliseconds)) 7).

Definition bsp_rtc_s_2_wakeup_timer_tick (seconds : Z) : Z := seconds.

(** The returned pair is the number of seconds and the value written to
    [*milliseconds]. *)
Definition bsp_rtc_get_calendar_time (date : RTC_DateTypeDef)
  (time : RTC_TimeTypeDef) : Z * Z :=
  let timestamp_in_ticks := rtc_get_timestamp_in_ticks date time in
  let seconds := u32 (Z.shiftr timestamp_in_ticks N_PREDIV_S) in
  let ticks := Z.land (u32 timestamp_in_ticks) PREDIV_S in
  (seconds, u16 (bsp_rtc_tick_2_ms ticks)).

Definition bsp_rtc_get_time_s (date : RTC_DateTypeDef) (time : RTC_TimeTypeDef)
  : Z :=
  fst (bsp_rtc_get_calendar_time date time).

Definition bsp_rtc_get_time_ms (date : RTC_DateTypeDef)
  (time : RTC_TimeTypeDef) : Z :=
  let '(seconds, milliseconds) := bsp_rtc_get_calendar_time date time in
  u32 (seconds * 1000 + milliseconds).

(** The Gregorian calendar from 1 January 2000, against which the
    arithmetic of [rtc_get_timestamp_in_ticks] is checked.  [year] counts
    from 2000, [month] from 1. *)
Module Calendar.

Definition leap_year (year : Z) : bool :=
  let y := 2000 + year in
  ((y mod 4 =? 0) && negb (y mod 100 =? 0)) || (y mod 400 =? 0).

Definition month_days (leap : bool) (month : nat) : Z :=
  match month with
  | 1%nat => 31
  | 2%nat => if leap then 29 else 28
  | 3%nat => 31
  | 4%nat => 30
  | 5%nat => 31
  | 6%nat => 30
  | 7%nat => 31
  | 8%nat => 31
  | 9%nat => 30
  | 10%nat => 31
  | 11%nat => 30
  | 12%nat => 31
  | _ => 0
  end.

(** The days of the months before [month]. *)
Fixpoint days_before_month (leap : bool) (month : nat) : Z :=
  match month with
  | O => 0
  | S k => days_before_month leap k + month_days leap k
  end.

(** The days of the years before [year]. *)
Fixpoint days_before_year (year : nat) : Z :=
  match year with
  | O => 0
  | S k => days_before_year k + (if leap_year (Z.of_nat k) then 366 else 365)
  end.

Definition elapsed_days (year month day : Z) : Z :=
  days_before_year (Z.to_nat year)
  + days_before_month (leap_year year) (Z.to_nat month) + (day - 1).

Definition elapsed_seconds (date : RTC_DateTypeDef) (time : RTC_TimeTypeDef)
  : Z :=
  elapsed_days (Year date) (Month date) (Date date) * 86400
  + Hours time * 3600 + Minutes time * 60 + Seconds time.

(** A reading of the calendar registers in binary format. *)
Definition valid_reading (date : RTC_DateTypeDef) (time : RTC_TimeTypeDef)
  : Prop :=
  0 <= Year date <= 99 /\ 1 <= Month date <= 12 /\ 1 <= Date date <= 31
  /\ 0 <= Hours time <= 23 /\ 0 <= Minutes time <= 59
  /\ 0 <= Seconds time <= 59 /\ 0 <= SubSeconds time <= 1023.

End Calendar.

(** * Statistics of the radio planner
      ([radio_planner/src/radio_planner_stats.h]) *)

(** [rp_stats_t]; the arrays have one cell per hook. *)
Record rp_stats_t := {
  tx_last_toa_ms : list Z;
  tx_consumption_ms : list Z;
  rx_consumption_ms : list Z;
  tx_consumption_ma : list Z;
  rx_consumption_ma : list Z;
  tx_total_consumption_ms : Z;
  rx_total_consumption_ms : Z;
  tx_total_consumption_ma : Z;
  rx_total_consumption_ma : Z;
  tx_timestamp : Z;
  rx_timestamp : Z;
  task_hook_aborted_nb : list Z;
  rp_error : Z
}.

(** The first loop of [rp_stats_init]. *)
Fixpoint rp_stats_init_loop (n : nat) (i : Z) (s : rp_stats_t) : rp_stats_t :=
  match n with
  | O => s
  | S k =>
      rp_stats_init_loop k (i + 1)
        {| tx_last_toa_ms := buf_set (tx_last_toa_ms s) i 0;
           tx_consumption_ms := buf_set (tx_consumption_ms s) i 0;
           rx_consumption_ms := buf_set (rx_consumption_ms s) i 0;
           tx_consumption_ma := buf_set (tx_consumption_ma s) i 0;
           rx_consumption_ma := buf_set (rx_consumption_ma s) i 0;
           tx_total_consumption_ms := tx_total_consumption_ms s;
           rx_total_consumption_ms := rx_total_consumption_ms s;
           tx_total_consumption_ma := tx_total_consumption_ma s;
           rx_total_consumption_ma := rx_total_consumption_ma s;
           tx_timestamp := tx_timestamp s;
           rx_timestamp := rx_timestamp s;
           task_hook_aborted_nb := buf_set (task_hook_aborted_nb s) i 0;
           rp_error := rp_error s |}
  end.

(** [RP_NB_HOOKS] is a constant of the planner, declared outside these
    sources. *)
Definition rp_stats_init (RP_NB_HOOKS : nat) (rp_stats : rp_stats_t)
  : rp_stats_t :=
  let s := rp_stats_init_loop RP_NB_HOOKS 0 rp_stats in
  {| tx_last_toa_ms := tx_last_toa_ms s;
     tx_consumption_ms := tx_consumption_ms s;
     rx_consumption_ms := rx_consumption_ms s;
     tx_consumption_ma := tx_consumption_ma s;
     rx_consumption_ma := rx_consumption_ma s;
     tx_total_consumption_ms := 0;
     rx_total_consumption_ms := 0;
     tx_total_consumption_ma := 0;
     rx_total_consumption_ma := 0;
     tx_timestamp := 0;
     rx_timestamp := 0;
     task_hook_aborted_nb := task_hook_aborted_nb s;
     rp_error := 0 |}.

Definition rp_stats_set_tx_timestamp (s : rp_stats_t) (timestamp : Z)
  : rp_stats_t :=
  {| tx_last_toa_ms := tx_last_toa_ms s;
     tx_consumption_ms := tx_consumption_ms s;
     rx_consumption_ms := rx_consumption_ms s;
     tx_consumption_ma := tx_consumption_ma s;
     rx_consumption_ma := rx_consumption_ma s;
     tx_total_consumption_ms := tx_total_consumption_ms s;
     rx_total_consumption_ms := rx_total_consumption_ms s;
     tx_total_consumption_ma := tx_total_consumption_ma s;
     rx_total_consumption_ma := rx_total_consumption_ma s;
     tx_timestamp := timestamp;
     rx_timestamp := rx_timestamp s;
     task_hook_aborted_nb := task_hook_aborted_nb s;
     rp_error := rp_error s |}.

Definition rp_stats_set_rx_timestamp (s : rp_stats_t) (timestamp : Z)
  : rp_stats_t :=
  {| tx_last_toa_ms := tx_last_toa_ms s;
     tx_consumption_ms := tx_consumption_ms s;
     rx_consumption_ms := rx_consumption_ms s;
     tx_consumption_ma := tx_consumption_ma s;
     rx_consumption_ma := rx_consumption_ma s;
     tx_total_consumption_ms := tx_total_consumption_ms s;
     rx_total_consumption_ms := rx_total_consumption_ms s;
     tx_total_consumption_ma := tx_total_consumption_ma s;
     rx_total_consumption_ma := rx_total_consumption_ma s;
     tx_timestamp := tx_timestamp s;
     rx_timestamp := timestamp;
     task_hook_aborted_nb := task_hook_aborted_nb s;
     rp_error := rp_error s |}.

(** The first [if] of [rp_stats_update]: the transmission that started at
    [tx_timestamp] is charged to the hook. *)
Definition rp_stats_update_tx (s : rp_stats_t)
  (timestamp hook_id micro_ampere : Z) : rp_stats_t :=
  if negb (tx_timestamp s =? 0) then
    let computed_time := u32 (timestamp - tx_timestamp s) in
    let computed_consumption := u32 (computed_time * micro_ampere) in
    {| tx_last_toa_ms := buf_set (tx_last_toa_ms s) hook_id computed_time;
       tx_consumption_ms :=
         buf_set (tx_consumption_ms s) hook_id
           (u32 (buf_get (tx_consumption_ms s) hook_id + computed_time));
       rx_consumption_ms := rx_consumption_ms s;
       tx_consumption_ma :=
         buf_set (tx_consumption_ma s) hook_id
           (u32 (buf_get (tx_consumption_ma s) hook_id
                 + computed_consumption / 1000));
       rx_consumption_ma := rx_consumption_ma s;
       tx_total_consumption_ms :=
         u32 (tx_total_consumption_ms s + computed_time);
       rx_total_consumption_ms := rx_total_consumption_ms s;
       tx_total_consumption_ma :=
         u32 (tx_total_consumption_ma s + computed_consumption / 1000);
       rx_total_consumption_ma := rx_total_consumption_ma s;
       tx_timestamp := tx_timestamp s;
       rx_timestamp := rx_timestamp s;
       task_hook_aborted_nb := task_hook_aborted_nb s;
       rp_error := rp_error s |}
  else s.

(** The second [if]: the reception that started at [rx_timestamp]. *)
Definition rp_stats_update_rx (s : rp_stats_t)
  (timestamp hook_id micro_ampere : Z) : rp_stats_t :=
  if negb (rx_timestamp s =? 0) then
    let computed_time := u32 (timestamp - rx_timestamp s) in
    let computed_consumption := u32 (computed_time * micro_ampere) in
    {| tx_last_toa_ms := tx_last_toa_ms s;
       tx_consumption_ms := tx_consumption_ms s;
       rx_consumption_ms :=
         buf_set (rx_consumption_ms s) hook_id
           (u32 (buf_get (rx_consumption_ms s) hook_id + computed_time));
       tx_consumption_ma := tx_consumption_ma s;
       rx_consumption_ma :=
         buf_set (rx_consumption_ma s) hook_id
           (u32 (buf_get (rx_consumption_ma s) hook_id
                 + computed_consumption / 1000));
       tx_total_consumption_ms := tx_total_consumption_ms s;
       rx_total_consumption_ms :=
         u32 (rx_total_consumption_ms s + computed_time);
       tx_total_consumption_ma := tx_total_consumption_ma s;
       rx_total_consumption_ma :=
         u32 (rx_total_consumption_ma s + computed_consumption / 1000);
       tx_timestamp := tx_timestamp s;
       rx_timestamp := rx_timestamp s;
       task_hook_aborted_nb := task_hook_aborted_nb s;
       rp_error := rp_error s |}
  else s.

Definition rp_stats_update (rp_stats : rp_stats_t)
  (timestamp hook_id micro_ampere : Z) : rp_stats_t :=
  let s := rp_stats_update_tx rp_stats timestamp hook_id micro_ampere in
  let s := rp_stats_update_rx s timestamp hook_id micro_ampere in
  rp_stats_set_rx_timestamp (rp_stats_set_tx_timestamp s 0) 0.

(** The sum of the cells of an array, as a 32-bit value. *)
Definition sum32 (l : list Z) : Z := u32 (fold_right Z.add 0 l).

(** Each total is the sum of the counters of the hooks, modulo 2^32. *)
Definition rp_stats_totals (s : rp_stats_t) : Prop :=
  tx_total_consumption_ms s = sum32 (tx_consumption_ms s)
  /\ rx_total_consumption_ms s = sum32 (rx_consumption_ms s)
  /\ tx_total_consumption_ma s = sum32 (tx_consumption_ma s)
  /\ rx_total_consumption_ma s = sum32 (rx_consumption_ma s).

(** The arrays of the statistics have [n] cells. *)
Definition rp_stats_hooks (n : nat) (s : rp_stats_t) : Prop :=
  length (tx_last_toa_ms s) = n /\ length (tx_consumption_ms s) = n
  /\ length (rx_consumption_ms s) = n /\ length (tx_consumption_ma s) = n
  /\ length (rx_consumption_ma s) = n /\ length (task_hook_aborted_nb s) = n.

(** ** Downlinks with a valid MIC for the reference device *)

Module ScenarioRx.
Import Ref.

(** The frame [body] followed by the MIC that [Ref.crypto] verifies. *)
Definition with_mic (body : list Z) : list Z :=
  body ++ le32_bytes (checksum body).

(** The device has just received [frame]. *)
Definition received (frame : list Z) (m : mac) : mac :=
  set_rx_payload_size (Z.of_nat (length frame))
    (set_rx_payload (frame ++ zeros (255 - length frame)) m).

(** A confirmed data down with the ACK bit, FCnt 0x0021, one byte of FOpts
    (a DevStatusReq), FPort 1 and one payload byte, received by a device
    that waits for the acknowledgement of a confirmed uplink with two
    transmissions left. *)
Definition frame_conf_ack : list Z :=
  with_mic [0xA0; 0xDA; 0x1B; 0x01; 0x26; 0x21; 0x21; 0x00; 0x06; 0x01; 0xAA].

Definition mac_conf_ack : mac :=
  received frame_conf_ack
    (set_adr_ack_cnt_confirmed_frame 2
       (set_nb_trans_cpt 2
          (set_tx_mtype CONF_DATA_UP (set_fcnt_dwn 0x20 mac0)))).

(** An unconfirmed data down on port 0 that carries two DutyCycleReq. *)
Definition frame_port0 : list Z :=
  with_mic [0x60; 0xDA; 0x1B; 0x01; 0x26; 0x00; 0x21; 0x00; 0x00;
            0x04; 0x01; 0x04; 0x02].

Definition mac_port0 : mac :=
  received frame_port0 (set_adr_ack_cnt 70 (set_fcnt_dwn 0x20 mac0)).

(** A join accept without CFList: AppNonce 01 02 03, NetID 04 05 06, DevAddr
    0x26011BDA, DLSettings 0x23 (RX1 data-rate offset 2, RX2 data rate 3),
    RxDelay 0. *)
Definition frame_join_accept : list Z :=
  with_mic [0x20; 0x01; 0x02; 0x03; 0x04; 0x05; 0x06; 0xDA; 0x1B; 0x01; 0x26;
            0x23; 0x00].

Definition mac_join_accept : mac :=
  received frame_join_accept
    (set_dev_nonce 0x0102 (set_join_status NOT_JOINED
       (set_fcnt_up 17 (set_dev_addr 0 mac0)))).

(** A device about to send an unconfirmed uplink on port 1, with up counter
    0x12345, the acknowledgement of a confirmed downlink pending, and three
    bytes of answers (a DevStatusAns) to carry in FOpts. *)
Definition mac_uplink : mac :=
  set_tx_fopts_current_data ([0x06; 0xFE; 0x07] ++ zeros 12)
    (set_tx_fopts_current_length 3
       (set_app_payload_size 2
          (set_tx_ack_bit 1 (set_fcnt_up 0x12345 mac0)))).

(** A device that has one transmission of its frame left to repeat, one
    sticky answer (RXTimingSetupAns) and one answer to the last downlink
    (DevStatusAns, three bytes). *)
Definition mac_pending_answers : mac :=
  set_tx_fopts_lengthsticky 1
    (set_tx_fopts_datasticky ([0x08] ++ zeros 14)
       (set_tx_fopts_length 3
          (set_tx_fopts_data ([0x06; 0xFE; 0x07] ++ zeros 252)
             (set_nb_trans_cpt 2 (set_fcnt_up 41 mac0))))).

End ScenarioRx.


(** * Properties *)

(** ** Machine arithmetic *)

Lemma u32_small (x : Z) : 0 <= x < 2 ^ 32 -> u32 x = x.
Proof. intros H. unfold u32. apply Z.mod_small. exact H. Qed.

Lemma u16_small (x : Z) : 0 <= x < 2 ^ 16 -> u16 x = x.
Proof. intros H. unfold u16. apply Z.mod_small. exact H. Qed.

Lemma u8_small (x : Z) : 0 <= x < 2 ^ 8 -> u8 x = x.
Proof. intros H. unfold u8. apply Z.mod_small. exact H. Qed.

Lemma u32_range (x : Z) : 0 <= u32 x < 2 ^ 32.
Proof. unfold u32. apply Z.mod_pos_bound. lia. Qed.

Lemma u16_range (x : Z) : 0 <= u16 x < 2 ^ 16.
Proof. unfold u16. apply Z.mod_pos_bound. lia. Qed.

Lemma u8_range (x : Z) : 0 <= u8 x < 2 ^ 8.
Proof. unfold u8. apply Z.mod_pos_bound. lia. Qed.

(** The low mask keeps the remainder modulo 2^16. *)
Lemma land_low16 (s : Z) : Z.land s 0x0000FFFF = s mod 2 ^ 16.
Proof. change 0x0000FFFF with (Z.ones 16). apply Z.land_ones. lia. Qed.

(** The high mask of a 32-bit value removes that remainder. *)
Lemma land_high16 (s : Z) :
  0 <= s < 2 ^ 32 -> Z.land s 0xFFFF0000 = s - s mod 2 ^ 16.
Proof.
  intros Hs.
  assert (E : Z.land s 0xFFFF0000 = Z.shiftl (Z.shiftr s 16) 16).
  { apply Z.bits_inj'. intros n Hn.
    rewrite Z.land_spec.
    change 0xFFFF0000 with (Z.shiftl (Z.ones 16) 16).
    destruct (Z.lt_ge_cases n 16) as [Hlt | Hge].
    - rewrite !Z.shiftl_spec_low by assumption.
      apply andb_false_r.
    - rewrite !Z.shiftl_spec_high by lia.
      rewrite Z.shiftr_spec by lia.
      replace (n - 16 + 16) with n by lia.
      destruct (Z.lt_ge_cases n 32) as [Hlt32 | Hge32].
      + rewrite Z.ones_spec_low by lia. apply andb_true_r.
      + rewrite Z.ones_spec_high by lia. rewrite andb_false_r.
        symmetry. destruct (Z.eq_dec s 0) as [-> | Hnz].
        * apply Z.bits_0.
        * apply Z.bits_above_log2; [lia |].
          apply Z.log2_lt_pow2; [lia |].
          apply Z.lt_le_trans with (2 ^ 32); [lia |].
          apply Z.pow_le_mono_r; lia. }
  rewrite E, Z.shiftr_div_pow2, Z.shiftl_mul_pow2 by lia.
  pose proof (Z.div_mod s (2 ^ 16)). lia.
Qed.

Lemma land_high16_bound (s : Z) :
  0 <= s < 2 ^ 32 -> 0 <= Z.land s 0xFFFF0000 <= 0xFFFF0000.
Proof.
  intros Hs. rewrite land_high16 by assumption.
  pose proof (Z.mod_pos_bound s (2 ^ 16)).
  pose proof (Z.div_mod s (2 ^ 16)).
  assert (s / 2 ^ 16 < 2 ^ 16) by (apply Z.div_lt_upper_bound; lia).
  assert (0 <= s / 2 ^ 16) by (apply Z.div_pos; lia).
  lia.
Qed.

(** ** C1: the frame-counter window *)

(** C1, as stated, at the top of the counter range: with the stored counter
    0xFFFF8000 and the received counter 0 the third rule applies, and the
    value left in the 32-bit counter is 0, not
    [(s AND 0xFFFF0000) + 2^16 + r] = 2^32. *)
Lemma fcnt_dwn_accept_top_of_range :
  Spec.fcnt_candidate 0xFFFF8000 0 = Some (Z.land 0xFFFF8000 0xFFFF0000 + 2 ^ 16 + 0)
  /\ fcnt_dwn_accept 0 0xFFFF8000 = (OKLORAWAN, 0)
  /\ snd (fcnt_dwn_accept 0 0xFFFF8000)
     <> Z.land 0xFFFF8000 0xFFFF0000 + 2 ^ 16 + 0.
Proof. split; [| split]; vm_compute; congruence. Qed.

(** C1 (amended): for every stored 32-bit FCntDown [s] and received 16-bit
    counter [r], [fcnt_dwn_accept] leaves [r] when [s] is the sentinel
    0xFFFFFFFF; else [(s AND 0xFFFF0000) + r] when [r > s mod 2^16]; else
    [(s AND 0xFFFF0000) + 2^16 + r] reduced modulo 2^32 when
    [s mod 2^16 - r > 16384]; otherwise it returns the error status and
    leaves [s].  The reduction is the identity when [s < 0xFFFF0000] and
    yields [r] when the upper half of [s] is 0xFFFF. *)
Theorem fcnt_dwn_accept_window (s r : Z) :
  0 <= s < 2 ^ 32 -> 0 <= r < 2 ^ 16 ->
  fcnt_dwn_accept r s =
    (if s =? 0xFFFFFFFF then (OKLORAWAN, r)
     else if r >? s mod 2 ^ 16 then (OKLORAWAN, Z.land s 0xFFFF0000 + r)
     else if s mod 2 ^ 16 - r >? 16384
          then (OKLORAWAN, (Z.land s 0xFFFF0000 + 2 ^ 16 + r) mod 2 ^ 32)
          else (ERRORLORAWAN, s))
  /\ (s < 0xFFFF0000 ->
      (Z.land s 0xFFFF0000 + 2 ^ 16 + r) mod 2 ^ 32
      = Z.land s 0xFFFF0000 + 2 ^ 16 + r)
  /\ (0xFFFF0000 <= s ->
      (Z.land s 0xFFFF0000 + 2 ^ 16 + r) mod 2 ^ 32 = r).
Proof.
  intros Hs Hr.
  pose proof (land_high16_bound s Hs) as Hb.
  pose proof (land_high16 s Hs) as Hh.
  pose proof (Z.mod_pos_bound s (2 ^ 16) ltac:(lia)) as Hm.
  split; [| split].
  - unfold fcnt_dwn_accept, MAX_FCNT_GAP.
    rewrite land_low16.
    rewrite (u16_small (s mod 2 ^ 16)) by lia.
    change (Z.shiftl 1 16) with (2 ^ 16).
    destruct (s =? 0xFFFFFFFF) eqn:Es.
    + rewrite orb_true_r. reflexivity.
    + rewrite orb_false_r.
      destruct (r >? s mod 2 ^ 16) eqn:Er.
      * rewrite u32_small by lia. reflexivity.
      * reflexivity.
  - intros Hlt.
    pose proof (Z.div_mod s (2 ^ 16) ltac:(lia)).
    assert (s / 2 ^ 16 < 0xFFFF) by (apply Z.div_lt_upper_bound; lia).
    apply Z.mod_small. lia.
  - intros Hge.
    pose proof (Z.div_mod s (2 ^ 16) ltac:(lia)).
    assert (0xFFFF <= s / 2 ^ 16) by (apply Z.div_le_lower_bound; lia).
    assert (s / 2 ^ 16 < 2 ^ 16) by (apply Z.div_lt_upper_bound; lia).
    replace (Z.land s 0xFFFF0000 + 2 ^ 16 + r) with (r + 1 * 2 ^ 32) by lia.
    rewrite Z.mod_add by lia. apply Z.mod_small. lia.
Qed.

(** The wrap of scenario 2: stored 0x0000FFFE, received 0x0001. *)
Lemma fcnt_dwn_accept_window_witness :
  0 <= 0x0000FFFE < 2 ^ 32 /\ 0 <= 0x0001 < 2 ^ 16
  /\ fcnt_dwn_accept 0x0001 0x0000FFFE = (OKLORAWAN, 0x00010001).
Proof.
  split; [lia | split; [lia |]].
  destruct (fcnt_dwn_accept_window 0x0000FFFE 0x0001) as [E _]; [lia | lia |].
  rewrite E. reflexivity.
Defined.

(** ** C7: the duty-cycle timer *)

(** While the clock has not wrapped past the stored timestamp, the function
    returns [max (0, time_off_ms - (now - timestamp))]. *)
Lemma next_free_duty_cycle_no_wrap {R P : Type} (now : Z)
  (m : lr1_stack_mac_t R P) :
  0 <= tx_duty_cycle_timestamp_ms m <= now -> now < 2 ^ 32 ->
  0 <= tx_duty_cycle_time_off_ms m < 2 ^ 31 ->
  lr1_stack_network_next_free_duty_cycle_ms_get now m
  = Spec.next_free_duty_cycle_ms (tx_duty_cycle_time_off_ms m) now
      (tx_duty_cycle_timestamp_ms m).
Proof.
  intros Hts Hnow Hoff.
  unfold lr1_stack_network_next_free_duty_cycle_ms_get,
    Spec.next_free_duty_cycle_ms.
  set (ts := tx_duty_cycle_timestamp_ms m) in *.
  set (off := tx_duty_cycle_time_off_ms m) in *.
  rewrite (Z.mod_small (now - ts)) by lia.
  destruct (off >? 0) eqn:E0; [| lia].
  assert (Hge : (now >=? ts) = true) by lia. rewrite Hge.
  rewrite u32_small by lia.
  destruct (now - ts >? off) eqn:E1; [lia |].
  unfold i32. rewrite u32_small by lia.
  assert (Hlt : (off - (now - ts) <? 2 ^ 31) = true) by lia. rewrite Hlt. lia.
Qed.

(** C7, on the code: when the clock has wrapped past the stored timestamp
    ([now < timestamp]), the elapsed time that the function subtracts is one
    millisecond less than [(now - timestamp) mod 2^32]: the code computes
    [0xFFFFFFFF - timestamp + now]. *)
Theorem next_free_duty_cycle_wrapped {R P : Type} (now : Z)
  (m : lr1_stack_mac_t R P) :
  0 <= now < tx_duty_cycle_timestamp_ms m ->
  tx_duty_cycle_timestamp_ms m < 2 ^ 32 ->
  0 < tx_duty_cycle_time_off_ms m < 2 ^ 31 ->
  lr1_stack_network_next_free_duty_cycle_ms_get now m
  = Z.max 0 (tx_duty_cycle_time_off_ms m
             - ((now - tx_duty_cycle_timestamp_ms m) mod 2 ^ 32 - 1)).
Proof.
  intros Hnow Hts Hoff.
  unfold lr1_stack_network_next_free_duty_cycle_ms_get.
  set (ts := tx_duty_cycle_timestamp_ms m) in *.
  set (off := tx_duty_cycle_time_off_ms m) in *.
  assert (E : (now - ts) mod 2 ^ 32 = now - ts + 2 ^ 32).
  { symmetry. apply (Z.mod_unique_pos _ _ (-1)); lia. }
  rewrite E.
  assert (E0 : (off >? 0) = true) by lia. rewrite E0.
  assert (Hge : (now >=? ts) = false) by lia. rewrite Hge.
  rewrite (u32_small (0xFFFFFFFF - ts)) by lia.
  rewrite u32_small by lia.
  destruct (0xFFFFFFFF - ts + now >? off) eqn:E1; [lia |].
  unfold i32. rewrite u32_small by lia.
  assert (Hlt : (off - (0xFFFFFFFF - ts + now) <? 2 ^ 31) = true) by lia.
  rewrite Hlt. lia.
Qed.

(** The timer was started at 0xFFFFFFFF with 10 ms to wait and the clock
    reads 0: one millisecond has elapsed, and the function still returns 10
    where [max (0, time_off_ms - (now - timestamp))] is 9. *)
Lemma next_free_duty_cycle_wrapped_witness :
  lr1_stack_network_next_free_duty_cycle_ms_get 0 Scenario.mac_duty_wrap = 10
  /\ Spec.next_free_duty_cycle_ms 10 0 0xFFFFFFFF = 9.
Proof.
  split; [| reflexivity].
  rewrite (next_free_duty_cycle_wrapped 0 Scenario.mac_duty_wrap);
    [reflexivity | | |]; vm_compute; intuition congruence.
Defined.

(** ** C9: handing the uplink to the planner *)

(** C9: [lr1_stack_mac_tx_radio_start] changes the ADR counters and the
    radio state according to the status of the planner enqueue.  On success
    the radio state becomes [RADIOSTATE_TXON] and one counter grows by one:
    [adr_ack_cnt_confirmed_frame] for a confirmed uplink, [adr_ack_cnt] for
    an unconfirmed uplink, the other counter being unchanged.  On refusal
    both counters and the radio state are unchanged. *)
Theorem tx_radio_start_counters {R P : Type} (rl : smtc_real_ops R P)
  (rpo : rp_ops P) (m : lr1_stack_mac_t R P) :
  let m' := lr1_stack_mac_tx_radio_start rl rpo m in
  match tx_enqueue_status rl rpo m with
  | RP_HOOK_STATUS_OK =>
      radio_process_state m' = RADIOSTATE_TXON
      /\ (tx_mtype m = CONF_DATA_UP ->
          adr_ack_cnt_confirmed_frame m' = adr_ack_cnt_confirmed_frame m + 1
          /\ adr_ack_cnt m' = adr_ack_cnt m)
      /\ (tx_mtype m = UNCONF_DATA_UP ->
          adr_ack_cnt m' = adr_ack_cnt m + 1
          /\ adr_ack_cnt_confirmed_frame m' = adr_ack_cnt_confirmed_frame m)
  | _ =>
      radio_process_state m' = radio_process_state m
      /\ adr_ack_cnt m' = adr_ack_cnt m
      /\ adr_ack_cnt_confirmed_frame m' = adr_ack_cnt_confirmed_frame m
  end.
Proof.
  unfold lr1_stack_mac_tx_radio_start, tx_enqueue_status.
  destruct (rp_hook_get_id rpo (rp m)) as [hs id].
  destruct hs, (send_at_time m) eqn:Es; cbn [snd];
    unfold tx_rp_task, bsp_mcu_handle_lr1mac_issue; cbn; rewrite ?Es; cbn;
    match goal with
    | |- context [rp_task_enqueue rpo ?p ?t ?b ?n ?r] =>
        destruct (rp_task_enqueue rpo p t b n r) as [e p']
    end;
    destruct e; cbn; repeat (split || intros ?); try reflexivity;
    try match goal with
        | Hm : tx_mtype m = _ |- _ => rewrite Hm; reflexivity
        end;
    destruct (tx_mtype m =? CONF_DATA_UP); reflexivity.
Qed.

(** An unconfirmed uplink of the reference device, the planner slot being
    free: the enqueue succeeds and [adr_ack_cnt] goes from 0 to 1. *)
Lemma tx_radio_start_counters_witness :
  tx_enqueue_status Ref.region Ref.planner Ref.mac0 = RP_HOOK_STATUS_OK
  /\ tx_mtype Ref.mac0 = UNCONF_DATA_UP
  /\ adr_ack_cnt (lr1_stack_mac_tx_radio_start Ref.region Ref.planner Ref.mac0)
     = adr_ack_cnt Ref.mac0 + 1.
Proof.
  split; [reflexivity | split; [reflexivity |]].
  pose proof (tx_radio_start_counters Ref.region Ref.planner Ref.mac0) as H.
  cbv zeta in H.
  change (tx_enqueue_status Ref.region Ref.planner Ref.mac0)
    with RP_HOOK_STATUS_OK in H.
  destruct H as (_ & _ & H). apply H. reflexivity.
Defined.

(** ** C5: the RX window parameters *)

Lemma MAX_is_max (a b : Z) : MAX a b = Z.max b a.
Proof. unfold MAX. destruct (a >? b) eqn:E; lia. Qed.

(** The early-start offset is a floor: [-ceil (4T - N*T/2 - b)] is
    [floor (N/2*T - 4T + b)]. *)
Lemma rx_offset_ms_floor (t : Q) (n b : Z) :
  rx_offset_ms_of t n b
  = Qfloor (inject_Z n / 2 * t - 4 * t + inject_Z b).
Proof.
  transitivity
    (Qfloor (- (4 * t - inject_Z n * t / 2 - inject_Z b))).
  - unfold rx_offset_ms_of, Qceiling. ring.
  - apply Qfloor_comp. field.
Qed.

Lemma shiftr_u32_bound (x k : Z) : 1 <= k -> 0 <= Z.shiftr (u32 x) k < 2 ^ 31.
Proof.
  intros Hk. pose proof (u32_range x) as Hx.
  rewrite Z.shiftr_div_pow2 by lia.
  assert (2 <= 2 ^ k).
  { change 2 with (2 ^ 1) at 1. apply Z.pow_le_mono_r; lia. }
  split.
  - apply Z.div_pos; lia.
  - apply Z.div_lt_upper_bound; lia.
Qed.





(** ** Reading fields through assignments *)

Ltac head_of t :=
  lazymatch t with
  | ?f _ => head_of f
  | _ => t
  end.

(** One field read through one assignment: [f (set_g v m)] becomes [f m]
    when the assignment is to another field, and [v] when it is to the field
    that [f] reads. *)
Ltac mac_step :=
  match goal with
  | |- context [?f (?s ?v ?m)] =>
      lazymatch type of m with lr1_stack_mac_t _ _ => idtac end;
      lazymatch type of (s v m) with lr1_stack_mac_t _ _ => idtac end;
      let hs := head_of s in
      is_const hs;
      let T := type of v in
      let E := fresh "E" in
      first [ assert (E : forall x : T, f (s x m) = f m)
                by (intros ?; exact eq_refl)
            | assert (E : forall x : T, f (s x m) = x)
                by (intros ?; exact eq_refl) ];
      rewrite (E v); clear E
  end.

Ltac mac_simpl := repeat mac_step.

(** Case analysis on a conditional whose condition contains no other
    conditional. *)
Ltac split_if :=
  match goal with
  | |- context [if ?c then _ else _] =>
      lazymatch c with
      | context [if _ then _ else _] => fail
      | _ => destruct c eqn:?
      end
  end.

Ltac mac_cases := repeat (mac_simpl; cbv beta iota; try split_if).

(** ** C4: the ADR fallback *)

(** The components of a view. *)
Lemma adr_view_inv {R P : Type} (m : lr1_stack_mac_t R P)
  (dr cnt conf lim del : Z) (r : R) :
  adr_view m = (dr, cnt, conf, lim, del, r) ->
  tx_data_rate_adr m = dr /\ adr_ack_cnt m = cnt
  /\ adr_ack_cnt_confirmed_frame m = conf /\ adr_ack_limit m = lim
  /\ adr_ack_delay m = del /\ real m = r.
Proof.
  unfold adr_view. intros H. injection H as E1 E2 E3 E4 E5 E6.
  repeat split; assumption.
Qed.

Section AdrFrame.
Context {R P : Type} (rl : smtc_real_ops R P) (cr : crypto_ops).
Local Abbreviation mac := (lr1_stack_mac_t R P).

Lemma bsp_issue_adr_view (m : mac) :
  adr_view (bsp_mcu_handle_lr1mac_issue m) = adr_view m.
Proof. reflexivity. Qed.

Lemma update_retrans_adr_view (m : mac) :
  adr_view (update_retrans m) = adr_view m.
Proof.
  unfold update_retrans. destruct (nb_trans_cpt m <=? 1); reflexivity.
Qed.

Lemma update_fopts_adr_view (m : mac) :
  adr_view (update_fopts m) = adr_view m.
Proof.
  unfold update_fopts.
  destruct (tx_fopts_length m + tx_fopts_lengthsticky m >? 15); reflexivity.
Qed.

Lemma tx_frame_build_adr_view (m : mac) :
  adr_view (lr1_stack_mac_tx_frame_build m) = adr_view m.
Proof. reflexivity. Qed.

Lemma tx_frame_encrypt_adr_view (m : mac) :
  adr_view (lr1_stack_mac_tx_frame_encrypt cr m) = adr_view m.
Proof. reflexivity. Qed.

Lemma update_send_adr_view (m : mac) :
  adr_view (update_send rl cr m) = adr_view m.
Proof.
  unfold update_send. destruct (type_of_ans_to_send m); try reflexivity.
  unfold update_nwk_frame. cbv zeta.
  rewrite tx_frame_encrypt_adr_view, tx_frame_build_adr_view.
  match goal with
  | |- context [if ?c then _ else _] => destruct c
  end; reflexivity.
Qed.
End AdrFrame.

Lemma ref_dr_decrement_adr_view (m : Ref.mac) :
  adr_view (Ref.dr_decrement m)
  = ((if tx_data_rate_adr m >? Ref.reg_min_dr (real m)
      then tx_data_rate_adr m - 1 else tx_data_rate_adr m),
     adr_ack_cnt m, adr_ack_cnt_confirmed_frame m, adr_ack_limit m,
     adr_ack_delay m, real m).
Proof.
  unfold Ref.dr_decrement.
  destruct (tx_data_rate_adr m >? Ref.reg_min_dr (real m)); reflexivity.
Qed.

(** The ADR part of the update on the reference region, while the counter of
    confirmed uplinks is below [ADR_LIMIT_CONF_UP]. *)
Lemma ref_update_adr (m : Ref.mac) :
  adr_ack_cnt_confirmed_frame m < 4 ->
  adr_view (update_adr Ref.region m)
  = if adr_ack_cnt m >=? adr_ack_limit m + adr_ack_delay m then
      let dr := if tx_data_rate_adr m >? Ref.reg_min_dr (real m)
                then tx_data_rate_adr m - 1 else tx_data_rate_adr m in
      (dr, (if dr =? Ref.reg_min_dr (real m) then adr_ack_cnt m
            else adr_ack_limit m),
       adr_ack_cnt_confirmed_frame m, adr_ack_limit m, adr_ack_delay m, real m)
    else adr_view m.
Proof.
  intros Hconf. unfold update_adr, bsp_mcu_handle_lr1mac_issue.
  change (smtc_real_dr_decrement Ref.region) with Ref.dr_decrement.
  change (smtc_real_min_dr_channel_get Ref.region)
    with (fun m : Ref.mac => Ref.reg_min_dr (real m)).
  change (ADR_LIMIT_CONF_UP Ref.region) with 4.
  change (NO_RX_PACKET_CNT Ref.region) with 2400.
  cbv zeta beta.
  set (m1 := if (adr_ack_cnt m >=? adr_ack_limit m)
                && (adr_ack_cnt m <=? adr_ack_limit m + adr_ack_delay m)
             then set_adr_ack_req 1 m else m).
  assert (V1 : adr_view m1 = adr_view m) by (subst m1; split_if; reflexivity).
  clearbody m1.
  set (m2 := if (adr_ack_cnt m1 <? adr_ack_limit m1)
                || (adr_ack_cnt m1 >? adr_ack_limit m1 + adr_ack_delay m1)
             then set_adr_ack_req 0 m1 else m1).
  assert (V2 : adr_view m2 = adr_view m).
  { rewrite <- V1. subst m2. split_if; reflexivity. }
  clearbody m2. clear V1 m1.
  pose proof (ref_dr_decrement_adr_view m2) as V3.
  set (m3 := Ref.dr_decrement m2) in *. clearbody m3.
  unfold adr_view in V2, V3.
  injection V2 as E1 E2 E3 E4 E5 E6.
  injection V3 as F1 F2 F3 F4 F5 F6.
  rewrite E1, E2, E3, E4, E5, E6 in *.
  destruct (adr_ack_cnt m >=? adr_ack_limit m + adr_ack_delay m) eqn:Hc.
  - rewrite F1, F6. cbv zeta.
    set (dr := if tx_data_rate_adr m >? Ref.reg_min_dr (real m)
               then tx_data_rate_adr m - 1 else tx_data_rate_adr m) in *.
    destruct (dr =? Ref.reg_min_dr (real m)) eqn:Hd; cbn [negb];
      mac_simpl; rewrite ?F2, ?F3, ?F4, ?F5;
      (destruct (adr_ack_cnt_confirmed_frame m >=? 4) eqn:Hf; [lia |]);
      mac_cases; unfold adr_view; mac_simpl;
      rewrite ?F1, ?F2, ?F3, ?F4, ?F5, ?F6; reflexivity.
  - rewrite E3.
    (destruct (adr_ack_cnt_confirmed_frame m >=? 4) eqn:Hf; [lia |]).
    rewrite E2, E3.
    mac_cases; unfold adr_view; mac_simpl; congruence.
Qed.

Lemma ref_update_join_adr_view (now : Z) (m : Ref.mac) :
  adr_view (update_join Ref.region now m) = adr_view m.
Proof.
  unfold update_join. destruct (join_status m); [| reflexivity].
  cbv zeta. repeat split_if; reflexivity.
Qed.

(** [lr1_stack_mac_update] on the reference region, seen through the ADR
    fields. *)
Lemma ref_update_adr_view (now : Z) (m : Ref.mac) :
  adr_ack_cnt_confirmed_frame m < 4 ->
  adr_view (lr1_stack_mac_update Ref.region Ref.crypto now m)
  = let lim := Ref.reg_adr_ack_limit (real m) in
    let del := Ref.reg_adr_ack_delay (real m) in
    if adr_ack_cnt m >=? lim + del then
      let dr := if tx_data_rate_adr m >? Ref.reg_min_dr (real m)
                then tx_data_rate_adr m - 1 else tx_data_rate_adr m in
      (dr, (if dr =? Ref.reg_min_dr (real m) then adr_ack_cnt m else lim),
       adr_ack_cnt_confirmed_frame m, lim, del, real m)
    else (tx_data_rate_adr m, adr_ack_cnt m, adr_ack_cnt_confirmed_frame m,
          lim, del, real m).
Proof.
  intros Hconf. unfold lr1_stack_mac_update. cbv zeta.
  rewrite update_send_adr_view, update_fopts_adr_view, update_retrans_adr_view.
  match goal with
  | |- adr_view (update_adr _ (update_join _ _ ?x)) = _ => set (m0 := x)
  end.
  assert (V0 : adr_view m0
               = (tx_data_rate_adr m, adr_ack_cnt m,
                  adr_ack_cnt_confirmed_frame m,
                  Ref.reg_adr_ack_limit (real m),
                  Ref.reg_adr_ack_delay (real m), real m)) by reflexivity.
  rewrite <- (ref_update_join_adr_view now m0) in V0.
  clearbody m0. set (m1 := update_join Ref.region now m0) in *. clearbody m1.
  unfold adr_view in V0. injection V0 as E1 E2 E3 E4 E5 E6.
  rewrite ref_update_adr by lia.
  unfold adr_view. rewrite E1, E2, E3, E4, E5, E6. reflexivity.
Qed.


(** The planner of the reference device accepts the uplink when its slot is
    free; an uplink that is not confirmed adds one to [adr_ack_cnt]. *)
Lemma ref_tx_radio_start_adr_view (m : Ref.mac) :
  rp m = None -> tx_mtype m <> CONF_DATA_UP ->
  adr_view (Scenario.radio_cycle_done
              (lr1_stack_mac_tx_radio_start Ref.region Ref.planner m))
  = (tx_data_rate_adr m, adr_ack_cnt m + 1, adr_ack_cnt_confirmed_frame m,
     adr_ack_limit m, adr_ack_delay m, real m).
Proof.
  intros Hrp Hmt.
  unfold lr1_stack_mac_tx_radio_start, Scenario.radio_cycle_done.
  change (rp_hook_get_id Ref.planner (rp m)) with (RP_HOOK_STATUS_OK, 0).
  cbv beta iota zeta.
  assert (Hne : (tx_mtype m =? CONF_DATA_UP) = false) by (apply Z.eqb_neq; exact Hmt).
  destruct (send_at_time m);
    unfold Ref.planner; cbv beta iota delta [rp_task_enqueue]; mac_simpl;
    rewrite Hrp; cbv beta iota; mac_simpl; rewrite Hne; reflexivity.
Qed.



(** ** C2: the frame counter and the MIC *)

Lemma rx_view_inv {R P : Type} (m : lr1_stack_mac_t R P)
  (p : list Z) (n a : Z) (k : list Z) (f c1 c2 : Z) :
  rx_view m = (p, n, a, k, f, c1, c2) ->
  rx_payload m = p /\ rx_payload_size m = n /\ dev_addr m = a
  /\ nwk_skey m = k /\ fcnt_dwn m = f /\ adr_ack_cnt m = c1
  /\ adr_ack_cnt_confirmed_frame m = c2.
Proof.
  unfold rx_view. intros H. injection H as E1 E2 E3 E4 E5 E6 E7.
  repeat split; assumption.
Qed.

Lemma rx_mhdr_extract_spec {R P : Type} (m : lr1_stack_mac_t R P) :
  fst (rx_mhdr_extract m)
  = (if is_uplink_mtype (Z.shiftr (buf_get (rx_payload m) 0) 5)
     then ERRORLORAWAN else OKLORAWAN)
  /\ rx_mtype (snd (rx_mhdr_extract m)) = Z.shiftr (buf_get (rx_payload m) 0) 5
  /\ rx_view (snd (rx_mhdr_extract m)) = rx_view m.
Proof. repeat split; reflexivity. Qed.

Lemma rx_fhdr_extract_spec {R P : Type} (m : lr1_stack_mac_t R P) (a : Z) :
  fst (fst (rx_fhdr_extract m a))
  = (if u32 (le32_read (rx_payload m) 1) =? a then OKLORAWAN else ERRORLORAWAN)
  /\ snd (fst (rx_fhdr_extract m a))
     = u16 (buf_get (rx_payload m) 6 + Z.shiftl (buf_get (rx_payload m) 7) 8)
  /\ rx_view (snd (rx_fhdr_extract m a)) = rx_view m.
Proof.
  unfold rx_fhdr_extract. cbv zeta. cbn [fst snd].
  repeat split; try reflexivity.
  split_if; reflexivity.
Qed.

(** C2, on the code: for a downlink data frame that passes the size, MType
    and DevAddr checks and whose 16-bit counter is accepted by the window with
    the reconstructed value [c], a failing MIC check makes
    [lr1_stack_mac_rx_frame_decode] return [NO_MORE_VALID_RX_PACKET] with
    the ADR counters untouched, but the stored FCntDown is already [c]: the
    window function writes the session counter before the MIC is verified. *)
Theorem rx_frame_decode_commits_fcnt_before_mic {R P : Type} (cr : crypto_ops)
  (m : lr1_stack_mac_t R P) (c : Z) :
  MIN_LORAWAN_PAYLOAD_SIZE <= rx_payload_size m < 256 ->
  is_uplink_mtype (Z.shiftr (buf_get (rx_payload m) 0) 5) = false ->
  Z.shiftr (buf_get (rx_payload m) 0) 5 <> JOIN_ACCEPT ->
  u32 (le32_read (rx_payload m) 1) = dev_addr m ->
  fcnt_dwn_accept
    (u16 (buf_get (rx_payload m) 6 + Z.shiftl (buf_get (rx_payload m) 7) 8))
    (fcnt_dwn m) = (OKLORAWAN, c) ->
  check_mic cr (frame_bytes (rx_payload m) (rx_payload_size m - MICSIZE))
    (nwk_skey m) (dev_addr m) c
    (le32_read (rx_payload m) (rx_payload_size m - MICSIZE)) <> OKLORAWAN ->
  let r := lr1_stack_mac_rx_frame_decode cr m in
  fst r = NO_MORE_VALID_RX_PACKET
  /\ fcnt_dwn (snd r) = c
  /\ adr_ack_cnt (snd r) = adr_ack_cnt m
  /\ adr_ack_cnt_confirmed_frame (snd r) = adr_ack_cnt_confirmed_frame m.
Proof.
  intros Hsize Hup Hja Haddr Hacc Hmic. cbv zeta.
  unfold lr1_stack_mac_rx_frame_decode.
  assert (Hchk : rx_payload_size_check m = OKLORAWAN).
  { unfold rx_payload_size_check.
    destruct (rx_payload_size m <? MIN_LORAWAN_PAYLOAD_SIZE) eqn:E; [lia | reflexivity]. }
  rewrite Hchk.
  destruct (rx_mhdr_extract_spec m) as (S1 & T1 & V1).
  destruct (rx_mhdr_extract m) as [st1 m1]. cbn [fst snd] in S1, T1, V1.
  rewrite Hup in S1. subst st1.
  apply rx_view_inv in V1. destruct V1 as (P1 & N1 & A1 & K1 & F1 & C1 & D1).
  cbv beta iota zeta.
  assert (Hj : (rx_mtype m1 =? JOIN_ACCEPT) = false)
    by (rewrite T1; apply Z.eqb_neq; exact Hja).
  rewrite Hj.
  destruct (rx_fhdr_extract_spec m1 (dev_addr m1)) as (S2 & T2 & V2).
  destruct (rx_fhdr_extract m1 (dev_addr m1)) as [[st2 r2] m2].
  cbn [fst snd] in S2, T2, V2.
  rewrite P1, A1, Haddr, Z.eqb_refl in S2. subst st2.
  rewrite P1 in T2. subst r2.
  apply rx_view_inv in V2. destruct V2 as (P2 & N2 & A2 & K2 & F2 & C2 & D2).
  change (OKLORAWAN + OKLORAWAN + OKLORAWAN + OKLORAWAN =? OKLORAWAN) with true.
  cbv beta iota.
  rewrite F2, F1, Hacc. cbv beta iota.
  change (OKLORAWAN =? OKLORAWAN) with true. cbv beta iota zeta.
  mac_simpl.
  rewrite P2, P1, N2, N1, K2, K1, A2, A1.
  rewrite (u8_small (rx_payload_size m - MICSIZE))
    by (unfold MICSIZE, MIN_LORAWAN_PAYLOAD_SIZE in *; lia).
  match goal with
  | |- context [?s =? OKLORAWAN] =>
      assert (Hs : (s =? OKLORAWAN) = false)
        by (apply Z.eqb_neq; unfold OKLORAWAN in *; lia)
  end.
  rewrite Hs. cbn [fst snd]. mac_simpl.
  repeat split; congruence.
Qed.

(** The device holds FCntDown 0x10 and receives a frame with FCnt 0x0020
    and a MIC that the check rejects: the frame is dropped and FCntDown is
    0x20. *)
Lemma rx_frame_decode_commits_fcnt_before_mic_witness :
  fcnt_dwn Scenario.mac_bad_mic = 0x10
  /\ fst (lr1_stack_mac_rx_frame_decode Ref.crypto Scenario.mac_bad_mic)
     = NO_MORE_VALID_RX_PACKET
  /\ fcnt_dwn (snd (lr1_stack_mac_rx_frame_decode Ref.crypto Scenario.mac_bad_mic))
     = 0x20.
Proof.
  split; [reflexivity |].
  destruct (rx_frame_decode_commits_fcnt_before_mic Ref.crypto
              Scenario.mac_bad_mic 0x20) as (H1 & H2 & _).
  - vm_compute. intuition congruence.
  - reflexivity.
  - vm_compute. congruence.
  - reflexivity.
  - reflexivity.
  - vm_compute. congruence.
  - split; assumption.
Defined.

(** ** C3: MAC answers that do not fit in the FOpts *)

Section FOpts.
Context {R P : Type} (rl : smtc_real_ops R P) (cr : crypto_ops).
Local Abbreviation mac := (lr1_stack_mac_t R P).

(** The FOpts length that [lr1_stack_mac_update] selects for the FHDR never
    exceeds 15. *)
Lemma update_fopts_current_length_le_15 (m : mac) :
  0 <= tx_fopts_length m -> 0 <= tx_fopts_lengthsticky m ->
  0 <= tx_fopts_current_length m <= 15 ->
  0 <= tx_fopts_current_length (update_fopts m) <= 15.
Proof.
  intros H1 H2 H3. unfold update_fopts.
  destruct (tx_fopts_length m + tx_fopts_lengthsticky m >? 15) eqn:E.
  - cbv zeta. mac_simpl. exact H3.
  - cbv zeta. mac_simpl.
    rewrite u8_small by lia. lia.
Qed.

(** When more than 15 bytes of answers are pending, the carrier becomes a
    frame of MAC commands, and the FOpts length selected by an earlier
    update stays in the object. *)
Lemma update_fopts_overflow (m : mac) :
  tx_fopts_length m + tx_fopts_lengthsticky m > 15 ->
  type_of_ans_to_send (update_fopts m) = NWKFRAME_TOSEND
  /\ tx_fopts_current_length (update_fopts m) = tx_fopts_current_length m.
Proof.
  intros H. unfold update_fopts.
  destruct (tx_fopts_length m + tx_fopts_lengthsticky m >? 15) eqn:E; [| lia].
  split; reflexivity.
Qed.

(** The frame of MAC commands is built on port 0 with the FOpts length that
    is in the object. *)
Lemma update_send_fctrl (m : mac) :
  type_of_ans_to_send m = NWKFRAME_TOSEND ->
  tx_fport (update_send rl cr m) = PORTNWK
  /\ tx_fctrl (update_send rl cr m)
     = u8 (Z.shiftl (adr_enable m) 7 + Z.shiftl (adr_ack_req m) 6
           + Z.shiftl (tx_ack_bit m) 5
           + Z.land (tx_fopts_current_length m) 0x0F).
Proof.
  intros H. unfold update_send. rewrite H. unfold update_nwk_frame. cbv zeta.
  split_if; split; reflexivity.
Qed.
End FOpts.

(** C3, on the code: the reference device answers a first downlink with 2
    bytes in the FOpts of an uplink, then receives 16 DutyCycleReq.  At the
    next update 16 bytes of answers are pending; they are sent on port 0,
    but the FOptsLen field of the FCtrl byte of the frame is 2, the length
    left by the previous update, and not 0. *)
Theorem update_overflow_keeps_stale_fopts_len :
  match Scenario.pending_overflow with
  | Some m =>
      tx_fopts_length m + tx_fopts_lengthsticky m = 16
      /\ tx_fopts_current_length m = 2
      /\ let m' := lr1_stack_mac_update Ref.region Ref.crypto 0 m in
         type_of_ans_to_send m' = NWKFRAME_TOSEND
         /\ tx_fport m' = PORTNWK
         /\ app_payload_size m' = 16
         /\ Z.land (tx_fctrl m') 0x0F = 2
         /\ Z.land (buf_get (tx_payload m') 5) 0x0F = 2
  | None => False
  end.
Proof. vm_compute. repeat split; reflexivity. Qed.

(** ** C6: arming the RX windows *)

Lemma i32_u32 (x : Z) : i32 (u32 x) = i32 x.
Proof. unfold i32, u32. rewrite Z.mod_mod by lia. reflexivity. Qed.

Lemma u32_sub_l (a b : Z) : u32 (u32 a - b) = u32 (a - b).
Proof. unfold u32. apply Zminus_mod_idemp_l. Qed.

Lemma u32_add_r (a b : Z) : u32 (a + u32 b) = u32 (a + b).
Proof. unfold u32. apply Zplus_mod_idemp_r. Qed.

Lemma i32_sub_l (a b : Z) : i32 (u32 a - b) = i32 (a - b).
Proof. rewrite <- i32_u32, u32_sub_l, i32_u32. reflexivity. Qed.

Lemma compute_rx_window_parameters_frame {R P : Type}
  (m : lr1_stack_mac_t R P) sf bw ca d b md :
  let m' := compute_rx_window_parameters m sf bw ca d b md in
  rx1_delay_s m' = rx1_delay_s m
  /\ isr_radio_timestamp m' = isr_radio_timestamp m
  /\ radio_process_state m' = radio_process_state m
  /\ rp m' = rp m.
Proof. repeat split; reflexivity. Qed.


Lemma ref_rx_config_frame : rx_config_frame Ref.region.
Proof. intros m type. destruct type; repeat split; reflexivity. Qed.



(** ** C8: the join request *)

Lemma low_byte (n : Z) : u8 (Z.land n 0x00FF) = n mod 256.
Proof.
  change 0x00FF with (Z.ones 8). rewrite Z.land_ones by lia.
  unfold u8. change (2 ^ 8) with 256. apply Z.mod_mod. lia.
Qed.

Lemma high_byte (n : Z) :
  0 <= n < 2 ^ 16 -> u8 (Z.shiftr (Z.land n 0xFF00) 8) = n / 256.
Proof.
  intros Hn. rewrite Z.shiftr_land.
  change (Z.shiftr 0xFF00 8) with (Z.ones 8).
  rewrite Z.land_ones, Z.shiftr_div_pow2 by lia.
  change (2 ^ 8) with 256.
  assert (0 <= n / 256 < 256).
  { split; [apply Z.div_pos; lia | apply Z.div_lt_upper_bound; lia]. }
  rewrite (Z.mod_small (n / 256)) by lia.
  apply u8_small. change (2 ^ 8) with 256. lia.
Qed.

(** A list of known length, element by element. *)
Ltac explode_list l H :=
  repeat (destruct l as [| ? l]; [discriminate H |]; cbn [length] in H;
          apply Nat.succ_inj in H);
  try (destruct l; [| discriminate H]).

(** A list with at least 23 elements, element by element. *)
Ltac explode_prefix l H :=
  do 23 (destruct l as [| ? l]; [cbn [length] in H; lia |];
         cbn [length] in H; apply le_S_n in H).

(** The object that [lr1_stack_mac_join_request_build] hands to
    [smtc_real_memory_save]. *)
Lemma join_request_build_saved {R P : Type} (rl : smtc_real_ops R P)
  (cr : crypto_ops) (m : lr1_stack_mac_t R P) :
  exists m1,
    lr1_stack_mac_join_request_build rl cr m = smtc_real_memory_save rl m1
    /\ dev_nonce m1 = u16 (dev_nonce m + 1)
    /\ tx_payload_size m1 = 23
    /\ tx_payload m1
       = memcpy (join_body m) 19
           (le32_bytes
              (join_compute_mic cr (frame_bytes (join_body m) 19) (app_key m)))
           4.
Proof.
  unfold lr1_stack_mac_join_request_build. cbv zeta.
  eexists. split; [reflexivity |]. repeat split; reflexivity.
Qed.

(** The 19 bytes over which the MIC is computed, and the 23 bytes of the
    frame. *)
Lemma join_body_layout {R P : Type} (m : lr1_stack_mac_t R P) (mic : list Z) :
  length (app_eui m) = 8%nat -> length (dev_eui m) = 8%nat ->
  (23 <= length (tx_payload m))%nat -> length mic = 4%nat ->
  tx_major_bits m = LORAWANR1 ->
  let n := (dev_nonce m + 1) mod 2 ^ 16 in
  let body := [0x00] ++ rev (app_eui m) ++ rev (dev_eui m)
              ++ [n mod 256; n / 256] in
  frame_bytes (join_body m) 19 = body
  /\ frame_bytes (memcpy (join_body m) 19 mic 4) 23 = body ++ mic.
Proof.
  intros Ha Hd Hp Hmic Hmaj. cbv zeta. unfold join_body.
  rewrite Hmaj, low_byte, high_byte by apply u16_range.
  change (u16 (dev_nonce m + 1)) with ((dev_nonce m + 1) mod 2 ^ 16).
  generalize (((dev_nonce m + 1) mod 2 ^ 16) mod 256)
             (((dev_nonce m + 1) mod 2 ^ 16) / 256).
  intros b0 b1.
  destruct (app_eui m) as [| a0 [| a1 [| a2 [| a3 [| a4 [| a5 [| a6 [| a7 [| ? ?]]]]]]]]];
    try discriminate Ha.
  destruct (dev_eui m) as [| d0 [| d1 [| d2 [| d3 [| d4 [| d5 [| d6 [| d7 [| ? ?]]]]]]]]];
    try discriminate Hd.
  destruct mic as [| c0 [| c1 [| c2 [| c3 [| ? ?]]]]]; try discriminate Hmic.
  generalize dependent (tx_payload m). intros p Hp.
  explode_prefix p Hp.
  split; reflexivity.
Qed.

(** C8, as stated, on the number of bytes under the MIC: with a probe in
    place of the MIC primitive that returns the length of the message it is
    given, the four MIC bytes of the join request of the reference device
    encode 19, not 18: the MIC covers the MHDR and the 18 bytes that follow
    it. *)
Lemma join_request_mic_covers_19_bytes :
  let m' := lr1_stack_mac_join_request_build Ref.region Scenario.crypto_probe
              Ref.mac0 in
  tx_payload_size m' = 23
  /\ buf_sub (tx_payload m') 19 4 = le32_bytes 19
  /\ buf_sub (tx_payload m') 19 4
     <> le32_bytes
          (join_compute_mic Scenario.crypto_probe
             (buf_sub (tx_payload m') 1 18) (app_key m'))
  /\ join_compute_mic Scenario.crypto_probe (buf_sub (tx_payload m') 1 18)
       (app_key m') = 18.
Proof. cbv zeta. repeat split; vm_compute; congruence. Qed.

(** C8 (amended): for an object with 8-byte EUIs, a transmit buffer of at
    least 23 bytes and the major version [LORAWANR1],
    [lr1_stack_mac_join_request_build] saves, through
    [smtc_real_memory_save], an object whose DevNonce is the former one plus
    one (modulo 2^16) and whose frame of 23 bytes is
    MHDR 0x00 || AppEUI reversed || DevEUI reversed || DevNonce, low byte
    first || MIC, the MIC being computed with AppKey over the preceding 19
    bytes, MHDR included. *)
Theorem join_request_build_frame {R P : Type} (rl : smtc_real_ops R P)
  (cr : crypto_ops) (m : lr1_stack_mac_t R P) :
  length (app_eui m) = 8%nat -> length (dev_eui m) = 8%nat ->
  (23 <= length (tx_payload m))%nat ->
  tx_major_bits m = LORAWANR1 ->
  exists m1,
    lr1_stack_mac_join_request_build rl cr m = smtc_real_memory_save rl m1
    /\ dev_nonce m1 = (dev_nonce m + 1) mod 2 ^ 16
    /\ tx_payload_size m1 = 23
    /\ let body := [0x00] ++ rev (app_eui m) ++ rev (dev_eui m)
                   ++ [dev_nonce m1 mod 256; dev_nonce m1 / 256] in
       length body = 19%nat
       /\ frame_bytes (tx_payload m1) (tx_payload_size m1)
          = body ++ le32_bytes (join_compute_mic cr body (app_key m)).
Proof.
  intros Ha Hd Hp Hmaj.
  destruct (join_request_build_saved rl cr m) as (m1 & E & N & S & T).
  exists m1. split; [exact E |]. split; [exact N |]. split; [exact S |].
  cbv zeta. rewrite N, S, T.
  change (u16 (dev_nonce m + 1)) with ((dev_nonce m + 1) mod 2 ^ 16).
  split.
  - rewrite !length_app, !length_rev, Ha, Hd. reflexivity.
  - destruct (join_body_layout m
                (le32_bytes
                   (join_compute_mic cr (frame_bytes (join_body m) 19)
                      (app_key m)))
                Ha Hd Hp eq_refl Hmaj) as [B F].
    cbv zeta in B, F. rewrite F, B. reflexivity.
Qed.

(** The join request of the reference device: DevNonce goes from 0 to 1, is
    written to non-volatile memory, and the MIC is the checksum of the first
    19 bytes. *)
Lemma join_request_build_frame_witness :
  length (app_eui Ref.mac0) = 8%nat /\ length (dev_eui Ref.mac0) = 8%nat
  /\ (23 <= length (tx_payload Ref.mac0))%nat
  /\ tx_major_bits Ref.mac0 = LORAWANR1
  /\ exists m1,
       lr1_stack_mac_join_request_build Ref.region Ref.crypto Ref.mac0
       = Ref.memory_save m1
       /\ dev_nonce m1 = 1
       /\ Ref.nvm_dev_nonce (real (Ref.memory_save m1)) = 1.
Proof.
  assert (Hp : (23 <= length (tx_payload Ref.mac0))%nat)
    by (vm_compute; repeat constructor).
  split; [reflexivity | split; [reflexivity | split; [exact Hp |]]].
  split; [reflexivity |].
  destruct (join_request_build_frame Ref.region Ref.crypto Ref.mac0
              eq_refl eq_refl Hp eq_refl) as (m1 & E & N & _).
  exists m1. split; [exact E |]. split; [exact N |].
  unfold Ref.memory_save. cbn [real set_real Ref.nvm_dev_nonce]. exact N.
Defined.

(** ** C10: a byte that is no command identifier *)

Section CmdParse.
Context {R P : Type} (rl : smtc_real_ops R P) (rpo : rp_ops P) (bsp : bsp_ops).
Local Abbreviation mac := (lr1_stack_mac_t R P).

(** The switch takes its default branch on a byte that is none of the nine
    identifiers. *)
Lemma cmd_dispatch_unknown (c : Z) (m : mac) :
  is_known_cid c = false ->
  cmd_dispatch rl rpo bsp c m = set_nwk_payload_size 0 m.
Proof.
  unfold is_known_cid, cmd_dispatch. intros H.
  repeat (apply orb_false_elim in H; destruct H as [H ?]).
  repeat match goal with
         | E : (c =? ?x) = false |- _ => rewrite E; clear E
         end.
  reflexivity.
Qed.

(** Passes through the loop body consume fuel one by one. *)
Lemma cmd_parse_loop_reaches (k : nat) :
  forall (m mb : mac) (fuel : nat),
    cmd_parse_reaches rl rpo bsp k m mb ->
    cmd_parse_loop rl rpo bsp (k + fuel) m = cmd_parse_loop rl rpo bsp fuel mb.
Proof.
  induction k as [| j IH]; intros m mb fuel H.
  - cbn in H. subst mb. reflexivity.
  - cbn [cmd_parse_reaches] in H. cbn [Nat.add cmd_parse_loop].
    destruct (cmd_parse_iteration rl rpo bsp m) as [st m' | m1];
      [contradiction |].
    apply IH. exact H.
Qed.

(** At a command boundary with an unknown identifier the parser stops after
    two evaluations of the loop condition. *)
Lemma cmd_parse_loop_unknown (mb : mac) (fuel : nat) :
  nwk_payload_size mb > nwk_payload_index mb ->
  0 <= nwk_payload_index mb ->
  tx_fopts_length mb <= 200 ->
  is_known_cid (buf_get (nwk_payload mb) (nwk_payload_index mb)) = false ->
  cmd_parse_loop rl rpo bsp (S (S fuel)) mb
  = Some (OKLORAWAN, set_nwk_payload_size 0 mb).
Proof.
  intros Hsz Hidx Hlen Hcid.
  cbn [cmd_parse_loop]. unfold cmd_parse_iteration at 1.
  assert (E1 : (nwk_payload_size mb >? nwk_payload_index mb) = true) by lia.
  assert (E2 : (tx_fopts_length mb >? 200) = false) by lia.
  rewrite E1, E2, (cmd_dispatch_unknown _ _ Hcid).
  unfold cmd_parse_iteration. mac_simpl.
  assert (E3 : (0 >? nwk_payload_index mb) = false) by lia.
  rewrite E3. reflexivity.
Qed.

(** Every parser leaves a cursor that is an 8-bit value; the default branch
    leaves the cursor where it is. *)
Ltac cursor_u8 :=
  match goal with
  | |- 0 <= nwk_payload_index (set_nwk_payload_index (u8 ?e) _) =>
      exact (proj1 (u8_range e))
  | |- 0 <= nwk_payload_index (set_tx_fopts_length _ (set_nwk_payload_index (u8 ?e) _)) =>
      exact (proj1 (u8_range e))
  end.

Lemma cmd_dispatch_cursor (c : Z) (m : mac) :
  0 <= nwk_payload_index m ->
  0 <= nwk_payload_index (cmd_dispatch rl rpo bsp c m).
Proof.
  intros H. unfold cmd_dispatch.
  repeat match goal with
         | |- context [if c =? ?x then _ else _] => destruct (c =? x)
         end.
  - unfold link_check_parser. cursor_u8.
  - unfold link_adr_parser.
    destruct (link_adr_mask_loop rl (Z.to_nat (count_link_adr_req 256 m 0))
                0 m OKCHANNEL 7) as [[m1 sc] sa].
    cbv zeta. cursor_u8.
  - unfold duty_cycle_parser. cbv zeta. cursor_u8.
  - unfold rx_param_setup_parser. cbv zeta. cursor_u8.
  - unfold dev_status_parser.
    destruct (rp_hook_get_id rpo (rp m)) as [hs id]. cbv zeta. cursor_u8.
  - unfold new_channel_parser. cbv zeta. cursor_u8.
  - unfold rx_timing_setup_parser. cbv zeta. cursor_u8.
  - unfold tx_param_setup_parser. cbv zeta. cursor_u8.
  - unfold dl_channel_parser. cbv zeta. cursor_u8.
  - exact H.
Qed.

Lemma cmd_parse_reaches_cursor (k : nat) :
  forall m mb : mac,
    0 <= nwk_payload_index m ->
    cmd_parse_reaches rl rpo bsp k m mb -> 0 <= nwk_payload_index mb.
Proof.
  induction k as [| j IH]; intros m mb H0 H.
  - cbn in H. subst mb. exact H0.
  - cbn [cmd_parse_reaches] in H. unfold cmd_parse_iteration in H.
    destruct (nwk_payload_size m >? nwk_payload_index m); [| contradiction].
    destruct (tx_fopts_length m >? 200); [contradiction |].
    apply (IH _ _ (cmd_dispatch_cursor _ m H0) H).
Qed.
End CmdParse.




(** * The real-time clock *)

Lemma u64_small (x : Z) : 0 <= x < 2 ^ 64 -> u64 x = x.
Proof. intros H. unfold u64. apply Z.mod_small. exact H. Qed.

Lemma land_PREDIV_S (x : Z) : Z.land x PREDIV_S = x mod 1024.
Proof.
  change PREDIV_S with (Z.ones 10). rewrite Z.land_ones by lia. reflexivity.
Qed.

Lemma shiftr_N_PREDIV_S (x : Z) : Z.shiftr x N_PREDIV_S = x / 1024.
Proof.
  unfold N_PREDIV_S. rewrite Z.shiftr_div_pow2 by lia. reflexivity.
Qed.

(** The split of a tick count into seconds and sub-second ticks. *)
Lemma ticks_split (t : Z) :
  t / 1024 * 1000 + t mod 1024 * 1000 / 1024 = t * 1000 / 1024.
Proof.
  pose proof (Z.div_mod t 1024 ltac:(lia)) as E.
  replace (t * 1000) with (t / 1024 * 1000 * 1024 + t mod 1024 * 1000) by lia.
  rewrite Z.div_add_l by lia. reflexivity.
Qed.

Lemma tick_2_ms_eq (tick : Z) :
  0 <= tick < 2 ^ 32 ->
  bsp_rtc_tick_2_ms tick = tick * 1000 / 1024
  /\ 0 <= bsp_rtc_tick_2_ms tick < 2 ^ 32.
Proof.
  intros H. unfold bsp_rtc_tick_2_ms. cbv zeta.
  rewrite land_PREDIV_S, !shiftr_N_PREDIV_S.
  pose proof (Z.mod_pos_bound tick 1024 ltac:(lia)) as Hm.
  assert (Hd : 0 <= tick / 1024 < 2 ^ 22).
  { split; [apply Z.div_pos; lia | apply Z.div_lt_upper_bound; lia]. }
  assert (Hl : 0 <= tick mod 1024 * 1000 / 1024 < 1000).
  { split; [apply Z.div_pos; lia | apply Z.div_lt_upper_bound; lia]. }
  rewrite (u32_small (tick / 1024 * 1000)) by lia.
  rewrite (u32_small (tick mod 1024 * 1000)) by lia.
  rewrite u32_small by lia.
  rewrite ticks_split. split; [reflexivity |].
  rewrite <- ticks_split. lia.
Qed.

(** X1.  The conversion of ticks to milliseconds is the floor of
    [tick * 1000 / 1024] for every 32-bit tick count: the split into whole
    seconds and sub-second ticks keeps every intermediate value below
    2^32. *)
Theorem bsp_rtc_tick_2_ms_floor (tick : Z) :
  0 <= tick < 2 ^ 32 ->
  bsp_rtc_tick_2_ms tick = tick * 1000 / 1024
  /\ 0 <= bsp_rtc_tick_2_ms tick < 2 ^ 32.
Proof. exact (tick_2_ms_eq tick). Qed.

Lemma bsp_rtc_tick_2_ms_floor_witness :
  0 <= 1536 < 2 ^ 32 /\ bsp_rtc_tick_2_ms 1536 = 1500.
Proof.
  split; [lia |].
  destruct (bsp_rtc_tick_2_ms_floor 1536 ltac:(lia)) as [E _].
  rewrite E. reflexivity.
Defined.

Lemma bsp_rtc_ms_2_tick_floor (ms : Z) :
  0 <= ms < 4194304000 -> bsp_rtc_ms_2_tick ms = ms * 128 / 125.
Proof.
  intros H. unfold bsp_rtc_ms_2_tick.
  change CONV_DENOM with 128. change CONV_NUMER with 125.
  rewrite u64_small by lia.
  apply u32_small. split.
  - apply Z.div_pos; lia.
  - apply Z.div_lt_upper_bound; lia.
Qed.

(** X2.  A delay converted to ticks and back loses at most one millisecond, and
    nothing when it is a multiple of 125 ms, as long as the tick count fits
    in 32 bits (delays under 4 194 304 000 ms). *)
Theorem bsp_rtc_ms_tick_round_trip (ms : Z) :
  0 <= ms < 4194304000 ->
  ms - 1 <= bsp_rtc_tick_2_ms (bsp_rtc_ms_2_tick ms) <= ms
  /\ (ms mod 125 = 0 -> bsp_rtc_tick_2_ms (bsp_rtc_ms_2_tick ms) = ms).
Proof.
  intros H. rewrite bsp_rtc_ms_2_tick_floor by exact H.
  assert (Ht : 0 <= ms * 128 / 125 < 2 ^ 32).
  { split; [apply Z.div_pos; lia | apply Z.div_lt_upper_bound; lia]. }
  destruct (tick_2_ms_eq _ Ht) as [E _]. rewrite E.
  pose proof (Z.div_mod (ms * 128) 125 ltac:(lia)) as E1.
  pose proof (Z.mod_pos_bound (ms * 128) 125 ltac:(lia)) as B1.
  set (t := ms * 128 / 125) in *.
  split.
  - split.
    + apply Z.div_le_lower_bound; lia.
    + apply Z.div_le_upper_bound; lia.
  - intros Hm.
    assert (Et : t = ms / 125 * 128).
    { pose proof (Z.div_mod ms 125 ltac:(lia)) as E2.
      subst t. replace (ms * 128) with (ms / 125 * 128 * 125) by lia.
      apply Z.div_mul. lia. }
    rewrite Et.
    pose proof (Z.div_mod ms 125 ltac:(lia)) as E2.
    replace (ms / 125 * 128 * 1000) with (ms * 1024) by lia.
    apply Z.div_mul. lia.
Qed.

Lemma bsp_rtc_ms_tick_round_trip_witness :
  0 <= 1001 < 4194304000
  /\ bsp_rtc_ms_2_tick 1001 = 1025
  /\ 1001 - 1 <= bsp_rtc_tick_2_ms (bsp_rtc_ms_2_tick 1001) <= 1001.
Proof.
  split; [lia |]. split; [reflexivity |].
  destruct (bsp_rtc_ms_tick_round_trip 1001 ltac:(lia)) as [H _]. exact H.
Defined.

(** X3.  The wake-up timer counts 2048 ticks per second.  The tick count
    programmed for a delay never exceeds the exact count [2.048 * ms], and is
    short of it by less than one tick plus 0.1125 percent of the delay. *)
Theorem bsp_rtc_ms_2_wakeup_timer_tick_bounds (ms : Z) :
  0 <= ms < 715827882 ->
  let ticks := bsp_rtc_ms_2_wakeup_timer_tick ms in
  ticks = 2 * ms + 6 * ms / 128
  /\ 1000 * ticks <= 2048 * ms
  /\ 8 * (2048 * ms - 1000 * ticks) < 9 * ms + 8000.
Proof.
  intros H. cbv zeta. unfold bsp_rtc_ms_2_wakeup_timer_tick.
  rewrite Z.shiftr_div_pow2 by lia. change (2 ^ 7) with 128.
  rewrite (u32_small (ms * 2)) by lia.
  rewrite (u32_small (6 * ms)) by lia.
  pose proof (Z.div_mod (6 * ms) 128 ltac:(lia)) as E.
  pose proof (Z.mod_pos_bound (6 * ms) 128 ltac:(lia)) as B.
  assert (Hq : 0 <= 6 * ms / 128 < 2 ^ 26).
  { split; [apply Z.div_pos; lia | apply Z.div_lt_upper_bound; lia]. }
  rewrite u32_small by lia.
  split; [lia |]. lia.
Qed.

Lemma bsp_rtc_ms_2_wakeup_timer_tick_bounds_witness :
  0 <= 1000 < 715827882 /\ bsp_rtc_ms_2_wakeup_timer_tick 1000 = 2046.
Proof.
  split; [lia |].
  destruct (bsp_rtc_ms_2_wakeup_timer_tick_bounds 1000 ltac:(lia)) as [E _].
  rewrite E. reflexivity.
Defined.

(** ** The calendar *)

Lemma timestamp_range (date : RTC_DateTypeDef) (time : RTC_TimeTypeDef) :
  0 <= SubSeconds time <= 1023 ->
  exists seconds,
    0 <= seconds < 2 ^ 32
    /\ rtc_get_timestamp_in_ticks date time
       = seconds * 1024 + (1023 - SubSeconds time).
Proof.
  intros H. unfold rtc_get_timestamp_in_ticks. cbv zeta.
  match goal with
  | |- context [Z.shiftl (u32 ?e) N_PREDIV_S] => set (s := u32 e)
  end.
  exists s. pose proof (u32_range s) as Hs.
  assert (Es : 0 <= s < 2 ^ 32) by (subst s; apply u32_range).
  split; [exact Es |].
  change PREDIV_S with 1023. unfold N_PREDIV_S.
  rewrite Z.shiftl_mul_pow2 by lia. change (2 ^ 10) with 1024.
  rewrite (u32_small (1023 - SubSeconds time)) by lia.
  apply u64_small. lia.
Qed.

(** X4.  The millisecond clock is the floor of the tick count scaled by
    1000/1024, modulo 2^32: it wraps after 2^32 ms.  The second clock is the
    tick count divided by 1024, and the millisecond part is below 1000. *)
Theorem bsp_rtc_get_time_ms_floor (date : RTC_DateTypeDef)
  (time : RTC_TimeTypeDef) :
  0 <= SubSeconds time <= 1023 ->
  let ts := rtc_get_timestamp_in_ticks date time in
  bsp_rtc_get_time_ms date time = (ts * 1000 / 1024) mod 2 ^ 32
  /\ bsp_rtc_get_time_s date time = ts / 1024
  /\ 0 <= snd (bsp_rtc_get_calendar_time date time) < 1000.
Proof.
  intros H. cbv zeta.
  destruct (timestamp_range date time H) as (s & Hs & E).
  unfold bsp_rtc_get_time_ms, bsp_rtc_get_time_s, bsp_rtc_get_calendar_time.
  cbv zeta. cbn [fst snd]. rewrite E.
  set (l := 1023 - SubSeconds time) in *.
  assert (Hl : 0 <= l < 1024) by lia.
  rewrite shiftr_N_PREDIV_S, land_PREDIV_S.
  assert (Ed : (s * 1024 + l) / 1024 = s).
  { rewrite Z.div_add_l by lia. rewrite Z.div_small by lia. lia. }
  rewrite Ed. rewrite (u32_small s) by lia.
  assert (Em : u32 (s * 1024 + l) mod 1024 = l).
  { unfold u32.
    rewrite Z.mod_mod_divide by (exists 4194304; reflexivity).
    rewrite Z.add_comm, Z.mod_add by lia. apply Z.mod_small. lia. }
  rewrite Em.
  destruct (tick_2_ms_eq l ltac:(lia)) as [Et _]. rewrite Et.
  assert (Hq : 0 <= l * 1000 / 1024 < 1000).
  { split; [apply Z.div_pos; lia | apply Z.div_lt_upper_bound; lia]. }
  rewrite u16_small by lia.
  pose proof (ticks_split (s * 1024 + l)) as T.
  rewrite Ed in T.
  replace ((s * 1024 + l) mod 1024) with l in T.
  2:{ rewrite Z.add_comm, Z.mod_add by lia. symmetry. apply Z.mod_small. lia. }
  rewrite <- T. repeat split; lia.
Qed.

Lemma bsp_rtc_get_time_ms_floor_witness :
  let date := {| Year := 0; Month := 1; Date := 1 |} in
  let time := {| Hours := 0; Minutes := 0; Seconds := 2; SubSeconds := 511 |} in
  0 <= SubSeconds time <= 1023
  /\ rtc_get_timestamp_in_ticks date time = 2560
  /\ bsp_rtc_get_time_ms date time = 2500.
Proof.
  cbv zeta. split; [cbn; lia |]. split; [reflexivity |].
  match goal with
  | |- bsp_rtc_get_time_ms ?d ?t = _ =>
      destruct (bsp_rtc_get_time_ms_floor d t ltac:(cbn; lia)) as [E _];
      rewrite E
  end.
  reflexivity.
Defined.

(** The day count of every month of the years 2000 to 2099: the arithmetic
    of the code (a ceiling of 365.25 days per year, 30.5 days per month, and
    the two correction words) against the calendar, with the bounds that
    keep the count of seconds in 32 bits. *)
Lemma days_table :
  forallb
    (fun y =>
       forallb
         (fun mo =>
            (DIVC (u32 ((DAYS_IN_YEAR * 3 + DAYS_IN_LEAP_YEAR) * Z.of_nat y)) 4
             + (DIVC ((Z.of_nat mo - 1) * (30 + 31)) 2
                - Z.land
                    (Z.shiftr
                       (if Z.of_nat y mod 4 =? 0
                        then DAYS_IN_MONTH_CORRECTION_LEAP
                        else DAYS_IN_MONTH_CORRECTION_NORM)
                       ((Z.of_nat mo - 1) * 2)) 0x03)
             =? Calendar.days_before_year y
                + Calendar.days_before_month
                    (Calendar.leap_year (Z.of_nat y)) mo)
            && (0 <=? Calendar.days_before_year y
                      + Calendar.days_before_month
                          (Calendar.leap_year (Z.of_nat y)) mo)
            && (Calendar.days_before_year y
                + Calendar.days_before_month
                    (Calendar.leap_year (Z.of_nat y)) mo <=? 36494))
         (seq 1 12))
    (seq 0 100) = true.
Proof. vm_compute. reflexivity. Qed.

Lemma days_of_month (y mo : Z) :
  0 <= y <= 99 -> 1 <= mo <= 12 ->
  DIVC (u32 ((DAYS_IN_YEAR * 3 + DAYS_IN_LEAP_YEAR) * y)) 4
  + (DIVC ((mo - 1) * (30 + 31)) 2
     - Z.land
         (Z.shiftr
            (if y mod 4 =? 0 then DAYS_IN_MONTH_CORRECTION_LEAP
             else DAYS_IN_MONTH_CORRECTION_NORM)
            ((mo - 1) * 2)) 0x03)
  = Calendar.days_before_year (Z.to_nat y)
    + Calendar.days_before_month (Calendar.leap_year y) (Z.to_nat mo)
  /\ 0 <= Calendar.days_before_year (Z.to_nat y)
          + Calendar.days_before_month (Calendar.leap_year y) (Z.to_nat mo)
       <= 36494.
Proof.
  intros Hy Hmo.
  pose proof days_table as T.
  rewrite forallb_forall in T.
  specialize (T (Z.to_nat y)).
  assert (Iy : In (Z.to_nat y) (seq 0 100)) by (apply in_seq; lia).
  specialize (T Iy). rewrite forallb_forall in T.
  specialize (T (Z.to_nat mo)).
  assert (Im : In (Z.to_nat mo) (seq 1 12)) by (apply in_seq; lia).
  specialize (T Im).
  rewrite !Z2Nat.id in T by lia.
  apply andb_prop in T. destruct T as [T T3].
  apply andb_prop in T. destruct T as [T1 T2].
  apply Z.eqb_eq in T1. apply Z.leb_le in T2. apply Z.leb_le in T3.
  split; [exact T1 | lia].
Qed.

(** X5.  For every reading of the calendar registers between 2000 and 2099, the
    timestamp is the number of seconds elapsed since 1 January 2000 0:00:00
    on the Gregorian calendar, in ticks of 1/1024 s, plus the sub-second
    ticks [1023 - SubSeconds]; no 32-bit intermediate value overflows. *)
Theorem rtc_get_timestamp_in_ticks_calendar (date : RTC_DateTypeDef)
  (time : RTC_TimeTypeDef) :
  Calendar.valid_reading date time ->
  rtc_get_timestamp_in_ticks date time
  = Calendar.elapsed_seconds date time * 1024 + (1023 - SubSeconds time)
  /\ 0 <= Calendar.elapsed_seconds date time < 2 ^ 32.
Proof.
  intros (Hy & Hmo & Hd & Hh & Hmi & Hs & Hss).
  destruct (days_of_month (Year date) (Month date) Hy Hmo) as [E B].
  unfold rtc_get_timestamp_in_ticks, Calendar.elapsed_seconds,
    Calendar.elapsed_days.
  cbv zeta. rewrite E.
  set (D := Calendar.days_before_year (Z.to_nat (Year date))
            + Calendar.days_before_month (Calendar.leap_year (Year date))
                (Z.to_nat (Month date))) in *.
  unfold SECONDS_IN_1DAY, SECONDS_IN_1MINUTE, SECONDS_IN_1HOUR, N_PREDIV_S.
  change PREDIV_S with 1023.
  rewrite (u32_small D) by lia.
  rewrite (u32_small (D + (Date date - 1))) by lia.
  rewrite (u32_small ((D + (Date date - 1)) * 86400)) by lia.
  rewrite u32_small by lia.
  rewrite (u32_small (1023 - SubSeconds time)) by lia.
  rewrite Z.shiftl_mul_pow2 by lia. change (2 ^ 10) with 1024.
  rewrite u64_small by lia.
  split; lia.
Qed.

(** 29 February 2024, 12:00:00: 8825 days after 1 January 2000. *)
Lemma rtc_get_timestamp_in_ticks_calendar_witness :
  let date := {| Year := 24; Month := 2; Date := 29 |} in
  let time := {| Hours := 12; Minutes := 0; Seconds := 0; SubSeconds := 1023 |} in
  Calendar.valid_reading date time
  /\ rtc_get_timestamp_in_ticks date time = (8825 * 86400 + 43200) * 1024.
Proof.
  cbv zeta.
  assert (V : Calendar.valid_reading
                {| Year := 24; Month := 2; Date := 29 |}
                {| Hours := 12; Minutes := 0; Seconds := 0;
                   SubSeconds := 1023 |})
    by (unfold Calendar.valid_reading; cbn; lia).
  split; [exact V |].
  destruct (rtc_get_timestamp_in_ticks_calendar _ _ V) as [E _].
  rewrite E. reflexivity.
Defined.


(** * Byte buffers *)

Lemma upd_nth_length (n : nat) (v : Z) (l : list Z) :
  length (upd_nth n v l) = length l.
Proof.
  revert n. induction l as [| h t IH]; intros [| k]; cbn; try reflexivity.
  rewrite IH. reflexivity.
Qed.

Lemma nth_upd_nth_same (n : nat) (v d : Z) (l : list Z) :
  (n < length l)%nat -> nth n (upd_nth n v l) d = v.
Proof.
  revert n. induction l as [| h t IH]; intros [| k] H; cbn in *; try lia.
  apply IH. lia.
Qed.

Lemma nth_upd_nth_other (n k : nat) (v d : Z) (l : list Z) :
  n <> k -> nth k (upd_nth n v l) d = nth k l d.
Proof.
  revert n k. induction l as [| h t IH]; intros [| n] [| k] H; cbn;
    try reflexivity; try lia.
  apply IH. lia.
Qed.

Lemma buf_set_length (l : list Z) (i v : Z) :
  length (buf_set l i v) = length l.
Proof.
  unfold buf_set. destruct (i <? 0); [reflexivity | apply upd_nth_length].
Qed.

Lemma buf_get_set_same (l : list Z) (i v : Z) :
  0 <= i < Z.of_nat (length l) -> buf_get (buf_set l i v) i = v.
Proof.
  intros H. unfold buf_get, buf_set.
  assert (E : (i <? 0) = false) by lia. rewrite E.
  apply nth_upd_nth_same. lia.
Qed.

Lemma buf_get_set_other (l : list Z) (i j v : Z) :
  i <> j -> buf_get (buf_set l i v) j = buf_get l j.
Proof.
  intros H. unfold buf_get, buf_set.
  destruct (j <? 0) eqn:Ej; [reflexivity |].
  destruct (i <? 0) eqn:Ei; [reflexivity |].
  apply nth_upd_nth_other. lia.
Qed.

(** A write outside the buffer changes nothing. *)
Lemma buf_set_outside (l : list Z) (i v : Z) :
  Z.of_nat (length l) <= i -> buf_set l i v = l.
Proof.
  intros H. unfold buf_set.
  destruct (i <? 0) eqn:Ei; [reflexivity |].
  assert (Hn : (length l <= Z.to_nat i)%nat) by lia.
  revert Hn. generalize (Z.to_nat i). clear.
  induction l as [| h t IH]; intros [| k] H; cbn in *; try reflexivity; try lia.
  rewrite IH by lia. reflexivity.
Qed.

Lemma memcpy_from_length (n : nat) :
  forall (dst : list Z) (off : Z) (src : list Z) (k : Z),
    length (memcpy_from dst off src k n) = length dst.
Proof.
  induction n as [| m IH]; intros dst off src k; cbn.
  - reflexivity.
  - rewrite IH. apply buf_set_length.
Qed.

Lemma memcpy_length (dst : list Z) (off : Z) (src : list Z) (n : Z) :
  length (memcpy dst off src n) = length dst.
Proof. apply memcpy_from_length. Qed.

(** The cells below the first written cell are not touched. *)
Lemma buf_get_memcpy_from_below (n : nat) :
  forall (dst : list Z) (off : Z) (src : list Z) (k j : Z),
    j < off + k ->
    buf_get (memcpy_from dst off src k n) j = buf_get dst j.
Proof.
  induction n as [| m IH]; intros dst off src k j H; cbn.
  - reflexivity.
  - rewrite IH by lia. apply buf_get_set_other. lia.
Qed.

(** The cells from the end of the copy are not touched. *)
Lemma buf_get_memcpy_from_above (n : nat) :
  forall (dst : list Z) (off : Z) (src : list Z) (k j : Z),
    off + k + Z.of_nat n <= j ->
    buf_get (memcpy_from dst off src k n) j = buf_get dst j.
Proof.
  induction n as [| m IH]; intros dst off src k j H; cbn [memcpy_from].
  - reflexivity.
  - rewrite IH by lia. apply buf_get_set_other. lia.
Qed.

(** The cells of the copy hold the cells of the source. *)
Lemma buf_get_memcpy_from_in (n : nat) :
  forall (dst : list Z) (off : Z) (src : list Z) (k j : Z),
    0 <= off -> 0 <= k ->
    off + k <= j < off + k + Z.of_nat n -> j < Z.of_nat (length dst) ->
    buf_get (memcpy_from dst off src k n) j = buf_get src (j - off).
Proof.
  induction n as [| m IH]; intros dst off src k j Ho Hk H Hl;
    cbn [memcpy_from].
  - lia.
  - destruct (Z.eq_dec j (off + k)) as [-> | Hne].
    + rewrite buf_get_memcpy_from_below by lia.
      rewrite buf_get_set_same by lia. f_equal. lia.
    + apply IH; try lia. rewrite buf_set_length. exact Hl.
Qed.

Lemma buf_get_memcpy_below (dst : list Z) (off : Z) (src : list Z) (n j : Z) :
  j < off -> buf_get (memcpy dst off src n) j = buf_get dst j.
Proof. intros H. apply buf_get_memcpy_from_below. lia. Qed.

Lemma buf_get_memcpy_above (dst : list Z) (off : Z) (src : list Z) (n j : Z) :
  0 <= n -> off + n <= j -> buf_get (memcpy dst off src n) j = buf_get dst j.
Proof. intros Hn H. apply buf_get_memcpy_from_above. lia. Qed.

Lemma buf_get_memcpy_in (dst : list Z) (off : Z) (src : list Z) (n j : Z) :
  0 <= off -> off <= j < off + n -> j < Z.of_nat (length dst) ->
  buf_get (memcpy dst off src n) j = buf_get src (j - off).
Proof. intros Ho H Hl. apply buf_get_memcpy_from_in; lia. Qed.

(** * Statistics of the radio planner *)

Lemma sum_upd_nth (n : nat) (v : Z) (l : list Z) :
  (n < length l)%nat ->
  fold_right Z.add 0 (upd_nth n v l) = fold_right Z.add 0 l - nth n l 0 + v.
Proof.
  revert n. induction l as [| h t IH]; intros [| k] H; cbn in *; try lia.
  rewrite IH by lia. lia.
Qed.

(** Charging [c] to one hook and to the total keeps the total equal to the
    sum of the hooks, modulo 2^32. *)
Lemma sum32_charge (l : list Z) (hook_id total c : Z) :
  0 <= hook_id < Z.of_nat (length l) ->
  total = sum32 l ->
  u32 (total + c) = sum32 (buf_set l hook_id (u32 (buf_get l hook_id + c))).
Proof.
  intros H ->. unfold sum32, buf_set, buf_get.
  assert (E : (hook_id <? 0) = false) by lia. rewrite E.
  rewrite sum_upd_nth by lia.
  unfold u32.
  set (s := fold_right Z.add 0 l). set (x := nth (Z.to_nat hook_id) l 0).
  rewrite Zplus_mod_idemp_l.
  replace (s - x + (x + c) mod 2 ^ 32) with ((s - x) + (x + c) mod 2 ^ 32) by lia.
  rewrite Zplus_mod_idemp_r. f_equal. lia.
Qed.

Lemma rp_stats_init_loop_fields (n : nat) :
  forall (i : Z) (s : rp_stats_t),
    let s' := rp_stats_init_loop n i s in
    length (tx_consumption_ms s') = length (tx_consumption_ms s)
    /\ length (rx_consumption_ms s') = length (rx_consumption_ms s)
    /\ length (tx_consumption_ma s') = length (tx_consumption_ma s)
    /\ length (rx_consumption_ma s') = length (rx_consumption_ma s)
    /\ length (tx_last_toa_ms s') = length (tx_last_toa_ms s)
    /\ length (task_hook_aborted_nb s') = length (task_hook_aborted_nb s)
    /\ (forall j, i <= j < i + Z.of_nat n ->
        0 <= i ->
        (j < Z.of_nat (length (tx_consumption_ms s)) ->
         buf_get (tx_consumption_ms s') j = 0)
        /\ (j < Z.of_nat (length (rx_consumption_ms s)) ->
            buf_get (rx_consumption_ms s') j = 0)
        /\ (j < Z.of_nat (length (tx_consumption_ma s)) ->
            buf_get (tx_consumption_ma s') j = 0)
        /\ (j < Z.of_nat (length (rx_consumption_ma s)) ->
            buf_get (rx_consumption_ma s') j = 0))
    /\ (forall j, j < i ->
        buf_get (tx_consumption_ms s') j = buf_get (tx_consumption_ms s) j
        /\ buf_get (rx_consumption_ms s') j = buf_get (rx_consumption_ms s) j
        /\ buf_get (tx_consumption_ma s') j = buf_get (tx_consumption_ma s) j
        /\ buf_get (rx_consumption_ma s') j = buf_get (rx_consumption_ma s) j).
Proof.
  induction n as [| k IH]; intros i s; cbn [rp_stats_init_loop].
  - cbv zeta. repeat split; try reflexivity; lia.
  - cbv zeta.
    match goal with
    | |- context [rp_stats_init_loop k (i + 1) ?s1] =>
        specialize (IH (i + 1) s1); cbv zeta in IH;
        cbn [tx_consumption_ms rx_consumption_ms tx_consumption_ma
             rx_consumption_ma tx_last_toa_ms task_hook_aborted_nb] in IH
    end.
    rewrite !buf_set_length in IH.
    destruct IH as (L1 & L2 & L3 & L4 & L5 & L6 & Hin & Hbelow).
    repeat (split; [assumption |]).
    split.
    + intros j Hj Hi.
      destruct (Z.eq_dec j i) as [-> | Hne].
      * destruct (Hbelow i ltac:(lia)) as (B1 & B2 & B3 & B4).
        rewrite B1, B2, B3, B4.
        repeat split; intros Hl; apply buf_get_set_same; lia.
      * apply Hin; lia.
    + intros j Hj.
      destruct (Hbelow j ltac:(lia)) as (B1 & B2 & B3 & B4).
      rewrite B1, B2, B3, B4.
      repeat split; apply buf_get_set_other; lia.
Qed.

(** A buffer whose cells are all zero sums to zero. *)
Lemma sum32_zero (l : list Z) :
  (forall j, 0 <= j < Z.of_nat (length l) -> buf_get l j = 0) ->
  sum32 l = 0.
Proof.
  intros H. unfold sum32.
  assert (E : fold_right Z.add 0 l = 0).
  { induction l as [| h t IH]; [reflexivity |].
    cbn [fold_right].
    assert (Hh : h = 0) by (apply (H 0); cbn [length]; lia).
    rewrite IH; [lia |].
    intros j Hj. specialize (H (j + 1)).
    unfold buf_get in *.
    assert (E1 : (j + 1 <? 0) = false) by lia.
    assert (E2 : (j <? 0) = false) by lia.
    rewrite E1 in H. rewrite E2.
    replace (Z.to_nat (j + 1)) with (S (Z.to_nat j)) in H by lia.
    cbn [nth length] in H. apply H. lia. }
  rewrite E. reflexivity.
Qed.

Lemma rp_stats_update_tx_totals (n : nat) (s : rp_stats_t)
  (timestamp hook_id micro_ampere : Z) :
  rp_stats_hooks n s -> rp_stats_totals s -> 0 <= hook_id < Z.of_nat n ->
  rp_stats_totals (rp_stats_update_tx s timestamp hook_id micro_ampere)
  /\ rp_stats_hooks n (rp_stats_update_tx s timestamp hook_id micro_ampere).
Proof.
  intros (L1 & L2 & L3 & L4 & L5 & L6) (T1 & T2 & T3 & T4) H.
  unfold rp_stats_update_tx.
  destruct (negb (tx_timestamp s =? 0)).
  - cbv zeta. unfold rp_stats_totals, rp_stats_hooks.
    cbn [tx_last_toa_ms tx_consumption_ms rx_consumption_ms tx_consumption_ma
         rx_consumption_ma tx_total_consumption_ms rx_total_consumption_ms
         tx_total_consumption_ma rx_total_consumption_ma
         task_hook_aborted_nb].
    rewrite !buf_set_length.
    repeat split; try assumption; apply sum32_charge; (lia || assumption).
  - split; [repeat split; assumption | repeat split; assumption].
Qed.

Lemma rp_stats_update_rx_totals (n : nat) (s : rp_stats_t)
  (timestamp hook_id micro_ampere : Z) :
  rp_stats_hooks n s -> rp_stats_totals s -> 0 <= hook_id < Z.of_nat n ->
  rp_stats_totals (rp_stats_update_rx s timestamp hook_id micro_ampere)
  /\ rp_stats_hooks n (rp_stats_update_rx s timestamp hook_id micro_ampere).
Proof.
  intros (L1 & L2 & L3 & L4 & L5 & L6) (T1 & T2 & T3 & T4) H.
  unfold rp_stats_update_rx.
  destruct (negb (rx_timestamp s =? 0)).
  - cbv zeta. unfold rp_stats_totals, rp_stats_hooks.
    cbn [tx_last_toa_ms tx_consumption_ms rx_consumption_ms tx_consumption_ma
         rx_consumption_ma tx_total_consumption_ms rx_total_consumption_ms
         tx_total_consumption_ma rx_total_consumption_ma
         task_hook_aborted_nb].
    rewrite !buf_set_length.
    repeat split; try assumption; apply sum32_charge; (lia || assumption).
  - split; [repeat split; assumption | repeat split; assumption].
Qed.

(** X6.  The statistics keep every total equal to the sum of the counters of the
    hooks, modulo 2^32: [rp_stats_init] establishes the equalities on arrays
    of [RP_NB_HOOKS] cells, and [rp_stats_update] for a hook of the array
    preserves them. *)
Theorem rp_stats_totals_invariant (RP_NB_HOOKS : nat) (s : rp_stats_t) :
  rp_stats_hooks RP_NB_HOOKS s ->
  (rp_stats_totals (rp_stats_init RP_NB_HOOKS s)
   /\ rp_stats_hooks RP_NB_HOOKS (rp_stats_init RP_NB_HOOKS s))
  /\ (forall timestamp hook_id micro_ampere : Z,
        rp_stats_totals s -> 0 <= hook_id < Z.of_nat RP_NB_HOOKS ->
        rp_stats_totals (rp_stats_update s timestamp hook_id micro_ampere)
        /\ rp_stats_hooks RP_NB_HOOKS
             (rp_stats_update s timestamp hook_id micro_ampere)).
Proof.
  intros Hh. split.
  - destruct Hh as (L1 & L2 & L3 & L4 & L5 & L6).
    pose proof (rp_stats_init_loop_fields RP_NB_HOOKS 0 s) as F.
    cbv zeta in F.
    destruct F as (F1 & F2 & F3 & F4 & F5 & F6 & Hin & _).
    unfold rp_stats_init. cbv zeta.
    unfold rp_stats_totals, rp_stats_hooks.
    cbn [tx_last_toa_ms tx_consumption_ms rx_consumption_ms tx_consumption_ma
         rx_consumption_ma tx_total_consumption_ms rx_total_consumption_ms
         tx_total_consumption_ma rx_total_consumption_ma
         task_hook_aborted_nb].
    split.
    + repeat split; symmetry; apply sum32_zero; intros j Hj;
        destruct (Hin j ltac:(lia) ltac:(lia)) as (Z1 & Z2 & Z3 & Z4);
        [apply Z1 | apply Z2 | apply Z3 | apply Z4]; lia.
    + repeat split; congruence.
  - intros timestamp hook_id micro_ampere Ht Hk.
    unfold rp_stats_update. cbv zeta.
    destruct (rp_stats_update_tx_totals RP_NB_HOOKS s timestamp hook_id
                micro_ampere Hh Ht Hk) as [T1 H1].
    destruct (rp_stats_update_rx_totals RP_NB_HOOKS _ timestamp hook_id
                micro_ampere H1 T1 Hk) as [T2 H2].
    split; [exact T2 | exact H2].
Qed.

(** Two hooks with counters left by earlier activity. *)
Lemma rp_stats_totals_invariant_witness :
  let s := {| tx_last_toa_ms := [7; 9]; tx_consumption_ms := [7; 9];
              rx_consumption_ms := [1; 2]; tx_consumption_ma := [3; 4];
              rx_consumption_ma := [5; 6];
              tx_total_consumption_ms := 16; rx_total_consumption_ms := 3;
              tx_total_consumption_ma := 7; rx_total_consumption_ma := 11;
              tx_timestamp := 100; rx_timestamp := 0;
              task_hook_aborted_nb := [0; 0]; rp_error := 0 |} in
  rp_stats_hooks 2 s
  /\ rp_stats_totals s
  /\ tx_total_consumption_ms (rp_stats_update s 150 1 20000) = 66
  /\ rp_stats_totals (rp_stats_update s 150 1 20000).
Proof.
  cbv zeta.
  match goal with
  | |- rp_stats_hooks 2 ?s /\ _ =>
      assert (Hh : rp_stats_hooks 2 s) by (repeat split; reflexivity);
      assert (Ht : rp_stats_totals s) by (repeat split; reflexivity);
      destruct (rp_stats_totals_invariant 2 s Hh) as [_ U];
      destruct (U 150 1 20000 Ht ltac:(lia)) as [T _]
  end.
  split; [exact Hh |]. split; [exact Ht |]. split; [reflexivity | exact T].
Defined.

(** X7.  An activity is charged once: [rp_stats_update] clears both start
    timestamps, so that a second update changes nothing.  The value 0 of a
    start timestamp means that no activity is in progress: a transmission
    that started when the clock read 0 is not charged. *)
Theorem rp_stats_update_once (s : rp_stats_t)
  (timestamp hook_id micro_ampere timestamp' hook_id' micro_ampere' : Z) :
  let s1 := rp_stats_update s timestamp hook_id micro_ampere in
  tx_timestamp s1 = 0 /\ rx_timestamp s1 = 0
  /\ rp_stats_update s1 timestamp' hook_id' micro_ampere' = s1
  /\ (let s0 := rp_stats_update (rp_stats_set_tx_timestamp s 0)
                  timestamp hook_id micro_ampere in
      tx_consumption_ms s0 = tx_consumption_ms s
      /\ tx_consumption_ma s0 = tx_consumption_ma s
      /\ tx_total_consumption_ms s0 = tx_total_consumption_ms s
      /\ tx_total_consumption_ma s0 = tx_total_consumption_ma s
      /\ tx_last_toa_ms s0 = tx_last_toa_ms s).
Proof.
  cbv zeta. split; [reflexivity |]. split; [reflexivity |]. split.
  - reflexivity.
  - unfold rp_stats_update, rp_stats_update_tx, rp_stats_set_tx_timestamp.
    cbn [tx_timestamp Z.eqb negb].
    unfold rp_stats_update_rx. cbn [rx_timestamp].
    destruct (negb (rx_timestamp s =? 0)); repeat split; reflexivity.
Qed.


(** * The duty-cycle timer: range of the remaining wait *)

(** X8.  The wait returned by the duty-cycle timer is never negative and never
    exceeds the off-time that was set, whatever the clock reads (wrapped or
    not); it is 0 when no off-time is set.  The off-time is taken below
    2^31: the function returns an [int32_t]. *)
Theorem next_free_duty_cycle_range {R P : Type} (now : Z)
  (m : lr1_stack_mac_t R P) :
  0 <= tx_duty_cycle_time_off_ms m < 2 ^ 31 ->
  0 <= lr1_stack_network_next_free_duty_cycle_ms_get now m
    <= tx_duty_cycle_time_off_ms m
  /\ (tx_duty_cycle_time_off_ms m = 0 ->
      lr1_stack_network_next_free_duty_cycle_ms_get now m = 0).
Proof.
  intros H. unfold lr1_stack_network_next_free_duty_cycle_ms_get.
  set (off := tx_duty_cycle_time_off_ms m) in *.
  destruct (off >? 0) eqn:E0.
  - cbv zeta.
    match goal with
    | |- context [if ?d >? off then _ else _] => set (delta := d)
    end.
    assert (Hd : 0 <= delta).
    { subst delta.
      destruct (now >=? tx_duty_cycle_timestamp_ms m); apply u32_range. }
    destruct (delta >? off) eqn:E1.
    + split; [lia | intros; reflexivity].
    + unfold i32. rewrite u32_small by lia.
      assert (Hlt : (off - delta <? 2 ^ 31) = true) by lia.
      rewrite Hlt. split; lia.
  - split; [lia | intros; reflexivity].
Qed.

Lemma next_free_duty_cycle_range_witness :
  0 <= tx_duty_cycle_time_off_ms Scenario.mac_duty_wrap < 2 ^ 31
  /\ 0 <= lr1_stack_network_next_free_duty_cycle_ms_get 4 Scenario.mac_duty_wrap
       <= 10.
Proof.
  assert (H : 0 <= tx_duty_cycle_time_off_ms Scenario.mac_duty_wrap < 2 ^ 31)
    by (vm_compute; intuition congruence).
  split; [exact H |].
  destruct (next_free_duty_cycle_range 4 Scenario.mac_duty_wrap H) as [B _].
  exact B.
Defined.

(** * Cutting the answers to MAC commands *)

Section AnsCut.
Context {R P : Type} (rl : smtc_real_ops R P).

Lemma MIN_le_r (a b : Z) : MIN a b <= b.
Proof. unfold MIN. destruct (a <? b) eqn:E; lia. Qed.

Lemma MIN_le_l (a b : Z) : MIN a b <= a.
Proof. unfold MIN. destruct (a <? b) eqn:E; lia. Qed.

Lemma cmd_ans_cut_loop_spec (nwk_ans : list Z) (size_in max_size : Z)
  (fuel : nat) :
  (forall q, ans_boundary (lr1mac_cmd_mac_ans_size rl) nwk_ans q ->
             0 <= q < MIN size_in max_size ->
             1 <= lr1mac_cmd_mac_ans_size rl (buf_get nwk_ans q)) ->
  forall p,
    ans_boundary (lr1mac_cmd_mac_ans_size rl) nwk_ans p ->
    0 <= p <= max_size ->
    (Z.to_nat (MIN size_in max_size - p) < fuel)%nat ->
    let r := cmd_ans_cut_loop rl fuel nwk_ans size_in max_size p p in
    p <= r <= max_size
    /\ ans_boundary (lr1mac_cmd_mac_ans_size rl) nwk_ans r
    /\ (r < MIN size_in max_size ->
        max_size < r + lr1mac_cmd_mac_ans_size rl (buf_get nwk_ans r))
    /\ forall fuel', (fuel <= fuel')%nat ->
         cmd_ans_cut_loop rl fuel' nwk_ans size_in max_size p p = r.
Proof.
  intros Hpos. induction fuel as [| k IH]; intros p Hb Hp Hf; [lia |].
  cbv zeta. cbn [cmd_ans_cut_loop].
  destruct (p <? MIN size_in max_size) eqn:E1.
  - pose proof (Hpos p Hb ltac:(lia)) as Hs.
    destruct (p + lr1mac_cmd_mac_ans_size rl (buf_get nwk_ans p) <=? max_size)
      eqn:E2.
    + specialize (IH (p + lr1mac_cmd_mac_ans_size rl (buf_get nwk_ans p))
                    (ans_boundary_next _ _ p Hb) ltac:(lia) ltac:(lia)).
      cbv zeta in IH. destruct IH as (I1 & I2 & I3 & I4).
      split; [lia |]. split; [exact I2 |]. split; [exact I3 |].
      intros [| f'] Hf'; [lia |]. cbn [cmd_ans_cut_loop].
      rewrite E1, E2. apply I4. lia.
    + split; [lia |]. split; [exact Hb |]. split; [intros _; lia |].
      intros [| f'] Hf'; [lia |]. cbn [cmd_ans_cut_loop].
      rewrite E1, E2. reflexivity.
  - split; [lia |]. split; [exact Hb |]. split; [intros; lia |].
    intros [| f'] Hf'; [lia |]. cbn [cmd_ans_cut_loop].
    rewrite E1. reflexivity.
Qed.
End AnsCut.

(** X9.  [lr1_stack_mac_cmd_ans_cut] keeps the longest run of whole answers that
    fits: when every answer met in the buffer has a positive size, the size
    it returns is at most [max_allowed_size], it is the end of an answer,
    and either it reaches the smaller of the input size and the allowed
    size, or the next answer would cross the allowed size.  The loop ends by
    itself: more fuel gives the same result. *)
Theorem cmd_ans_cut_fits {R P : Type} (rl : smtc_real_ops R P)
  (nwk_ans : list Z) (nwk_ans_size_in max_allowed_size : Z) :
  0 <= nwk_ans_size_in <= 255 -> 0 <= max_allowed_size <= 255 ->
  (forall q, ans_boundary (lr1mac_cmd_mac_ans_size rl) nwk_ans q ->
             0 <= q < MIN nwk_ans_size_in max_allowed_size ->
             1 <= lr1mac_cmd_mac_ans_size rl (buf_get nwk_ans q)) ->
  let r := lr1_stack_mac_cmd_ans_cut rl nwk_ans nwk_ans_size_in
             max_allowed_size in
  0 <= r <= max_allowed_size
  /\ ans_boundary (lr1mac_cmd_mac_ans_size rl) nwk_ans r
  /\ (r < MIN nwk_ans_size_in max_allowed_size ->
      max_allowed_size < r + lr1mac_cmd_mac_ans_size rl (buf_get nwk_ans r))
  /\ forall fuel, (256 <= fuel)%nat ->
       u8 (cmd_ans_cut_loop rl fuel nwk_ans nwk_ans_size_in max_allowed_size
             0 0) = r.
Proof.
  intros Hin Hmax Hpos. cbv zeta. unfold lr1_stack_mac_cmd_ans_cut.
  pose proof (MIN_le_r nwk_ans_size_in max_allowed_size) as Hm.
  destruct (cmd_ans_cut_loop_spec rl nwk_ans nwk_ans_size_in max_allowed_size
              256 Hpos 0 (ans_boundary_0 _ _) ltac:(lia) ltac:(lia))
    as (I1 & I2 & I3 & I4).
  rewrite u8_small by lia.
  split; [lia |]. split; [exact I2 |]. split; [exact I3 |].
  intros fuel Hf. rewrite (I4 fuel Hf). apply u8_small. lia.
Qed.

Lemma ref_cmd_mac_ans_size_nonneg (c : Z) : 0 <= Ref.cmd_mac_ans_size c.
Proof.
  unfold Ref.cmd_mac_ans_size.
  repeat match goal with
         | |- context [if ?b then _ else _] => destruct b
         end; vm_compute; discriminate.
Qed.

(** The answers DevStatusAns, LinkADRAns, DutyCycleAns, NewChannelAns (8
    bytes) cut to 7 bytes: the NewChannelAns would end at 8, and 6 bytes are
    kept. *)
Lemma cmd_ans_cut_fits_witness :
  let nwk_ans := [6; 254; 0; 3; 7; 4; 7; 3] ++ Ref.zeros 247 in
  0 <= 8 <= 255 /\ 0 <= 7 <= 255
  /\ (forall q,
        ans_boundary (lr1mac_cmd_mac_ans_size Ref.region) nwk_ans q ->
        0 <= q < MIN 8 7 ->
        1 <= lr1mac_cmd_mac_ans_size Ref.region (buf_get nwk_ans q))
  /\ lr1_stack_mac_cmd_ans_cut Ref.region nwk_ans 8 7 = 6.
Proof.
  cbv zeta.
  set (nwk_ans := [6; 254; 0; 3; 7; 4; 7; 3] ++ Ref.zeros 247).
  assert (Hb : forall q,
             ans_boundary (lr1mac_cmd_mac_ans_size Ref.region) nwk_ans q ->
             q = 0 \/ q = 3 \/ q = 5 \/ q = 6 \/ 8 <= q).
  { intros q Hq. induction Hq as [| p Hp IH]; [left; reflexivity |].
    destruct IH as [-> | [-> | [-> | [-> | IH]]]].
    - right; left; reflexivity.
    - right; right; left; reflexivity.
    - right; right; right; left; reflexivity.
    - right; right; right; right. vm_compute. discriminate.
    - right; right; right; right.
      pose proof (ref_cmd_mac_ans_size_nonneg (buf_get nwk_ans p)) as Hn.
      change (lr1mac_cmd_mac_ans_size Ref.region) with Ref.cmd_mac_ans_size.
      lia. }
  assert (Hpos : forall q,
             ans_boundary (lr1mac_cmd_mac_ans_size Ref.region) nwk_ans q ->
             0 <= q < MIN 8 7 ->
             1 <= lr1mac_cmd_mac_ans_size Ref.region (buf_get nwk_ans q)).
  { intros q Hq Hr. change (MIN 8 7) with 7 in Hr.
    destruct (Hb q Hq) as [-> | [-> | [-> | [-> | Hge]]]];
      try (vm_compute; discriminate); lia. }
  split; [lia |]. split; [lia |]. split; [exact Hpos |].
  destruct (cmd_ans_cut_fits Ref.region nwk_ans 8 7 ltac:(lia) ltac:(lia) Hpos)
    as (_ & _ & _ & F).
  rewrite <- (F 256%nat (le_n _)). vm_compute. reflexivity.
Defined.


(** * Decoding a downlink *)

(** The window either accepts with a new counter or rejects and leaves the
    counter. *)
Lemma fcnt_dwn_accept_cases (r s : Z) :
  (exists c, fcnt_dwn_accept r s = (OKLORAWAN, c))
  \/ fcnt_dwn_accept r s = (ERRORLORAWAN, s).
Proof.
  unfold fcnt_dwn_accept. cbv zeta.
  repeat match goal with
         | |- context [if ?b then _ else _] => destruct b
         end; try (left; eexists; reflexivity); right; reflexivity.
Qed.

Lemma status_sum_ok (a b c : Z) :
  (a = OKLORAWAN \/ a = ERRORLORAWAN) ->
  (b = OKLORAWAN \/ b = ERRORLORAWAN) ->
  (c = OKLORAWAN \/ c = ERRORLORAWAN) ->
  (OKLORAWAN + a + b + c =? OKLORAWAN) = true ->
  a = OKLORAWAN /\ b = OKLORAWAN /\ c = OKLORAWAN.
Proof. unfold OKLORAWAN, ERRORLORAWAN. intros. lia. Qed.

(** X10.  A data frame that is rejected before the MIC is checked leaves the
    session as it was: a frame shorter than 12 bytes, a frame with an uplink
    message type, a frame for another DevAddr, or a frame whose counter is
    outside the window, makes [lr1_stack_mac_rx_frame_decode] return
    [NO_MORE_VALID_RX_PACKET] with the received bytes, their size, the
    DevAddr, the network key, FCntDown and both ADR counters unchanged. *)
Theorem rx_frame_decode_rejects {R P : Type} (cr : crypto_ops)
  (m : lr1_stack_mac_t R P) :
  Z.shiftr (buf_get (rx_payload m) 0) 5 <> JOIN_ACCEPT ->
  rx_payload_size m < MIN_LORAWAN_PAYLOAD_SIZE
  \/ is_uplink_mtype (Z.shiftr (buf_get (rx_payload m) 0) 5) = true
  \/ u32 (le32_read (rx_payload m) 1) <> dev_addr m
  \/ fst (fcnt_dwn_accept
            (u16 (buf_get (rx_payload m) 6
                  + Z.shiftl (buf_get (rx_payload m) 7) 8))
            (fcnt_dwn m)) <> OKLORAWAN ->
  let r := lr1_stack_mac_rx_frame_decode cr m in
  fst r = NO_MORE_VALID_RX_PACKET /\ rx_view (snd r) = rx_view m.
Proof.
  intros Hja Hrej. cbv zeta.
  unfold lr1_stack_mac_rx_frame_decode.
  assert (Hchk : rx_payload_size_check m
                 = if rx_payload_size m <? MIN_LORAWAN_PAYLOAD_SIZE
                   then ERRORLORAWAN else OKLORAWAN) by reflexivity.
  set (chk := rx_payload_size_check m) in *.
  destruct (rx_mhdr_extract_spec m) as (S1 & T1 & V1).
  destruct (rx_mhdr_extract m) as [st1 m1]. cbn [fst snd] in S1, T1, V1.
  pose proof V1 as V1'.
  apply rx_view_inv in V1. destruct V1 as (P1 & N1 & A1 & K1 & F1 & C1 & D1).
  cbv beta iota zeta.
  assert (Hj : (rx_mtype m1 =? JOIN_ACCEPT) = false)
    by (rewrite T1; apply Z.eqb_neq; exact Hja).
  rewrite Hj.
  destruct (rx_fhdr_extract_spec m1 (dev_addr m1)) as (S2 & T2 & V2).
  destruct (rx_fhdr_extract m1 (dev_addr m1)) as [[st2 r2] m2].
  cbn [fst snd] in S2, T2, V2.
  pose proof V2 as V2'.
  apply rx_view_inv in V2. destruct V2 as (P2 & N2 & A2 & K2 & F2 & C2 & D2).
  rewrite P1, A1 in S2. rewrite P1 in T2.
  cbv beta iota zeta.
  destruct (OKLORAWAN + chk + st1 + st2 =? OKLORAWAN) eqn:Est.
  - assert (H3 : chk = OKLORAWAN /\ st1 = OKLORAWAN /\ st2 = OKLORAWAN).
    { apply status_sum_ok; [| | | exact Est].
      - rewrite Hchk. destruct (rx_payload_size m <? _); [right | left]; reflexivity.
      - rewrite S1. destruct (is_uplink_mtype _); [right | left]; reflexivity.
      - rewrite S2.
        destruct (u32 (le32_read (rx_payload m) 1) =? dev_addr m);
          [left | right]; reflexivity. }
    destruct H3 as (H31 & H32 & H33).
    destruct Hrej as [Hr | [Hr | [Hr | Hr]]].
    + exfalso. rewrite Hchk in H31.
      destruct (rx_payload_size m <? MIN_LORAWAN_PAYLOAD_SIZE) eqn:E;
        [discriminate | lia].
    + exfalso. rewrite S1, Hr in H32. discriminate.
    + exfalso. rewrite S2 in H33.
      destruct (u32 (le32_read (rx_payload m) 1) =? dev_addr m) eqn:E;
        [apply Z.eqb_eq in E; contradiction | discriminate].
    + rewrite F2, F1, T2.
      destruct (fcnt_dwn_accept_cases
                  (u16 (buf_get (rx_payload m) 6
                        + Z.shiftl (buf_get (rx_payload m) 7) 8))
                  (fcnt_dwn m)) as [[c Ec] | Ec].
      * rewrite Ec in Hr. cbn [fst] in Hr. contradiction.
      * rewrite Ec. cbv beta iota.
        change (ERRORLORAWAN =? OKLORAWAN) with false. cbv beta iota.
        cbn [fst snd]. split; [reflexivity |].
        rewrite <- V1', <- V2'. unfold rx_view. mac_simpl.
        rewrite F2, F1. reflexivity.
  - cbv beta iota. repeat (rewrite Est; cbv beta iota). cbn [fst snd].
    split; [reflexivity |]. rewrite <- V1', <- V2'. reflexivity.
Qed.

(** The frame of [Scenario.mac_bad_mic] reaches a device with another
    DevAddr. *)
Lemma rx_frame_decode_rejects_witness :
  let m := set_dev_addr 0x26011BDB Scenario.mac_bad_mic in
  Z.shiftr (buf_get (rx_payload m) 0) 5 <> JOIN_ACCEPT
  /\ u32 (le32_read (rx_payload m) 1) <> dev_addr m
  /\ fst (lr1_stack_mac_rx_frame_decode Ref.crypto m) = NO_MORE_VALID_RX_PACKET
  /\ fcnt_dwn (snd (lr1_stack_mac_rx_frame_decode Ref.crypto m)) = 0x10.
Proof.
  cbv zeta.
  set (m := set_dev_addr 0x26011BDB Scenario.mac_bad_mic).
  assert (H1 : Z.shiftr (buf_get (rx_payload m) 0) 5 <> JOIN_ACCEPT)
    by (vm_compute; discriminate).
  assert (H2 : u32 (le32_read (rx_payload m) 1) <> dev_addr m)
    by (vm_compute; discriminate).
  split; [exact H1 |]. split; [exact H2 |].
  destruct (rx_frame_decode_rejects Ref.crypto m H1
              (or_intror (or_intror (or_introl H2)))) as [E V].
  split; [exact E |].
  apply rx_view_inv in V. destruct V as (_ & _ & _ & _ & F & _).
  rewrite F. reflexivity.
Defined.


(** ** A downlink that passes every check *)

Lemma rx_frame_accept_stages {R P : Type} (cr : crypto_ops)
  (m : lr1_stack_mac_t R P) :
  rx_frame_accept cr m
  = rx_accept_deliver cr (rx_accept_ack (rx_accept_reset m)).
Proof.
  lazy beta zeta delta [rx_frame_accept rx_accept_deliver rx_accept_ack
                          rx_accept_reset].
  reflexivity.
Qed.

Lemma rx_mhdr_extract_fields {R P : Type} (m : lr1_stack_mac_t R P) :
  let r := snd (rx_mhdr_extract m) in
  tx_ack_bit r
  = (if Z.shiftr (buf_get (rx_payload m) 0) 5 =? CONF_DATA_DOWN then 1 else 0)
  /\ tx_mtype r = tx_mtype m /\ nb_trans_cpt r = nb_trans_cpt m
  /\ rx_ack_bit r = rx_ack_bit m /\ app_skey r = app_skey m
  /\ nwk_payload_size r = nwk_payload_size m
  /\ available_app_packet r = available_app_packet m
  /\ rx_fopts r = rx_fopts m /\ nwk_payload r = nwk_payload m.
Proof. cbv zeta. repeat split; reflexivity. Qed.

Lemma rx_fhdr_extract_fields {R P : Type} (m : lr1_stack_mac_t R P) (a : Z) :
  let r := snd (rx_fhdr_extract m a) in
  let n := Z.land (buf_get (rx_payload m) 5) 0x0F in
  rx_fctrl r = buf_get (rx_payload m) 5
  /\ rx_fopts_length r = n
  /\ rx_payload_empty r
     = (if rx_payload_size m >? 8 + MICSIZE + n then 0 else 1)
  /\ (rx_payload_size m > 8 + MICSIZE + n ->
      rx_fport r = buf_get (rx_payload m) (8 + n))
  /\ rx_fopts r = memcpy (rx_fopts m) 0 (skipn 8 (rx_payload m)) n
  /\ tx_ack_bit r = tx_ack_bit m
  /\ tx_mtype r = tx_mtype m /\ nb_trans_cpt r = nb_trans_cpt m
  /\ rx_ack_bit r = rx_ack_bit m /\ app_skey r = app_skey m
  /\ nwk_payload_size r = nwk_payload_size m
  /\ available_app_packet r = available_app_packet m
  /\ nwk_payload r = nwk_payload m.
Proof.
  cbv zeta. unfold rx_fhdr_extract. cbv zeta. cbn [fst snd].
  mac_simpl.
  destruct (rx_payload_size m >? 8 + MICSIZE + Z.land (buf_get (rx_payload m) 5) 15)
    eqn:E; repeat split; try reflexivity; intros; lia.
Qed.

Lemma rx_accept_ack_fields {R P : Type} (m : lr1_stack_mac_t R P) :
  let r := rx_accept_ack m in
  let ack := Z.land (rx_fctrl m) 0x20 =? 0x20 in
  let conf := tx_mtype m =? CONF_DATA_UP in
  nb_trans_cpt r = (if negb ack && conf then nb_trans_cpt m else 1)
  /\ rx_ack_bit r = (if ack && conf then 1 else rx_ack_bit m)
  /\ adr_ack_cnt r = adr_ack_cnt m
  /\ adr_ack_cnt_confirmed_frame r = adr_ack_cnt_confirmed_frame m
  /\ tx_fopts_lengthsticky r = tx_fopts_lengthsticky m
  /\ fcnt_dwn r = fcnt_dwn m /\ tx_ack_bit r = tx_ack_bit m
  /\ rx_payload_empty r = rx_payload_empty m
  /\ rx_fport r = rx_fport m /\ rx_fopts_length r = rx_fopts_length m
  /\ rx_payload_size r = rx_payload_size m
  /\ nwk_payload_size r = nwk_payload_size m
  /\ available_app_packet r = available_app_packet m.
Proof.
  cbv zeta. unfold rx_accept_ack. cbv zeta.
  destruct (Z.land (rx_fctrl m) 32 =? 32), (tx_mtype m =? CONF_DATA_UP);
    cbn [negb andb]; repeat split; reflexivity.
Qed.

Lemma rx_accept_deliver_session {R P : Type} (cr : crypto_ops)
  (m : lr1_stack_mac_t R P) :
  let r := snd (rx_accept_deliver cr m) in
  nb_trans_cpt r = nb_trans_cpt m /\ rx_ack_bit r = rx_ack_bit m
  /\ adr_ack_cnt r = adr_ack_cnt m
  /\ adr_ack_cnt_confirmed_frame r = adr_ack_cnt_confirmed_frame m
  /\ tx_fopts_lengthsticky r = tx_fopts_lengthsticky m
  /\ fcnt_dwn r = fcnt_dwn m /\ tx_ack_bit r = tx_ack_bit m.
Proof.
  cbv zeta. unfold rx_accept_deliver.
  destruct (rx_payload_empty m =? 0).
  - cbv zeta.
    match goal with
    | |- context [if ?c then _ else _] => destruct c
    end.
    + match goal with
      | |- context [if ?c then _ else _] => destruct c
      end; repeat split; reflexivity.
    + match goal with
      | |- context [if ?c then _ else _] => destruct c
      end; repeat split; reflexivity.
  - match goal with
    | |- context [if ?c then _ else _] => destruct c
    end; repeat split; reflexivity.
Qed.

(** The packet type and the delivery, by the presence of a port, the port
    and the length of the FOpts. *)
Lemma rx_accept_deliver_class {R P : Type} (cr : crypto_ops)
  (m : lr1_stack_mac_t R P) :
  let r := rx_accept_deliver cr m in
  let n := rx_fopts_length m in
  let has_port := rx_payload_empty m =? 0 in
  fst r
  = (if has_port && (rx_fport m =? 0)
     then (if n =? 0 then NWKRXPACKET else NO_MORE_VALID_RX_PACKET)
     else (if n =? 0 then NO_MORE_VALID_RX_PACKET else USERRX_FOPTSPACKET))
  /\ available_app_packet (snd r)
     = (if has_port && negb (rx_fport m =? 0) then LORA_RX_PACKET_AVAILABLE
        else available_app_packet m)
  /\ nwk_payload_size (snd r)
     = (if has_port && (rx_fport m =? 0)
        then (if n =? 0 then u8 (rx_payload_size m - FHDROFFSET - n)
              else nwk_payload_size m)
        else (if n =? 0 then nwk_payload_size m else n))
  /\ rx_payload_size (snd r)
     = (if has_port then u8 (rx_payload_size m - FHDROFFSET - n)
        else rx_payload_size m).
Proof.
  cbv zeta. unfold rx_accept_deliver.
  destruct (rx_payload_empty m =? 0); cbn [andb].
  - cbv zeta.
    change (rx_fport (set_rx_payload_size
                        (u8 (rx_payload_size m - FHDROFFSET - rx_fopts_length m))
                        m)) with (rx_fport m).
    change (rx_fopts_length
              (set_rx_payload_size
                 (u8 (rx_payload_size m - FHDROFFSET - rx_fopts_length m)) m))
      with (rx_fopts_length m).
    destruct (rx_fport m =? 0); cbn [negb].
    + destruct (rx_fopts_length m =? 0); cbn [fst snd];
        repeat split; reflexivity.
    + match goal with
      | |- context [if negb (?c) then _ else _] =>
          change c with (rx_fopts_length m =? 0)
      end.
      destruct (rx_fopts_length m =? 0); cbn [negb fst snd];
        repeat split; reflexivity.
  - destruct (rx_fopts_length m =? 0); cbn [negb fst snd];
      repeat split; reflexivity.
Qed.

Lemma rx_accept_reset_fields {R P : Type} (m : lr1_stack_mac_t R P) :
  let r := rx_accept_reset m in
  adr_ack_cnt r = 0 /\ adr_ack_cnt_confirmed_frame r = 0
  /\ tx_fopts_lengthsticky r = 0
  /\ fcnt_dwn r = fcnt_dwn m /\ tx_ack_bit r = tx_ack_bit m
  /\ rx_fctrl r = rx_fctrl m /\ tx_mtype r = tx_mtype m
  /\ nb_trans_cpt r = nb_trans_cpt m /\ rx_ack_bit r = rx_ack_bit m
  /\ rx_payload_empty r = rx_payload_empty m
  /\ rx_fport r = rx_fport m /\ rx_fopts_length r = rx_fopts_length m
  /\ rx_payload_size r = rx_payload_size m
  /\ nwk_payload_size r = nwk_payload_size m
  /\ available_app_packet r = available_app_packet m.
Proof. cbv zeta. repeat split; reflexivity. Qed.

(** A data frame that passes the size, MType, DevAddr, window and MIC
    checks reaches the accepting part of the decoder, in a state whose
    fields are read from the frame. *)
Lemma rx_frame_decode_valid_reach {R P : Type} (cr : crypto_ops)
  (m : lr1_stack_mac_t R P) (c : Z) :
  MIN_LORAWAN_PAYLOAD_SIZE <= rx_payload_size m < 256 ->
  is_uplink_mtype (Z.shiftr (buf_get (rx_payload m) 0) 5) = false ->
  Z.shiftr (buf_get (rx_payload m) 0) 5 <> JOIN_ACCEPT ->
  u32 (le32_read (rx_payload m) 1) = dev_addr m ->
  fcnt_dwn_accept
    (u16 (buf_get (rx_payload m) 6 + Z.shiftl (buf_get (rx_payload m) 7) 8))
    (fcnt_dwn m) = (OKLORAWAN, c) ->
  check_mic cr (frame_bytes (rx_payload m) (rx_payload_size m - MICSIZE))
    (nwk_skey m) (dev_addr m) c
    (le32_read (rx_payload m) (rx_payload_size m - MICSIZE)) = OKLORAWAN ->
  let n := Z.land (buf_get (rx_payload m) 5) 0x0F in
  exists m3,
    lr1_stack_mac_rx_frame_decode cr m = rx_frame_accept cr m3
    /\ fcnt_dwn m3 = c
    /\ rx_fctrl m3 = buf_get (rx_payload m) 5
    /\ tx_mtype m3 = tx_mtype m /\ nb_trans_cpt m3 = nb_trans_cpt m
    /\ rx_ack_bit m3 = rx_ack_bit m
    /\ tx_ack_bit m3
       = (if Z.shiftr (buf_get (rx_payload m) 0) 5 =? CONF_DATA_DOWN
          then 1 else 0)
    /\ rx_fopts_length m3 = n
    /\ rx_payload_empty m3
       = (if rx_payload_size m >? 8 + MICSIZE + n then 0 else 1)
    /\ (rx_payload_size m > 8 + MICSIZE + n ->
        rx_fport m3 = buf_get (rx_payload m) (8 + n))
    /\ rx_payload_size m3 = rx_payload_size m - MICSIZE
    /\ nwk_payload_size m3 = nwk_payload_size m
    /\ available_app_packet m3 = available_app_packet m.
Proof.
  intros Hsize Hup Hja Haddr Hacc Hmic. cbv zeta.
  unfold lr1_stack_mac_rx_frame_decode.
  assert (Hchk : rx_payload_size_check m = OKLORAWAN).
  { unfold rx_payload_size_check.
    destruct (rx_payload_size m <? MIN_LORAWAN_PAYLOAD_SIZE) eqn:E;
      [lia | reflexivity]. }
  rewrite Hchk.
  destruct (rx_mhdr_extract_spec m) as (S1 & T1 & V1).
  pose proof (rx_mhdr_extract_fields m) as G1. cbv zeta in G1.
  destruct (rx_mhdr_extract m) as [st1 m1].
  cbn [fst snd] in S1, T1, V1, G1.
  rewrite Hup in S1. subst st1.
  apply rx_view_inv in V1. destruct V1 as (P1 & N1 & A1 & K1 & F1 & C1 & D1).
  destruct G1 as (G11 & G12 & G13 & G14 & G15 & G16 & G17 & G18 & G19).
  cbv beta iota zeta.
  assert (Hj : (rx_mtype m1 =? JOIN_ACCEPT) = false)
    by (rewrite T1; apply Z.eqb_neq; exact Hja).
  rewrite Hj.
  destruct (rx_fhdr_extract_spec m1 (dev_addr m1)) as (S2 & T2 & V2).
  pose proof (rx_fhdr_extract_fields m1 (dev_addr m1)) as G2. cbv zeta in G2.
  destruct (rx_fhdr_extract m1 (dev_addr m1)) as [[st2 r2] m2].
  cbn [fst snd] in S2, T2, V2, G2.
  rewrite P1, A1, Haddr, Z.eqb_refl in S2. subst st2.
  rewrite P1 in T2. subst r2.
  apply rx_view_inv in V2. destruct V2 as (P2 & N2 & A2 & K2 & F2 & C2 & D2).
  rewrite P1, N1 in G2.
  destruct G2 as (G21 & G22 & G23 & G24 & G25 & G26 & G27 & G28 & G29 & G2a
                  & G2b & G2c & G2d).
  change (OKLORAWAN + OKLORAWAN + OKLORAWAN + OKLORAWAN =? OKLORAWAN) with true.
  cbv beta iota.
  rewrite F2, F1, Hacc. cbv beta iota.
  change (OKLORAWAN =? OKLORAWAN) with true. cbv beta iota zeta.
  mac_simpl.
  rewrite P2, P1, N2, N1, K2, K1, A2, A1.
  rewrite (u8_small (rx_payload_size m - MICSIZE))
    by (unfold MICSIZE, MIN_LORAWAN_PAYLOAD_SIZE in *; lia).
  rewrite Hmic.
  change (OKLORAWAN + OKLORAWAN =? OKLORAWAN) with true. cbv beta iota.
  eexists. split; [reflexivity |].
  mac_simpl.
  rewrite G21, G22, G23, G26, G27, G28, G29, G2b, G2c, G11, G12, G13, G14,
    G16, G17.
  repeat split; try reflexivity. exact G24.
Qed.

(** X11.  A data frame that passes every check, the MIC included, commits the
    reconstructed FCntDown, resets both counters of uplinks without downlink
    and the length of the sticky answers, and records whether the frame must
    be acknowledged.  The retransmission counter is reset to 1, unless the
    last uplink was confirmed and the frame does not acknowledge it; the
    acknowledgement is reported when the last uplink was confirmed and the
    ACK bit of FCtrl is set. *)
Theorem rx_frame_decode_valid_session {R P : Type} (cr : crypto_ops)
  (m : lr1_stack_mac_t R P) (c : Z) :
  MIN_LORAWAN_PAYLOAD_SIZE <= rx_payload_size m < 256 ->
  is_uplink_mtype (Z.shiftr (buf_get (rx_payload m) 0) 5) = false ->
  Z.shiftr (buf_get (rx_payload m) 0) 5 <> JOIN_ACCEPT ->
  u32 (le32_read (rx_payload m) 1) = dev_addr m ->
  fcnt_dwn_accept
    (u16 (buf_get (rx_payload m) 6 + Z.shiftl (buf_get (rx_payload m) 7) 8))
    (fcnt_dwn m) = (OKLORAWAN, c) ->
  check_mic cr (frame_bytes (rx_payload m) (rx_payload_size m - MICSIZE))
    (nwk_skey m) (dev_addr m) c
    (le32_read (rx_payload m) (rx_payload_size m - MICSIZE)) = OKLORAWAN ->
  let r := snd (lr1_stack_mac_rx_frame_decode cr m) in
  let ack := Z.land (buf_get (rx_payload m) 5) 0x20 =? 0x20 in
  let conf := tx_mtype m =? CONF_DATA_UP in
  fcnt_dwn r = c
  /\ adr_ack_cnt r = 0 /\ adr_ack_cnt_confirmed_frame r = 0
  /\ tx_fopts_lengthsticky r = 0
  /\ tx_ack_bit r
     = (if Z.shiftr (buf_get (rx_payload m) 0) 5 =? CONF_DATA_DOWN
        then 1 else 0)
  /\ nb_trans_cpt r = (if negb ack && conf then nb_trans_cpt m else 1)
  /\ rx_ack_bit r = (if ack && conf then 1 else rx_ack_bit m).
Proof.
  intros Hsize Hup Hja Haddr Hacc Hmic. cbv zeta.
  destruct (rx_frame_decode_valid_reach cr m c Hsize Hup Hja Haddr Hacc Hmic)
    as (m3 & E & F3 & X3 & T3 & N3 & A3 & K3 & _).
  rewrite E, rx_frame_accept_stages.
  destruct (rx_accept_deliver_session cr (rx_accept_ack (rx_accept_reset m3)))
    as (D1 & D2 & D3 & D4 & D5 & D6 & D7).
  cbv zeta in D1, D2, D3, D4, D5, D6, D7.
  rewrite D1, D2, D3, D4, D5, D6, D7.
  destruct (rx_accept_ack_fields (rx_accept_reset m3))
    as (B1 & B2 & B3 & B4 & B5 & B6 & B7 & _).
  cbv zeta in B1, B2.
  rewrite B1, B2, B3, B4, B5, B6, B7.
  destruct (rx_accept_reset_fields m3)
    as (R1 & R2 & R3 & R4 & R5 & R6 & R7 & R8 & R9 & _).
  rewrite R1, R2, R3, R4, R5, R6, R7, R8, R9.
  rewrite F3, X3, T3, N3, A3, K3.
  repeat split; reflexivity.
Qed.

(** X12.  The packet type that a valid data frame yields, by the bytes of the
    frame.  With [n] the FOptsLen of FCtrl, the frame has a port when its
    size exceeds [12 + n].  A frame on port 0 without FOpts is a frame of
    MAC commands ([NWKRXPACKET]); a frame on port 0 with FOpts yields
    nothing for the MAC; FOpts without port, or with another port, are
    delivered as MAC commands ([USERRX_FOPTSPACKET]).  A payload on a port
    other than 0 is announced to the application, and the received size
    becomes the size of the FRMPayload. *)
Theorem rx_frame_decode_valid_class {R P : Type} (cr : crypto_ops)
  (m : lr1_stack_mac_t R P) (c : Z) :
  MIN_LORAWAN_PAYLOAD_SIZE <= rx_payload_size m < 256 ->
  is_uplink_mtype (Z.shiftr (buf_get (rx_payload m) 0) 5) = false ->
  Z.shiftr (buf_get (rx_payload m) 0) 5 <> JOIN_ACCEPT ->
  u32 (le32_read (rx_payload m) 1) = dev_addr m ->
  fcnt_dwn_accept
    (u16 (buf_get (rx_payload m) 6 + Z.shiftl (buf_get (rx_payload m) 7) 8))
    (fcnt_dwn m) = (OKLORAWAN, c) ->
  check_mic cr (frame_bytes (rx_payload m) (rx_payload_size m - MICSIZE))
    (nwk_skey m) (dev_addr m) c
    (le32_read (rx_payload m) (rx_payload_size m - MICSIZE)) = OKLORAWAN ->
  let r := lr1_stack_mac_rx_frame_decode cr m in
  let n := Z.land (buf_get (rx_payload m) 5) 0x0F in
  let has_port := rx_payload_size m >? 8 + MICSIZE + n in
  let port := buf_get (rx_payload m) (8 + n) in
  fst r
  = (if has_port && (port =? 0)
     then (if n =? 0 then NWKRXPACKET else NO_MORE_VALID_RX_PACKET)
     else (if n =? 0 then NO_MORE_VALID_RX_PACKET else USERRX_FOPTSPACKET))
  /\ available_app_packet (snd r)
     = (if has_port && negb (port =? 0) then LORA_RX_PACKET_AVAILABLE
        else available_app_packet m)
  /\ nwk_payload_size (snd r)
     = (if has_port && (port =? 0)
        then (if n =? 0 then rx_payload_size m - MICSIZE - FHDROFFSET
              else nwk_payload_size m)
        else (if n =? 0 then nwk_payload_size m else n))
  /\ rx_payload_size (snd r)
     = (if has_port then rx_payload_size m - MICSIZE - FHDROFFSET - n
        else rx_payload_size m - MICSIZE).
Proof.
  intros Hsize Hup Hja Haddr Hacc Hmic. cbv zeta.
  destruct (rx_frame_decode_valid_reach cr m c Hsize Hup Hja Haddr Hacc Hmic)
    as (m3 & E & _ & _ & _ & _ & _ & _ & L3 & Y3 & Q3 & Z3 & W3 & V3).
  cbv zeta in L3, Y3, Q3.
  rewrite E, rx_frame_accept_stages.
  destruct (rx_accept_deliver_class cr (rx_accept_ack (rx_accept_reset m3)))
    as (D1 & D2 & D3 & D4).
  cbv zeta in D1, D2, D3, D4. rewrite D1, D2, D3, D4.
  destruct (rx_accept_ack_fields (rx_accept_reset m3))
    as (_ & _ & _ & _ & _ & _ & _ & B8 & B9 & Ba & Bb & Bc & Bd).
  rewrite B8, B9, Ba, Bb, Bc, Bd.
  destruct (rx_accept_reset_fields m3)
    as (_ & _ & _ & _ & _ & _ & _ & _ & _ & Ra & Rb & Rc & Rd & Re & Rf).
  rewrite Ra, Rb, Rc, Rd, Re, Rf.
  rewrite L3, Y3, Z3, W3, V3.
  set (n := Z.land (buf_get (rx_payload m) 5) 15) in *.
  assert (Hn : 0 <= n <= 15).
  { subst n.
    change (Z.land (buf_get (rx_payload m) 5) 15)
      with (Z.land (buf_get (rx_payload m) 5) (Z.ones 4)).
    rewrite Z.land_ones by lia. change (2 ^ 4) with 16.
    pose proof (Z.mod_pos_bound (buf_get (rx_payload m) 5) 16 ltac:(lia)).
    lia. }
  unfold MICSIZE, FHDROFFSET, MIN_LORAWAN_PAYLOAD_SIZE in *.
  destruct (rx_payload_size m >? 8 + 4 + n) eqn:Ep.
  - rewrite (Q3 ltac:(lia)).
    change (0 =? 0) with true. cbn [andb].
    rewrite (u8_small (rx_payload_size m - 4 - 9 - n)) by lia.
    destruct (buf_get (rx_payload m) (8 + n) =? 0); cbn [negb];
      destruct (n =? 0) eqn:En; repeat split; try reflexivity.
    apply Z.eqb_eq in En. lia.
  - change (1 =? 0) with false. cbn [andb].
    destruct (n =? 0); repeat split; reflexivity.
Qed.

Ltac rx_valid_hyps m c :=
  assert (H1 : MIN_LORAWAN_PAYLOAD_SIZE <= rx_payload_size m < 256)
    by (vm_compute; intuition congruence);
  assert (H2 : is_uplink_mtype (Z.shiftr (buf_get (rx_payload m) 0) 5) = false)
    by (vm_compute; reflexivity);
  assert (H3 : Z.shiftr (buf_get (rx_payload m) 0) 5 <> JOIN_ACCEPT)
    by (vm_compute; discriminate);
  assert (H4 : u32 (le32_read (rx_payload m) 1) = dev_addr m)
    by (vm_compute; reflexivity);
  assert (H5 : fcnt_dwn_accept
                 (u16 (buf_get (rx_payload m) 6
                       + Z.shiftl (buf_get (rx_payload m) 7) 8))
                 (fcnt_dwn m) = (OKLORAWAN, c))
    by (vm_compute; reflexivity);
  assert (H6 : check_mic Ref.crypto
                 (frame_bytes (rx_payload m) (rx_payload_size m - MICSIZE))
                 (nwk_skey m) (dev_addr m) c
                 (le32_read (rx_payload m) (rx_payload_size m - MICSIZE))
               = OKLORAWAN)
    by (vm_compute; reflexivity).

(** The confirmed downlink of [ScenarioRx.mac_conf_ack] acknowledges the
    confirmed uplink: the retransmissions stop, the acknowledgement is
    reported, and the next uplink carries the ACK bit. *)
Lemma rx_frame_decode_valid_session_witness :
  let m := ScenarioRx.mac_conf_ack in
  let r := snd (lr1_stack_mac_rx_frame_decode Ref.crypto m) in
  MIN_LORAWAN_PAYLOAD_SIZE <= rx_payload_size m < 256
  /\ nb_trans_cpt m = 2 /\ adr_ack_cnt_confirmed_frame m = 2
  /\ fcnt_dwn r = 0x21 /\ adr_ack_cnt_confirmed_frame r = 0
  /\ tx_ack_bit r = 1 /\ nb_trans_cpt r = 1 /\ rx_ack_bit r = 1.
Proof.
  cbv zeta.
  rx_valid_hyps ScenarioRx.mac_conf_ack 0x21.
  destruct (rx_frame_decode_valid_session Ref.crypto ScenarioRx.mac_conf_ack
              0x21 H1 H2 H3 H4 H5 H6) as (E1 & _ & E3 & _ & E5 & E6 & E7).
  split; [exact H1 |]. split; [reflexivity |]. split; [reflexivity |].
  split; [exact E1 |]. split; [exact E3 |].
  split; [rewrite E5 | split; [rewrite E6 | rewrite E7]];
    vm_compute; reflexivity.
Defined.

(** The downlink of [ScenarioRx.mac_port0] carries two DutyCycleReq on port
    0: four bytes for the parser of MAC commands, nothing for the
    application. *)
Lemma rx_frame_decode_valid_class_witness :
  let m := ScenarioRx.mac_port0 in
  let r := lr1_stack_mac_rx_frame_decode Ref.crypto m in
  MIN_LORAWAN_PAYLOAD_SIZE <= rx_payload_size m < 256
  /\ fst r = NWKRXPACKET /\ nwk_payload_size (snd r) = 4
  /\ available_app_packet (snd r) = NO_LORA_RXPACKET_AVAILABLE.
Proof.
  cbv zeta.
  rx_valid_hyps ScenarioRx.mac_port0 0x21.
  destruct (rx_frame_decode_valid_class Ref.crypto ScenarioRx.mac_port0
              0x21 H1 H2 H3 H4 H5 H6) as (E1 & E2 & E3 & _).
  split; [exact H1 |].
  split; [rewrite E1 | split; [rewrite E3 | rewrite E2]];
    vm_compute; reflexivity.
Defined.


(** * Join accept *)

(** X13.  A join accept of at least 12 bytes: the decoder decrypts the frame in
    place from its second byte, whatever the MIC says, removes the 4 bytes
    of the MIC from the size, and returns [JOIN_ACCEPT_PACKET] exactly when
    the MIC of the decrypted frame is verified with the AppKey.  The session
    (FCntDown, ADR counters, DevAddr, join status) is not touched. *)
Theorem rx_frame_decode_join_accept {R P : Type} (cr : crypto_ops)
  (m : lr1_stack_mac_t R P) :
  Z.shiftr (buf_get (rx_payload m) 0) 5 = JOIN_ACCEPT ->
  MIN_LORAWAN_PAYLOAD_SIZE <= rx_payload_size m < 256 ->
  let size := rx_payload_size m in
  let dec :=
    memcpy (rx_payload m) 1
      (join_decrypt cr (buf_sub (rx_payload m) 1 (size - 1)) (app_key m))
      (size - 1) in
  let r := lr1_stack_mac_rx_frame_decode cr m in
  fst r
  = (if check_join_mic cr (frame_bytes dec (size - MICSIZE)) (app_key m)
          (le32_read dec (size - MICSIZE)) =? OKLORAWAN
     then JOIN_ACCEPT_PACKET else NO_MORE_VALID_RX_PACKET)
  /\ rx_payload (snd r) = dec
  /\ buf_get (rx_payload (snd r)) 0 = buf_get (rx_payload m) 0
  /\ rx_payload_size (snd r) = size - MICSIZE
  /\ fcnt_dwn (snd r) = fcnt_dwn m /\ adr_ack_cnt (snd r) = adr_ack_cnt m
  /\ adr_ack_cnt_confirmed_frame (snd r) = adr_ack_cnt_confirmed_frame m
  /\ dev_addr (snd r) = dev_addr m /\ join_status (snd r) = join_status m.
Proof.
  intros Hmt Hsize. cbv zeta.
  unfold lr1_stack_mac_rx_frame_decode.
  assert (Hchk : rx_payload_size_check m = OKLORAWAN).
  { unfold rx_payload_size_check.
    destruct (rx_payload_size m <? MIN_LORAWAN_PAYLOAD_SIZE) eqn:E;
      [lia | reflexivity]. }
  rewrite Hchk.
  unfold rx_mhdr_extract. cbv zeta. mac_simpl.
  rewrite Hmt.
  change (is_uplink_mtype JOIN_ACCEPT) with false.
  change (JOIN_ACCEPT =? JOIN_ACCEPT) with true.
  change (JOIN_ACCEPT =? CONF_DATA_DOWN) with false.
  cbv beta iota. mac_simpl.
  rewrite (u8_small (rx_payload_size m - MICSIZE))
    by (unfold MICSIZE, MIN_LORAWAN_PAYLOAD_SIZE in *; lia).
  change (OKLORAWAN + OKLORAWAN + OKLORAWAN) with 0.
  match goal with
  | |- context [0 + ?x =? OKLORAWAN] => replace (0 + x) with x by lia
  end.
  match goal with
  | |- context [if ?c then _ else _] => destruct c
  end; cbn [fst snd]; mac_simpl; repeat split; try reflexivity;
    apply buf_get_memcpy_below; lia.
Qed.

Lemma rx_frame_decode_join_accept_witness :
  let m := ScenarioRx.mac_join_accept in
  Z.shiftr (buf_get (rx_payload m) 0) 5 = JOIN_ACCEPT
  /\ MIN_LORAWAN_PAYLOAD_SIZE <= rx_payload_size m < 256
  /\ fst (lr1_stack_mac_rx_frame_decode Ref.crypto m) = JOIN_ACCEPT_PACKET
  /\ rx_payload_size (snd (lr1_stack_mac_rx_frame_decode Ref.crypto m)) = 13.
Proof.
  cbv zeta.
  assert (H1 : Z.shiftr (buf_get (rx_payload ScenarioRx.mac_join_accept) 0) 5
               = JOIN_ACCEPT) by (vm_compute; reflexivity).
  assert (H2 : MIN_LORAWAN_PAYLOAD_SIZE
               <= rx_payload_size ScenarioRx.mac_join_accept < 256)
    by (vm_compute; intuition congruence).
  destruct (rx_frame_decode_join_accept Ref.crypto ScenarioRx.mac_join_accept
              H1 H2) as (E1 & _ & _ & E4 & _).
  split; [exact H1 |]. split; [exact H2 |].
  split; [rewrite E1 | rewrite E4]; vm_compute; reflexivity.
Defined.

Lemma land_0F_range (b : Z) : 0 <= Z.land b 0x0F <= 15.
Proof.
  change (Z.land b 0x0F) with (Z.land b (Z.ones 4)).
  rewrite Z.land_ones by lia.
  change (2 ^ 4) with 16. pose proof (Z.mod_pos_bound b 16 ltac:(lia)). lia.
Qed.

Lemma land_70_shiftr_range (b : Z) : 0 <= Z.shiftr (Z.land b 0x70) 4 <= 7.
Proof.
  rewrite Z.shiftr_land.
  change (Z.land (Z.shiftr b 4) (Z.shiftr 0x70 4))
    with (Z.land (Z.shiftr b 4) (Z.ones 3)).
  rewrite Z.land_ones by lia.
  change (2 ^ 3) with 8.
  pose proof (Z.mod_pos_bound (Z.shiftr b 4) 8 ltac:(lia)). lia.
Qed.

Lemma join_accept_settings_fields {R P : Type} (m : lr1_stack_mac_t R P) :
  let r := join_accept_settings m in
  join_status r = JOINED
  /\ dev_addr r = u32 (le32_read (rx_payload m) 7)
  /\ rx1_dr_offset r = Z.shiftr (Z.land (buf_get (rx_payload m) 11) 0x70) 4
  /\ rx2_data_rate r = Z.land (buf_get (rx_payload m) 11) 0x0F
  /\ rx1_delay_s r
     = (if buf_get (rx_payload m) 12 =? 0 then 1
        else if buf_get (rx_payload m) 12 >? 15 then 15
             else buf_get (rx_payload m) 12).
Proof.
  cbv zeta. unfold join_accept_settings. cbv zeta. mac_simpl.
  destruct (buf_get (rx_payload m) 12 =? 0) eqn:E0; mac_simpl.
  - change (1 >? 15) with false. cbv beta iota. mac_simpl.
    repeat split; reflexivity.
  - destruct (buf_get (rx_payload m) 12 >? 15) eqn:E15; mac_simpl;
      repeat split; reflexivity.
Qed.

Lemma join_accept_keys_payload {R P : Type} (jo : join_ops R P)
  (m : lr1_stack_mac_t R P) :
  join_keeps_rx_payload jo ->
  rx_payload (join_accept_keys jo m) = rx_payload m.
Proof.
  intros Hk. unfold join_accept_keys.
  destruct (join_compute_skeys jo (app_key m) (buf_sub (rx_payload m) 1 6)
              (dev_nonce m)) as [nwk app].
  cbv zeta.
  match goal with
  | |- context [if ?c then _ else _] => destruct c
  end.
  - match goal with
    | |- rx_payload (smtc_real_cflist_get jo ?x ?cf) = _ =>
        destruct (Hk x cf) as [E _]; rewrite E; reflexivity
    end.
  - match goal with
    | |- rx_payload (smtc_real_join_snapshot_channel_mask_init jo ?x) = _ =>
        destruct (Hk x []) as [_ E]; rewrite E; reflexivity
    end.
Qed.

Lemma session_init_keeps {R P : Type} (rl : smtc_real_ops R P) (now_ms : Z)
  (m : lr1_stack_mac_t R P) :
  let r := lr1_stack_mac_session_init rl now_ms m in
  join_status r = join_status m
  /\ dev_addr r = dev_addr m
  /\ rx1_dr_offset r = rx1_dr_offset m
  /\ rx2_data_rate r = rx2_data_rate m
  /\ rx1_delay_s r = rx1_delay_s m.
Proof. cbv zeta. repeat split; reflexivity. Qed.

Lemma session_init_resets {R P : Type} (rl : smtc_real_ops R P) (now_ms : Z)
  (m : lr1_stack_mac_t R P) :
  let r := lr1_stack_mac_session_init rl now_ms m in
  fcnt_up r = 0 /\ fcnt_dwn r = 0xFFFFFFFF
  /\ adr_ack_cnt r = 0 /\ adr_ack_cnt_confirmed_frame r = 0
  /\ tx_fopts_length r = 0 /\ tx_fopts_lengthsticky r = 0
  /\ tx_fopts_current_length r = 0
  /\ tx_duty_cycle_time_off_ms r = 0
  /\ tx_duty_cycle_timestamp_ms r = now_ms.
Proof. cbv zeta. repeat split; reflexivity. Qed.

Lemma fcnt_dwn_accept_fresh (r : Z) :
  fcnt_dwn_accept r 0xFFFFFFFF = (OKLORAWAN, r).
Proof.
  unfold fcnt_dwn_accept. cbv zeta.
  change (0xFFFFFFFF =? 0xFFFFFFFF) with true.
  rewrite orb_true_r. reflexivity.
Qed.

Lemma rx_delay_clamp_range (d : Z) :
  0 <= d ->
  1 <= (if d =? 0 then 1 else if d >? 15 then 15 else d) <= 15.
Proof.
  intros H. destruct (d =? 0) eqn:E0; [lia |].
  destruct (d >? 15) eqn:E15; lia.
Qed.

(** X14.  After [lr1_stack_mac_join_accept] the device is joined with the DevAddr
    and the downlink settings of the join accept: DevAddr from bytes 7 to
    10, least significant first; RX1 data-rate offset from bits 6..4 and RX2
    data rate from bits 3..0 of byte 11; RxDelay from byte 12, where 0 stands
    for 1 and values above 15 are brought to 15, so that RxDelay is between
    1 and 15.  The session starts afresh: FCntUp is 0, FCntDown is the
    sentinel that accepts any first downlink counter, the ADR counters and
    the pending answers are cleared. *)
Theorem join_accept_session {R P : Type} (rl : smtc_real_ops R P)
  (jo : join_ops R P) (now_ms : Z) (m : lr1_stack_mac_t R P) :
  join_keeps_rx_payload jo ->
  0 <= buf_get (rx_payload m) 12 ->
  let m' := lr1_stack_mac_join_accept rl jo now_ms m in
  let settings := buf_get (rx_payload m) 11 in
  let delay := buf_get (rx_payload m) 12 in
  join_status m' = JOINED
  /\ dev_addr m' = u32 (le32_read (rx_payload m) 7)
  /\ rx1_dr_offset m' = Z.shiftr (Z.land settings 0x70) 4
  /\ 0 <= rx1_dr_offset m' <= 7
  /\ rx2_data_rate m' = Z.land settings 0x0F
  /\ 0 <= rx2_data_rate m' <= 15
  /\ rx1_delay_s m'
     = (if delay =? 0 then 1 else if delay >? 15 then 15 else delay)
  /\ 1 <= rx1_delay_s m' <= 15
  /\ fcnt_up m' = 0 /\ fcnt_dwn m' = 0xFFFFFFFF
  /\ (forall r, fcnt_dwn_accept r (fcnt_dwn m') = (OKLORAWAN, r))
  /\ adr_ack_cnt m' = 0 /\ adr_ack_cnt_confirmed_frame m' = 0
  /\ tx_fopts_length m' = 0 /\ tx_fopts_lengthsticky m' = 0
  /\ tx_fopts_current_length m' = 0
  /\ tx_duty_cycle_time_off_ms m' = 0
  /\ tx_duty_cycle_timestamp_ms m' = now_ms.
Proof.
  intros Hk Hb. cbv zeta.
  pose proof (join_accept_keys_payload jo m Hk) as Hp.
  unfold lr1_stack_mac_join_accept. cbv zeta.
  destruct (session_init_keeps rl now_ms
              (join_accept_settings (join_accept_keys jo m)))
    as (K1 & K2 & K3 & K4 & K5).
  destruct (session_init_resets rl now_ms
              (join_accept_settings (join_accept_keys jo m)))
    as (Z1 & Z2 & Z3 & Z4 & Z5 & Z6 & Z7 & Z8 & Z9).
  destruct (join_accept_settings_fields (join_accept_keys jo m))
    as (S1 & S2 & S3 & S4 & S5).
  rewrite Hp in S2, S3, S4, S5.
  rewrite K1, K2, K3, K4, K5, S1, S2, S3, S4, S5.
  rewrite Z1, Z2, Z3, Z4, Z5, Z6, Z7, Z8, Z9.
  split; [reflexivity |]. split; [reflexivity |]. split; [reflexivity |].
  split; [apply land_70_shiftr_range |]. split; [reflexivity |].
  split; [apply land_0F_range |].
  split; [reflexivity |]. split; [apply rx_delay_clamp_range; exact Hb |].
  split; [reflexivity |]. split; [reflexivity |].
  split; [exact fcnt_dwn_accept_fresh |].
  repeat split; reflexivity.
Qed.

(** The join accept of [ScenarioRx.mac_join_accept]: RxDelay 0 gives a delay
    of one second, the up counter 17 of the previous session is cleared. *)
Lemma join_accept_session_witness :
  let m := ScenarioRx.mac_join_accept in
  join_keeps_rx_payload RefIt.join
  /\ 0 <= buf_get (rx_payload m) 12
  /\ fcnt_up m = 17
  /\ join_status (lr1_stack_mac_join_accept Ref.region RefIt.join 5000 m)
     = JOINED
  /\ dev_addr (lr1_stack_mac_join_accept Ref.region RefIt.join 5000 m)
     = 0x26011BDA
  /\ rx1_delay_s (lr1_stack_mac_join_accept Ref.region RefIt.join 5000 m) = 1
  /\ fcnt_up (lr1_stack_mac_join_accept Ref.region RefIt.join 5000 m) = 0.
Proof.
  cbv zeta.
  assert (Hk : join_keeps_rx_payload RefIt.join)
    by (intros m cf; split; reflexivity).
  assert (Hb : 0 <= buf_get (rx_payload ScenarioRx.mac_join_accept) 12)
    by (vm_compute; discriminate).
  split; [exact Hk |]. split; [exact Hb |]. split; [reflexivity |].
  destruct (join_accept_session Ref.region RefIt.join 5000
              ScenarioRx.mac_join_accept Hk Hb)
    as (E1 & E2 & _ & _ & _ & _ & E3 & _ & E4 & _).
  split; [exact E1 |]. split; [rewrite E2; reflexivity |].
  split; [rewrite E3; reflexivity |]. exact E4.
Defined.


(** * The call-back of the radio planner *)

(** X15.  [lr1_stack_mac_downlink_check_under_it] accepts a frame exactly when its
    message type is a downlink type and, on a joined device, its DevAddr is
    the device's.  A rejected frame is emptied on a joined device only: the
    size of the received frame becomes 0; in every other case the object is
    unchanged. *)
Theorem downlink_check_under_it_cases {R P : Type} (m : lr1_stack_mac_t R P) :
  let r := lr1_stack_mac_downlink_check_under_it m in
  let downlink := negb (is_uplink_mtype (Z.shiftr (buf_get (rx_payload m) 0) 5)) in
  let mine := u32 (le32_read (rx_payload m) 1) =? dev_addr m in
  (fst r = OKLORAWAN <->
   downlink = true /\ (join_status m = JOINED -> mine = true))
  /\ (join_status m = JOINED -> fst r <> OKLORAWAN ->
      snd r = set_rx_payload_size 0 m)
  /\ (join_status m = NOT_JOINED \/ fst r = OKLORAWAN -> snd r = m).
Proof.
  cbv zeta. unfold lr1_stack_mac_downlink_check_under_it, check_dev_addr.
  cbv zeta. unfold OKLORAWAN, ERRORLORAWAN.
  destruct (is_uplink_mtype (Z.shiftr (buf_get (rx_payload m) 0) 5));
    destruct (join_status m);
    try destruct (u32 (le32_read (rx_payload m) 1) =? dev_addr m);
    cbn [fst snd negb Z.add Z.eqb Z.opp Z.pos_sub Pos.add Pos.succ];
    intuition (try discriminate; try reflexivity; try congruence).
Qed.

(** X16.  The event that [lr1_stack_mac_rp_callback] reports: a received packet is
    reported as such only when the check under interrupt accepts it, and as
    a reception timeout otherwise; every other event is reported as the
    planner gave it.  For a received packet the SNR and the RSSI are read
    from the planner, and the size of the frame is the planner's (its low 8
    bits), or 0 when a joined device rejects the frame. *)
Theorem rp_callback_report {R P : Type} (rpo : rp_ops P) (ito : rp_it_ops P)
  (now_ms : Z) (m : lr1_stack_mac_t R P) :
  let hook := snd (rp_hook_get_id rpo (rp m)) in
  let ev := rp_get_status ito (rp m) hook in
  let r := lr1_stack_mac_rp_callback rpo ito now_ms m in
  let valid :=
    negb (is_uplink_mtype (Z.shiftr (buf_get (rx_payload m) 0) 5))
    && match join_status m with
       | JOINED => u32 (le32_read (rx_payload m) 1) =? dev_addr m
       | NOT_JOINED => true
       end in
  fst r = match snd ev with
          | RP_STATUS_RX_PACKET =>
              if valid then RP_STATUS_RX_PACKET else RP_STATUS_RX_TIMEOUT
          | s => s
          end
  /\ (snd ev = RP_STATUS_RX_PACKET ->
      rx_snr (snd r) = rp_snr_pkt_in_db rpo (rp m) hook
      /\ rx_rssi (snd r) = rp_rssi_pkt_in_dbm rpo (rp m) hook
      /\ rx_payload_size (snd r)
         = match join_status m with
           | JOINED => if valid then u8 (rp_payload_size ito (rp m) hook)
                       else 0
           | NOT_JOINED => u8 (rp_payload_size ito (rp m) hook)
           end)
  /\ (snd ev <> RP_STATUS_RX_PACKET ->
      rx_view (snd r) = rx_view m /\ rx_payload_size (snd r) = rx_payload_size m).
Proof.
  cbv zeta. unfold lr1_stack_mac_rp_callback.
  destruct (rp_hook_get_id rpo (rp m)) as [hs hook]. cbn [snd].
  destruct (rp_get_status ito (rp m) hook) as [t st]. cbn [snd].
  destruct st; cbv beta iota zeta.
  - split; [destruct (radio_process_state m); reflexivity |].
    split; [intros H; discriminate H |]. intros _.
    destruct (radio_process_state m); split; reflexivity.
  - unfold lr1_stack_mac_downlink_check_under_it, check_dev_addr.
    cbv zeta. mac_simpl. unfold OKLORAWAN, ERRORLORAWAN.
    destruct (is_uplink_mtype (Z.shiftr (buf_get (rx_payload m) 0) 5));
      destruct (join_status m);
      try destruct (u32 (le32_read (rx_payload m) 1) =? dev_addr m);
      cbn [fst snd negb andb Z.add Z.eqb Z.opp Z.pos_sub Pos.add Pos.succ];
      mac_simpl;
      (split; [destruct (radio_process_state m); reflexivity |]);
      (split; [intros _; destruct (radio_process_state m);
                 repeat split; reflexivity
              | intros H; exfalso; apply H; reflexivity]).
  - split; [destruct (radio_process_state m); reflexivity |].
    split; [intros H; discriminate H |]. intros _.
    destruct (radio_process_state m); split; reflexivity.
  - split; [destruct (radio_process_state m); reflexivity |].
    split; [intros H; discriminate H |]. intros _.
    destruct (radio_process_state m); split; reflexivity.
Qed.

(** X17.  The radio state after [lr1_stack_mac_rp_callback] depends on the state
    before only, whatever the event: transmitting, transmission finished,
    first window finished, idle.  The time of the event is recorded when the
    state was transmitting, and only then; it is the planner's time for the
    end of a transmission.  A call-back in the idle state raises the fatal
    handler and leaves the state idle. *)
Theorem rp_callback_state {R P : Type} (rpo : rp_ops P) (ito : rp_it_ops P)
  (now_ms : Z) (m : lr1_stack_mac_t R P) :
  let hook := snd (rp_hook_get_id rpo (rp m)) in
  let ev := rp_get_status ito (rp m) hook in
  let r := lr1_stack_mac_rp_callback rpo ito now_ms m in
  radio_process_state (snd r)
  = match radio_process_state m with
    | RADIOSTATE_TXON => RADIOSTATE_TXFINISHED
    | RADIOSTATE_TXFINISHED => RADIOSTATE_RX1FINISHED
    | RADIOSTATE_RX1FINISHED => RADIOSTATE_IDLE
    | RADIOSTATE_IDLE => RADIOSTATE_IDLE
    end
  /\ mcu_issue (snd r)
     = match radio_process_state m with
       | RADIOSTATE_IDLE => mcu_issue m + 1
       | _ => mcu_issue m
       end
  /\ (radio_process_state m <> RADIOSTATE_TXON ->
      isr_radio_timestamp (snd r) = isr_radio_timestamp m)
  /\ (radio_process_state m = RADIOSTATE_TXON ->
      match snd ev with
      | RP_STATUS_TX_DONE | RP_STATUS_RX_TIMEOUT =>
          isr_radio_timestamp (snd r) = fst ev
      | RP_STATUS_OTHER => isr_radio_timestamp (snd r) = now_ms
      | RP_STATUS_RX_PACKET =>
          isr_radio_timestamp (snd r) = fst ev
          \/ isr_radio_timestamp (snd r) = now_ms
      end).
Proof.
  cbv zeta. unfold lr1_stack_mac_rp_callback.
  destruct (rp_hook_get_id rpo (rp m)) as [hs hook]. cbn [snd].
  destruct (rp_get_status ito (rp m) hook) as [t st]. cbn [fst snd].
  destruct st; cbv beta iota zeta.
  - destruct (radio_process_state m) eqn:E; cbn [snd];
      unfold bsp_mcu_handle_lr1mac_issue; mac_simpl; try rewrite E;
      (split; [reflexivity |]); (split; [reflexivity |]);
      (split; [intros H; try reflexivity; exfalso; apply H; reflexivity
              | intros H; try discriminate H; reflexivity]).
  - unfold lr1_stack_mac_downlink_check_under_it, check_dev_addr.
    cbv zeta. mac_simpl. unfold OKLORAWAN, ERRORLORAWAN.
    destruct (is_uplink_mtype (Z.shiftr (buf_get (rx_payload m) 0) 5));
      destruct (join_status m);
      try destruct (u32 (le32_read (rx_payload m) 1) =? dev_addr m);
      cbn [fst snd negb andb Z.add Z.eqb Z.opp Z.pos_sub Pos.add Pos.succ];
      mac_simpl;
      destruct (radio_process_state m) eqn:E; cbn [snd];
      unfold bsp_mcu_handle_lr1mac_issue; mac_simpl; try rewrite E;
      (split; [reflexivity |]); (split; [reflexivity |]);
      (split; [intros H; try reflexivity; exfalso; apply H; reflexivity
              | intros H; try discriminate H;
                first [left; reflexivity | right; reflexivity]]).
  - destruct (radio_process_state m) eqn:E; cbn [snd];
      unfold bsp_mcu_handle_lr1mac_issue; mac_simpl; try rewrite E;
      (split; [reflexivity |]); (split; [reflexivity |]);
      (split; [intros H; try reflexivity; exfalso; apply H; reflexivity
              | intros H; try discriminate H; reflexivity]).
  - destruct (radio_process_state m) eqn:E; cbn [snd];
      unfold bsp_mcu_handle_lr1mac_issue; mac_simpl; try rewrite E;
      (split; [reflexivity |]); (split; [reflexivity |]);
      (split; [intros H; try reflexivity; exfalso; apply H; reflexivity
              | intros H; try discriminate H; reflexivity]).
Qed.


(** * The uplink frame *)

(** The bytes that [lr1_stack_mac_tx_frame_build] writes. *)
Lemma tx_frame_build_payload {R P : Type} (m : lr1_stack_mac_t R P) :
  let fctrl := u8 (Z.shiftl (adr_enable m) 7 + Z.shiftl (adr_ack_req m) 6
                   + Z.shiftl (tx_ack_bit m) 5
                   + Z.land (tx_fopts_current_length m) 0x0F) in
  let r := lr1_stack_mac_tx_frame_build m in
  tx_payload r
  = buf_set
      (memcpy
         (buf_set
            (buf_set
               (buf_set
                  (buf_set
                     (buf_set
                        (buf_set
                           (buf_set
                              (buf_set (tx_payload m) 0
                                 (u8 (Z.shiftl (Z.land (tx_mtype m) 0x7) 5
                                      + Z.land (tx_major_bits m) 0x3)))
                              1 (u8 (Z.land (dev_addr m) 0x000000FF)))
                           2 (u8 (Z.shiftr (Z.land (dev_addr m) 0x0000FF00) 8)))
                        3 (u8 (Z.shiftr (Z.land (dev_addr m) 0x00FF0000) 16)))
                     4 (u8 (Z.shiftr (Z.land (dev_addr m) 0xFF000000) 24)))
                  5 fctrl)
               6 (u8 (Z.land (fcnt_up m) 0x000000FF)))
            7 (u8 (Z.shiftr (Z.land (fcnt_up m) 0x0000FF00) 8)))
         8 (tx_fopts_current_data m) (tx_fopts_current_length m))
      (8 + tx_fopts_current_length m) (tx_fport m)
  /\ tx_fctrl r = fctrl
  /\ tx_payload_size r
     = u8 (app_payload_size m + FHDROFFSET + tx_fopts_current_length m)
  /\ tx_ack_bit r = 0 /\ rx_ack_bit r = 0
  /\ fcnt_up r = fcnt_up m /\ dev_addr r = dev_addr m
  /\ tx_fport r = tx_fport m /\ app_payload_size r = app_payload_size m
  /\ tx_fopts_current_length r = tx_fopts_current_length m
  /\ nwk_skey r = nwk_skey m /\ app_skey r = app_skey m.
Proof. cbv zeta. repeat split; reflexivity. Qed.

Lemma mhdr_bits (t j : Z) :
  0 <= t <= 7 -> 0 <= j <= 3 ->
  let b := u8 (Z.shiftl (Z.land t 0x7) 5 + Z.land j 0x3) in
  Z.shiftr b 5 = t /\ Z.land b 0x3 = j.
Proof.
  intros Ht Hj. cbv zeta.
  assert (Et : t = 0 \/ t = 1 \/ t = 2 \/ t = 3 \/ t = 4 \/ t = 5 \/ t = 6
               \/ t = 7) by lia.
  assert (Ej : j = 0 \/ j = 1 \/ j = 2 \/ j = 3) by lia.
  repeat match goal with
         | H : _ \/ _ |- _ => destruct H as [H | H]
         end; subst; split; reflexivity.
Qed.

Lemma fctrl_bits (a b c n : Z) :
  0 <= a <= 1 -> 0 <= b <= 1 -> 0 <= c <= 1 -> 0 <= n <= 15 ->
  let f := u8 (Z.shiftl a 7 + Z.shiftl b 6 + Z.shiftl c 5 + Z.land n 0x0F) in
  Z.land f 0x0F = n
  /\ Z.testbit f 7 = (a =? 1) /\ Z.testbit f 6 = (b =? 1)
  /\ Z.testbit f 5 = (c =? 1).
Proof.
  intros Ha Hb Hc Hn. cbv zeta.
  assert (En : Z.land n 0x0F = n).
  { change 0x0F with (Z.ones 4). rewrite Z.land_ones by lia.
    apply Z.mod_small. lia. }
  rewrite En.
  rewrite !Z.shiftl_mul_pow2 by lia.
  assert (Ea : a = 0 \/ a = 1) by lia.
  assert (Eb : b = 0 \/ b = 1) by lia.
  assert (Ec : c = 0 \/ c = 1) by lia.
  assert (Ek : exists k, n = Z.of_nat k /\ (k < 16)%nat)
    by (exists (Z.to_nat n); lia).
  destruct Ek as (k & -> & Hk).
  clear Ha Hb Hc Hn En.
  destruct Ea; destruct Eb; destruct Ec; subst a b c;
    do 16 (destruct k as [| k]; [repeat split; reflexivity |]); lia.
Qed.

Lemma byte_of_word (d k : Z) :
  0 <= d -> 0 <= k ->
  u8 (Z.shiftr (Z.land d (Z.shiftl 0xFF k)) k) = (d / 2 ^ k) mod 256.
Proof.
  intros Hd Hk. rewrite Z.shiftr_land, Z.shiftr_shiftl_l by lia.
  rewrite Z.sub_diag, Z.shiftl_0_r.
  change 0xFF with (Z.ones 8). rewrite Z.land_ones by lia.
  rewrite Z.shiftr_div_pow2 by lia.
  unfold u8. change (2 ^ 8) with 256. apply Z.mod_mod. lia.
Qed.

Lemma low_byte_of_word (d : Z) : 0 <= d -> u8 (Z.land d 0xFF) = d mod 256.
Proof.
  intros Hd. change 0xFF with (Z.ones 8). rewrite Z.land_ones by lia.
  unfold u8. change (2 ^ 8) with 256. apply Z.mod_mod. lia.
Qed.

Lemma le32_split (d : Z) :
  0 <= d < 2 ^ 32 ->
  d mod 256 + (d / 2 ^ 8) mod 256 * 2 ^ 8 + (d / 2 ^ 16) mod 256 * 2 ^ 16
  + (d / 2 ^ 24) mod 256 * 2 ^ 24 = d.
Proof.
  intros H.
  change (2 ^ 16) with (2 ^ 8 * 2 ^ 8).
  change (2 ^ 24) with (2 ^ 8 * 2 ^ 8 * 2 ^ 8).
  rewrite <- !Z.div_div by lia.
  change (2 ^ 8) with 256 in *. change (2 ^ 32) with 4294967296 in H.
  pose proof (Z.div_mod d 256 ltac:(lia)) as E1.
  pose proof (Z.mod_pos_bound d 256 ltac:(lia)) as B1.
  set (q1 := d / 256) in *.
  pose proof (Z.div_mod q1 256 ltac:(lia)) as E2.
  pose proof (Z.mod_pos_bound q1 256 ltac:(lia)) as B2.
  set (q2 := q1 / 256) in *.
  pose proof (Z.div_mod q2 256 ltac:(lia)) as E3.
  pose proof (Z.mod_pos_bound q2 256 ltac:(lia)) as B3.
  set (q3 := q2 / 256) in *.
  assert (H3 : q3 mod 256 = q3) by (apply Z.mod_small; lia).
  rewrite H3.
  generalize dependent (d mod 256). generalize dependent (q1 mod 256).
  generalize dependent (q2 mod 256). intros. lia.
Qed.
Lemma le16_split (d : Z) :
  0 <= d -> d mod 256 + (d / 2 ^ 8) mod 256 * 2 ^ 8 = d mod 2 ^ 16.
Proof.
  intros H. change (2 ^ 8) with 256. change (2 ^ 16) with 65536.
  pose proof (Z.div_mod d 256 ltac:(lia)) as E1.
  pose proof (Z.mod_pos_bound d 256 ltac:(lia)) as B1.
  set (q1 := d / 256) in *.
  pose proof (Z.div_mod q1 256 ltac:(lia)) as E2.
  pose proof (Z.mod_pos_bound q1 256 ltac:(lia)) as B2.
  apply (Z.mod_unique d 65536 (q1 / 256)); [left |]; lia.
Qed.

Ltac buf_len :=
  repeat first [rewrite buf_set_length | rewrite memcpy_length].

(** Reads of a cell through writes to other cells. *)
Ltac buf_skip :=
  repeat first
    [ rewrite buf_get_set_other by lia
    | rewrite buf_get_memcpy_below by lia
    | rewrite buf_get_memcpy_above by lia ].

Ltac buf_hit := rewrite buf_get_set_same by (buf_len; lia).

(** X18.  The frame that [lr1_stack_mac_tx_frame_build] lays out reads back as
    the fields it was built from, with the expressions of the decoder:
    message type and major version in byte 0, the DevAddr in little-endian
    order in bytes 1 to 4, FCtrl in byte 5 with the ADR bit, the ADR
    acknowledgement request, the ACK bit and the length of FOpts, the low 16
    bits of the up counter in bytes 6 and 7, FOpts from byte 8, FPort after
    FOpts.  The bytes after FPort, where the application payload lies, are
    not touched; the ACK bit of the device is consumed. *)
Theorem tx_frame_build_layout {R P : Type} (m : lr1_stack_mac_t R P) :
  255 <= Z.of_nat (length (tx_payload m)) ->
  0 <= tx_mtype m <= 7 -> 0 <= tx_major_bits m <= 3 ->
  0 <= dev_addr m < 2 ^ 32 -> 0 <= fcnt_up m < 2 ^ 32 ->
  0 <= tx_fopts_current_length m <= 15 ->
  0 <= adr_enable m <= 1 -> 0 <= adr_ack_req m <= 1 ->
  0 <= tx_ack_bit m <= 1 ->
  let r := lr1_stack_mac_tx_frame_build m in
  let p := tx_payload r in
  let n := tx_fopts_current_length m in
  Z.shiftr (buf_get p 0) 5 = tx_mtype m
  /\ Z.land (buf_get p 0) 0x3 = tx_major_bits m
  /\ le32_read p 1 = dev_addr m
  /\ Z.land (buf_get p 5) 0x0F = n
  /\ Z.testbit (buf_get p 5) 7 = (adr_enable m =? 1)
  /\ Z.testbit (buf_get p 5) 6 = (adr_ack_req m =? 1)
  /\ Z.testbit (buf_get p 5) 5 = (tx_ack_bit m =? 1)
  /\ buf_get p 6 + Z.shiftl (buf_get p 7) 8 = fcnt_up m mod 2 ^ 16
  /\ (forall i, 0 <= i < n ->
        buf_get p (8 + i) = buf_get (tx_fopts_current_data m) i)
  /\ buf_get p (8 + n) = tx_fport m
  /\ (forall i, 8 + n < i -> buf_get p i = buf_get (tx_payload m) i)
  /\ length p = length (tx_payload m)
  /\ tx_payload_size r = u8 (app_payload_size m + 9 + n)
  /\ tx_ack_bit r = 0.
Proof.
  intros Hlen Ht Hj Hd Hf Hn Ha Hb Hc. cbv zeta.
  destruct (tx_frame_build_payload m) as (EP & _ & ES & EA & _).
  rewrite EP, ES, EA. clear EP ES EA.
  destruct (mhdr_bits (tx_mtype m) (tx_major_bits m) Ht Hj) as [M1 M2].
  destruct (fctrl_bits (adr_enable m) (adr_ack_req m) (tx_ack_bit m)
              (tx_fopts_current_length m) Ha Hb Hc Hn) as (F1 & F2 & F3 & F4).
  set (n := tx_fopts_current_length m) in *.
  set (b0 := u8 (Z.shiftl (Z.land (tx_mtype m) 7) 5
                 + Z.land (tx_major_bits m) 3)) in *.
  set (fc := u8 (Z.shiftl (adr_enable m) 7 + Z.shiftl (adr_ack_req m) 6
                 + Z.shiftl (tx_ack_bit m) 5 + Z.land n 15)) in *.
  pose proof (low_byte_of_word (dev_addr m) ltac:(lia)) as D0.
  pose proof (byte_of_word (dev_addr m) 8 ltac:(lia) ltac:(lia)) as D1.
  pose proof (byte_of_word (dev_addr m) 16 ltac:(lia) ltac:(lia)) as D2.
  pose proof (byte_of_word (dev_addr m) 24 ltac:(lia) ltac:(lia)) as D3.
  pose proof (low_byte_of_word (fcnt_up m) ltac:(lia)) as C0.
  pose proof (byte_of_word (fcnt_up m) 8 ltac:(lia) ltac:(lia)) as C1.
  change (Z.shiftl 255 8) with 0xFF00 in D1, C1.
  change (Z.shiftl 255 16) with 0xFF0000 in D2.
  change (Z.shiftl 255 24) with 0xFF000000 in D3.
  rewrite D0, D1, D2, D3, C0, C1. clear D0 D1 D2 D3 C0 C1.
  set (d := dev_addr m) in *. set (f := fcnt_up m) in *.
  set (p0 := tx_payload m) in *.
  split.
  { buf_skip. buf_hit. exact M1. }
  split.
  { buf_skip. buf_hit. exact M2. }
  split.
  { unfold le32_read. change (1 + 1) with 2. change (1 + 2) with 3.
    change (1 + 3) with 4.
    replace (buf_get _ 1) with (d mod 256) by (buf_skip; buf_hit; reflexivity).
    replace (buf_get _ 2) with ((d / 2 ^ 8) mod 256)
      by (buf_skip; buf_hit; reflexivity).
    replace (buf_get _ 3) with ((d / 2 ^ 16) mod 256)
      by (buf_skip; buf_hit; reflexivity).
    replace (buf_get _ 4) with ((d / 2 ^ 24) mod 256)
      by (buf_skip; buf_hit; reflexivity).
    rewrite !Z.shiftl_mul_pow2 by lia. apply le32_split. exact Hd. }
  split.
  { buf_skip. buf_hit. exact F1. }
  split.
  { buf_skip. buf_hit. exact F2. }
  split.
  { buf_skip. buf_hit. exact F3. }
  split.
  { buf_skip. buf_hit. exact F4. }
  split.
  { replace (buf_get _ 6) with (f mod 256) by (buf_skip; buf_hit; reflexivity).
    replace (buf_get _ 7) with ((f / 2 ^ 8) mod 256)
      by (buf_skip; buf_hit; reflexivity).
    rewrite Z.shiftl_mul_pow2 by lia. apply le16_split. lia. }
  split.
  { intros i Hi. rewrite buf_get_set_other by lia.
    rewrite buf_get_memcpy_in by (buf_len; lia). f_equal. lia. }
  split.
  { buf_hit. reflexivity. }
  split.
  { intros i Hi. buf_skip. reflexivity. }
  split.
  { buf_len. reflexivity. }
  split; reflexivity.
Qed.

(** The uplink of [ScenarioRx.mac_uplink]: the header reads 40 DA 1B 01 26
    A3 45 23, then the three bytes of FOpts and FPort 1. *)
Lemma tx_frame_build_layout_witness :
  let m := ScenarioRx.mac_uplink in
  let p := tx_payload (lr1_stack_mac_tx_frame_build m) in
  255 <= Z.of_nat (length (tx_payload m))
  /\ 0 <= tx_mtype m <= 7 /\ 0 <= tx_major_bits m <= 3
  /\ 0 <= dev_addr m < 2 ^ 32 /\ 0 <= fcnt_up m < 2 ^ 32
  /\ 0 <= tx_fopts_current_length m <= 15
  /\ 0 <= adr_enable m <= 1 /\ 0 <= adr_ack_req m <= 1
  /\ 0 <= tx_ack_bit m <= 1
  /\ le32_read p 1 = 0x26011BDA
  /\ buf_get p 6 + Z.shiftl (buf_get p 7) 8 = 0x2345
  /\ Z.testbit (buf_get p 5) 5 = true
  /\ buf_get p 11 = 1
  /\ frame_bytes p 12
     = [0x40; 0xDA; 0x1B; 0x01; 0x26; 0xA3; 0x45; 0x23; 0x06; 0xFE; 0x07; 0x01].
Proof.
  cbv zeta.
  set (m := ScenarioRx.mac_uplink).
  assert (H1 : 255 <= Z.of_nat (length (tx_payload m)))
    by (vm_compute; discriminate).
  assert (H2 : 0 <= tx_mtype m <= 7) by (vm_compute; split; discriminate).
  assert (H3 : 0 <= tx_major_bits m <= 3) by (vm_compute; split; discriminate).
  assert (H4 : 0 <= dev_addr m < 2 ^ 32)
    by (vm_compute; split; [discriminate | reflexivity]).
  assert (H5 : 0 <= fcnt_up m < 2 ^ 32)
    by (vm_compute; split; [discriminate | reflexivity]).
  assert (H6 : 0 <= tx_fopts_current_length m <= 15)
    by (vm_compute; split; discriminate).
  assert (H7 : 0 <= adr_enable m <= 1) by (vm_compute; split; discriminate).
  assert (H8 : 0 <= adr_ack_req m <= 1) by (vm_compute; split; discriminate).
  assert (H9 : 0 <= tx_ack_bit m <= 1) by (vm_compute; split; discriminate).
  repeat (split; [assumption |]).
  destruct (tx_frame_build_layout m H1 H2 H3 H4 H5 H6 H7 H8 H9)
    as (_ & _ & E1 & _ & _ & _ & E2 & E3 & _ & E4 & _).
  split; [rewrite E1; reflexivity |].
  split; [rewrite E3; reflexivity |].
  split; [rewrite E2; reflexivity |].
  split; [exact E4 |].
  vm_compute. reflexivity.
Defined.

Lemma firstn_upd_nth (l : list Z) :
  forall (n k : nat) (v : Z),
    (n <= k)%nat -> firstn n (upd_nth k v l) = firstn n l.
Proof.
  induction l as [| h t IH]; intros n k v H; [destruct k; reflexivity |].
  destruct k as [| k].
  - assert (n = O) by lia. subst n. reflexivity.
  - destruct n as [| n]; [reflexivity |]. cbn. f_equal. apply IH. lia.
Qed.

Lemma frame_bytes_buf_set (l : list Z) (i v n : Z) :
  n <= i -> frame_bytes (buf_set l i v) n = frame_bytes l n.
Proof.
  intros H. unfold frame_bytes, buf_set.
  destruct (i <? 0) eqn:E; [reflexivity |].
  apply firstn_upd_nth. lia.
Qed.

Lemma frame_bytes_memcpy_from (cnt : nat) :
  forall (dst : list Z) (off : Z) (src : list Z) (k n : Z),
    0 <= k -> n <= off ->
    frame_bytes (memcpy_from dst off src k cnt) n = frame_bytes dst n.
Proof.
  induction cnt as [| c IH]; intros dst off src k n Hk H; cbn [memcpy_from].
  - reflexivity.
  - rewrite IH by lia. apply frame_bytes_buf_set. lia.
Qed.

(** X19.  [lr1_stack_mac_tx_frame_encrypt] leaves the header in clear, replaces
    the application payload by its encryption under the network session key
    on port 0 and under the application session key on every other port,
    and appends four bytes: the MIC, computed under the network session key
    over the frame as it is sent, header and encrypted payload.  The size
    grows by 4. *)
Theorem tx_frame_encrypt_layout {R P : Type} (cr : crypto_ops)
  (m : lr1_stack_mac_t R P) :
  0 <= tx_fopts_current_length m -> 0 <= app_payload_size m ->
  tx_payload_size m
  = FHDROFFSET + tx_fopts_current_length m + app_payload_size m ->
  tx_payload_size m + 4 <= Z.of_nat (length (tx_payload m)) ->
  tx_payload_size m + 4 <= 255 ->
  let r := lr1_stack_mac_tx_frame_encrypt cr m in
  let p := tx_payload r in
  let off := FHDROFFSET + tx_fopts_current_length m in
  let enc :=
    lora_crypto_payload_encrypt cr
      (buf_sub (tx_payload m) off (app_payload_size m))
      (if tx_fport m =? PORTNWK then nwk_skey m else app_skey m)
      (dev_addr m) UP_LINK (fcnt_up m) in
  let mic :=
    lora_crypto_add_mic cr (frame_bytes p (tx_payload_size m))
      (nwk_skey m) (dev_addr m) UP_LINK (fcnt_up m) in
  (forall i, i < off -> buf_get p i = buf_get (tx_payload m) i)
  /\ (forall i, 0 <= i < app_payload_size m ->
        buf_get p (off + i) = buf_get enc i)
  /\ (forall i, 0 <= i < 4 ->
        buf_get p (tx_payload_size m + i) = buf_get mic i)
  /\ (forall i, tx_payload_size m + 4 <= i ->
        buf_get p i = buf_get (tx_payload m) i)
  /\ tx_payload_size r = tx_payload_size m + 4.
Proof.
  intros Hn Ha Hs Hl H255. cbv zeta.
  unfold lr1_stack_mac_tx_frame_encrypt. cbv zeta. mac_simpl.
  unfold FHDROFFSET in *.
  set (n := tx_fopts_current_length m) in *.
  set (a := app_payload_size m) in *.
  set (s := tx_payload_size m) in *.
  set (enc := lora_crypto_payload_encrypt cr _ _ _ _ _).
  set (p1 := memcpy (tx_payload m) (9 + n) enc a).
  assert (Ef : frame_bytes (memcpy p1 s
                 (lora_crypto_add_mic cr (frame_bytes p1 s) (nwk_skey m)
                    (dev_addr m) UP_LINK (fcnt_up m)) 4) s
               = frame_bytes p1 s).
  { unfold memcpy. apply frame_bytes_memcpy_from; lia. }
  rewrite Ef.
  set (mic := lora_crypto_add_mic cr (frame_bytes p1 s) (nwk_skey m)
                (dev_addr m) UP_LINK (fcnt_up m)).
  assert (L1 : length p1 = length (tx_payload m))
    by (subst p1; apply memcpy_length).
  split.
  { intros i Hi. rewrite buf_get_memcpy_below by lia.
    subst p1. apply buf_get_memcpy_below. exact Hi. }
  split.
  { intros i Hi. rewrite buf_get_memcpy_below by lia.
    subst p1. rewrite buf_get_memcpy_in by lia. f_equal. lia. }
  split.
  { intros i Hi. rewrite buf_get_memcpy_in by lia. f_equal. lia. }
  split.
  { intros i Hi. rewrite buf_get_memcpy_above by lia.
    subst p1. apply buf_get_memcpy_above; lia. }
  apply u8_small. lia.
Qed.

(** The uplink of [ScenarioRx.mac_uplink] once built: 14 bytes, then the
    four bytes of the checksum that stands for the MIC. *)
Lemma tx_frame_encrypt_layout_witness :
  let m := lr1_stack_mac_tx_frame_build ScenarioRx.mac_uplink in
  let r := lr1_stack_mac_tx_frame_encrypt Ref.crypto m in
  0 <= tx_fopts_current_length m /\ 0 <= app_payload_size m
  /\ tx_payload_size m
     = FHDROFFSET + tx_fopts_current_length m + app_payload_size m
  /\ tx_payload_size m + 4 <= Z.of_nat (length (tx_payload m))
  /\ tx_payload_size m + 4 <= 255
  /\ tx_payload_size r = 18
  /\ buf_get (tx_payload r) 14
     = buf_get (le32_bytes (Ref.checksum (frame_bytes (tx_payload r) 14))) 0.
Proof.
  cbv zeta.
  set (m := lr1_stack_mac_tx_frame_build ScenarioRx.mac_uplink).
  assert (H1 : 0 <= tx_fopts_current_length m) by (vm_compute; discriminate).
  assert (H2 : 0 <= app_payload_size m) by (vm_compute; discriminate).
  assert (H3 : tx_payload_size m
               = FHDROFFSET + tx_fopts_current_length m + app_payload_size m)
    by (vm_compute; reflexivity).
  assert (H4 : tx_payload_size m + 4 <= Z.of_nat (length (tx_payload m)))
    by (vm_compute; discriminate).
  assert (H5 : tx_payload_size m + 4 <= 255) by (vm_compute; discriminate).
  repeat (split; [assumption |]).
  destruct (tx_frame_encrypt_layout Ref.crypto m H1 H2 H3 H4 H5)
    as (_ & _ & E1 & _ & E2).
  split; [rewrite E2; reflexivity |].
  exact (E1 0 ltac:(lia)).
Defined.


(** * The periodic update: counters and answers *)

Lemma update_view_inv {R P : Type} (m m' : lr1_stack_mac_t R P) :
  update_view m' = update_view m ->
  fcnt_up m' = fcnt_up m /\ nb_trans_cpt m' = nb_trans_cpt m
  /\ tx_fopts_length m' = tx_fopts_length m
  /\ tx_fopts_lengthsticky m' = tx_fopts_lengthsticky m
  /\ tx_fopts_current_length m' = tx_fopts_current_length m
  /\ tx_fopts_data m' = tx_fopts_data m
  /\ tx_fopts_datasticky m' = tx_fopts_datasticky m
  /\ tx_fopts_current_data m' = tx_fopts_current_data m
  /\ type_of_ans_to_send m' = type_of_ans_to_send m.
Proof.
  unfold update_view. intros H. injection H as E1 E2 E3 E4 E5 E6 E7 E8 E9.
  repeat split; assumption.
Qed.

Section UpdateFrame.
Context {R P : Type} (rl : smtc_real_ops R P) (cr : crypto_ops).
Hypothesis HK : real_keeps_update_view rl.
Local Abbreviation mac := (lr1_stack_mac_t R P).

Lemma uv_let (a : mac) (f : mac -> mac) (v : _) :
  update_view a = v ->
  (forall x, update_view x = v -> update_view (f x) = v) ->
  update_view (let x := a in f x) = v.
Proof. intros Ha Hf. cbv zeta. apply Hf. exact Ha. Qed.

Lemma uv_if (b : bool) (x y : mac) (v : _) :
  update_view x = v -> update_view y = v ->
  update_view (if b then x else y) = v.
Proof. intros Hx Hy. destruct b; assumption. Qed.

Lemma uv_dec (m : mac) :
  update_view (smtc_real_dr_decrement rl m) = update_view m.
Proof. apply (HK m). Qed.

Lemma uv_next (m : mac) :
  update_view (smtc_real_next_dr_get rl m) = update_view m.
Proof. apply (HK m). Qed.

Ltac uv_step :=
  lazymatch goal with
  | |- update_view (let x := ?a in @?f x) = ?v =>
      refine (uv_let a f v _ _); [| intros ? ?; lazy beta]
  | |- update_view (if _ then _ else _) = _ => apply uv_if
  | |- update_view (smtc_real_dr_decrement _ _) = _ => rewrite uv_dec
  | |- update_view (smtc_real_next_dr_get _ _) = _ => rewrite uv_next
  | |- update_view ?m = update_view ?m => reflexivity
  | H : update_view ?x = ?v |- update_view ?x = ?v => exact H
  | |- update_view (bsp_mcu_handle_lr1mac_issue ?m) = _ =>
      transitivity (update_view m); [reflexivity |]
  | |- update_view (?s ?v ?m) = _ =>
      transitivity (update_view m); [reflexivity |]
  end.

Lemma update_join_uv (t : Z) (m : mac) :
  update_view (update_join rl t m) = update_view m.
Proof.
  unfold update_join. destruct (join_status m); [| apply uv_next].
  repeat uv_step.
Qed.

Lemma update_adr_uv (m : mac) :
  update_view (update_adr rl m) = update_view m.
Proof. unfold update_adr. repeat uv_step. Qed.

Lemma tx_frame_build_uv (m : mac) :
  update_view (lr1_stack_mac_tx_frame_build m) = update_view m.
Proof. reflexivity. Qed.

Lemma tx_frame_encrypt_uv (m : mac) :
  update_view (lr1_stack_mac_tx_frame_encrypt cr m) = update_view m.
Proof. reflexivity. Qed.

Lemma update_send_uv (m : mac) :
  update_view (update_send rl cr m) = update_view m.
Proof.
  unfold update_send. destruct (type_of_ans_to_send m) eqn:E;
    try reflexivity.
  unfold update_nwk_frame. cbv zeta.
  rewrite tx_frame_encrypt_uv, tx_frame_build_uv.
  match goal with
  | |- context [if ?c then _ else _] => destruct c
  end; reflexivity.
Qed.

(** The view before the retransmission counter is updated. *)
Lemma update_head_uv (t : Z) (m : mac) :
  update_view
    (update_adr rl
       (update_join rl t
          (set_type_of_ans_to_send NOFRAME_TOSEND
             (set_adr_ack_delay
                (smtc_real_adr_ack_delay_get rl
                   (set_adr_ack_limit (smtc_real_adr_ack_limit_get rl m) m))
                (set_adr_ack_limit (smtc_real_adr_ack_limit_get rl m) m)))))
  = update_view (set_type_of_ans_to_send NOFRAME_TOSEND m).
Proof. rewrite update_adr_uv, update_join_uv. reflexivity. Qed.

Lemma update_retrans_fields (m : mac) :
  let r := update_retrans m in
  fcnt_up r = (if nb_trans_cpt m <=? 1 then u32 (fcnt_up m + 1) else fcnt_up m)
  /\ nb_trans_cpt r = (if nb_trans_cpt m <=? 1 then 1 else nb_trans_cpt m - 1)
  /\ type_of_ans_to_send r
     = (if nb_trans_cpt m <=? 1 then type_of_ans_to_send m
        else USRFRAME_TORETRANSMIT)
  /\ tx_fopts_length r = tx_fopts_length m
  /\ tx_fopts_lengthsticky r = tx_fopts_lengthsticky m
  /\ tx_fopts_current_length r = tx_fopts_current_length m
  /\ tx_fopts_data r = tx_fopts_data m
  /\ tx_fopts_datasticky r = tx_fopts_datasticky m
  /\ tx_fopts_current_data r = tx_fopts_current_data m.
Proof.
  cbv zeta. unfold update_retrans.
  destruct (nb_trans_cpt m <=? 1); repeat split; reflexivity.
Qed.

Lemma update_fopts_fields (m : mac) :
  let r := update_fopts m in
  let over := tx_fopts_length m + tx_fopts_lengthsticky m >? 15 in
  fcnt_up r = fcnt_up m /\ nb_trans_cpt r = nb_trans_cpt m
  /\ tx_fopts_length r = 0
  /\ tx_fopts_lengthsticky r = tx_fopts_lengthsticky m
  /\ tx_fopts_data r = tx_fopts_data m
  /\ tx_fopts_datasticky r = tx_fopts_datasticky m
  /\ type_of_ans_to_send r
     = (if over then NWKFRAME_TOSEND else type_of_ans_to_send m)
  /\ tx_fopts_current_length r
     = (if over then tx_fopts_current_length m
        else u8 (tx_fopts_lengthsticky m + tx_fopts_length m))
  /\ tx_fopts_current_data r
     = (if over then tx_fopts_current_data m
        else memcpy
               (memcpy (tx_fopts_current_data m) 0 (tx_fopts_datasticky m)
                  (tx_fopts_lengthsticky m))
               (tx_fopts_lengthsticky m) (tx_fopts_data m)
               (tx_fopts_length m)).
Proof.
  cbv zeta. unfold update_fopts.
  destruct (tx_fopts_length m + tx_fopts_lengthsticky m >? 15);
    repeat split; reflexivity.
Qed.
End UpdateFrame.


Lemma ref_real_keeps_update_view : real_keeps_update_view Ref.region.
Proof.
  intros m. cbn [smtc_real_next_dr_get smtc_real_dr_decrement Ref.region].
  unfold Ref.next_dr_get, Ref.dr_decrement.
  repeat split;
    repeat match goal with
           | |- context [if ?c then _ else _] => destruct c
           end; reflexivity.
Qed.



(** * The parser of MAC commands returns *)

Section ParseCursor.
Context {R P : Type} (rl : smtc_real_ops R P) (rpo : rp_ops P) (bsp : bsp_ops).
Hypothesis HK : real_keeps_parse_view rl.
Local Abbreviation mac := (lr1_stack_mac_t R P).

Lemma cv_of_pv (a b : mac) :
  parse_view a = parse_view b -> cursor_view a = cursor_view b.
Proof.
  unfold parse_view, cursor_view. intros H. injection H as _ E1 E2 _ _.
  rewrite E1, E2. reflexivity.
Qed.

Lemma cv_mask_build (m : mac) (a b : Z) :
  cursor_view (snd (smtc_real_channel_mask_build rl m a b)) = cursor_view m.
Proof. apply cv_of_pv. apply (HK m a b CHANNEL_ENABLED). Qed.

Lemma cv_mask_set (m : mac) :
  cursor_view (smtc_real_channel_mask_set rl m) = cursor_view m.
Proof. apply cv_of_pv. apply (HK m 0 0 CHANNEL_ENABLED). Qed.

Lemma cv_power_set (m : mac) (a : Z) :
  cursor_view (smtc_real_power_set rl m a) = cursor_view m.
Proof. apply cv_of_pv. apply (HK m a 0 CHANNEL_ENABLED). Qed.

Lemma cv_tx_freq (m : mac) (a b : Z) :
  cursor_view (smtc_real_tx_frequency_channel_set rl m a b) = cursor_view m.
Proof. apply cv_of_pv. apply (HK m a b CHANNEL_ENABLED). Qed.

Lemma cv_rx1_freq (m : mac) (a b : Z) :
  cursor_view (smtc_real_rx1_frequency_channel_set rl m a b) = cursor_view m.
Proof. apply cv_of_pv. apply (HK m a b CHANNEL_ENABLED). Qed.

Lemma cv_min_dr (m : mac) (a b : Z) :
  cursor_view (smtc_real_min_dr_channel_set rl m a b) = cursor_view m.
Proof. apply cv_of_pv. apply (HK m a b CHANNEL_ENABLED). Qed.

Lemma cv_max_dr (m : mac) (a b : Z) :
  cursor_view (smtc_real_max_dr_channel_set rl m a b) = cursor_view m.
Proof. apply cv_of_pv. apply (HK m a b CHANNEL_ENABLED). Qed.

Lemma cv_enabled (m : mac) (e : channel_enabled_t) (a : Z) :
  cursor_view (smtc_real_channel_enabled_set rl m e a) = cursor_view m.
Proof. apply cv_of_pv. apply (HK m a 0 e). Qed.

Lemma cv_let (a : mac) (f : mac -> mac) (v w : Z * Z) :
  cursor_view a = v ->
  (forall x, cursor_view x = v -> cursor_view (f x) = w) ->
  cursor_view (let x := a in f x) = w.
Proof. intros Ha Hf. cbv zeta. apply Hf. exact Ha. Qed.

Lemma cv_letA {A : Type} (a : A) (f : A -> mac) (w : Z * Z) :
  (forall x, cursor_view (f x) = w) -> cursor_view (let x := a in f x) = w.
Proof. intros Hf. cbv zeta. apply Hf. Qed.

Lemma cv_if (b : bool) (x y : mac) (v : Z * Z) :
  cursor_view x = v -> cursor_view y = v ->
  cursor_view (if b then x else y) = v.
Proof. intros Hx Hy. destruct b; assumption. Qed.

Lemma cv_final (x m : mac) (k : Z) :
  cursor_view x = cursor_view m ->
  cursor_view (set_nwk_payload_index (u8 (nwk_payload_index x + k)) x)
  = (nwk_payload_size m, u8 (nwk_payload_index m + k)).
Proof.
  unfold cursor_view. intros H. injection H as E1 E2.
  change (nwk_payload_size (set_nwk_payload_index
                              (u8 (nwk_payload_index x + k)) x))
    with (nwk_payload_size x).
  change (nwk_payload_index (set_nwk_payload_index
                               (u8 (nwk_payload_index x + k)) x))
    with (u8 (nwk_payload_index x + k)).
  rewrite E1, E2. reflexivity.
Qed.

(** A stage that leaves the cursor and the size alone. *)
Ltac cv_pre :=
  repeat lazymatch goal with
    | |- cursor_view (let x := ?a in @?f x) = ?v =>
        first [ refine (cv_let a f v v _ _); [| intros ? ?; lazy beta]
              | apply cv_letA; intros ?; lazy beta ]
    | |- cursor_view (if _ then _ else _) = _ => apply cv_if
    | |- cursor_view (smtc_real_channel_mask_set _ _) = _ =>
        rewrite cv_mask_set
    | |- cursor_view (smtc_real_power_set _ _ _) = _ => rewrite cv_power_set
    | |- cursor_view (smtc_real_tx_frequency_channel_set _ _ _ _) = _ =>
        rewrite cv_tx_freq
    | |- cursor_view (smtc_real_rx1_frequency_channel_set _ _ _ _) = _ =>
        rewrite cv_rx1_freq
    | |- cursor_view (smtc_real_min_dr_channel_set _ _ _ _) = _ =>
        rewrite cv_min_dr
    | |- cursor_view (smtc_real_max_dr_channel_set _ _ _ _) = _ =>
        rewrite cv_max_dr
    | |- cursor_view (smtc_real_channel_enabled_set _ _ _ _) = _ =>
        rewrite cv_enabled
    | |- cursor_view ?m = cursor_view ?m => reflexivity
    | H : cursor_view ?x = ?v |- cursor_view ?x = ?v => exact H
    | |- cursor_view (?s ?v ?m) = _ =>
        transitivity (cursor_view m); [reflexivity |]
    end.

(** A parser: stages, then the move of the cursor by [k]. *)
Ltac cv_parser m0 :=
  repeat lazymatch goal with
    | |- cursor_view (let x := ?a in @?f x) = ?w =>
        first [ refine (cv_let a f (cursor_view m0) w _ _);
                [cv_pre | intros ? ?; lazy beta]
              | apply cv_letA; intros ?; lazy beta ]
    | |- cursor_view (set_nwk_payload_index (u8 (nwk_payload_index ?x + ?k)) ?x)
         = _ =>
        apply cv_final; cv_pre
    end.

Lemma link_check_parser_cv (m : mac) :
  cursor_view (link_check_parser m)
  = (nwk_payload_size m, u8 (nwk_payload_index m + LINK_CHECK_ANS_SIZE)).
Proof. unfold link_check_parser. cv_parser m. Qed.

Lemma duty_cycle_parser_cv (m : mac) :
  cursor_view (duty_cycle_parser m)
  = (nwk_payload_size m, u8 (nwk_payload_index m + DUTY_CYCLE_REQ_SIZE)).
Proof. unfold duty_cycle_parser. cv_parser m. Qed.

Lemma rx_param_setup_parser_cv (m : mac) :
  cursor_view (rx_param_setup_parser rl m)
  = (nwk_payload_size m, u8 (nwk_payload_index m + RXPARRAM_SETUP_REQ_SIZE)).
Proof. unfold rx_param_setup_parser. cv_parser m. Qed.

Lemma dev_status_parser_cv (m : mac) :
  cursor_view (dev_status_parser rpo bsp m)
  = (nwk_payload_size m, u8 (nwk_payload_index m + DEV_STATUS_REQ_SIZE)).
Proof.
  unfold dev_status_parser. destruct (rp_hook_get_id rpo (rp m)) as [hs id].
  cv_parser m.
Qed.

Lemma new_channel_parser_cv (m : mac) :
  cursor_view (new_channel_parser rl m)
  = (nwk_payload_size m, u8 (nwk_payload_index m + NEW_CHANNEL_REQ_SIZE)).
Proof. unfold new_channel_parser. cv_parser m. Qed.

Lemma rx_timing_setup_parser_cv (m : mac) :
  cursor_view (rx_timing_setup_parser m)
  = (nwk_payload_size m, u8 (nwk_payload_index m + RXTIMING_SETUP_REQ_SIZE)).
Proof. unfold rx_timing_setup_parser. cv_parser m. Qed.

Lemma tx_param_setup_parser_cv (m : mac) :
  cursor_view (tx_param_setup_parser rl m)
  = (nwk_payload_size m, u8 (nwk_payload_index m + TXPARAM_SETUP_REQ_SIZE)).
Proof. unfold tx_param_setup_parser. cv_parser m. Qed.

Lemma dl_channel_parser_cv (m : mac) :
  cursor_view (dl_channel_parser rl m)
  = (nwk_payload_size m, u8 (nwk_payload_index m + DL_CHANNEL_REQ_SIZE)).
Proof. unfold dl_channel_parser. cv_parser m. Qed.

Lemma link_adr_mask_loop_cv (n : nat) :
  forall (i : Z) (m : mac) (sc : status_channel_t) (sa : Z),
    cursor_view (fst (fst (link_adr_mask_loop rl n i m sc sa)))
    = cursor_view m.
Proof.
  induction n as [| k IH]; intros i m sc sa; [reflexivity |].
  cbn [link_adr_mask_loop]. cbv zeta.
  pose proof (cv_mask_build m
                (Z.shiftr (Z.land (cmd_byte m (i * LINK_ADR_REQ_SIZE + 4)) 0x70) 4)
                (u16 (cmd_byte m (i * LINK_ADR_REQ_SIZE + 2)
                      + Z.shiftl (cmd_byte m (i * LINK_ADR_REQ_SIZE + 3)) 8)))
    as Hb.
  destruct (smtc_real_channel_mask_build rl m _ _) as [sc1 m1].
  cbn [snd] in Hb. rewrite IH. exact Hb.
Qed.

Lemma link_adr_parser_cv (m : mac) (nb : Z) :
  cursor_view (link_adr_parser rl m nb)
  = (nwk_payload_size m, u8 (nwk_payload_index m + nb * LINK_ADR_REQ_SIZE)).
Proof.
  unfold link_adr_parser.
  pose proof (link_adr_mask_loop_cv (Z.to_nat nb) 0 m OKCHANNEL 0x7) as Hl.
  destruct (link_adr_mask_loop rl (Z.to_nat nb) 0 m OKCHANNEL 0x7)
    as [[m1 sc] sa].
  cbn [fst] in Hl.
  match goal with
  | |- cursor_view (set_tx_fopts_length ?v ?y) = _ =>
      transitivity (cursor_view y); [reflexivity |]
  end.
  apply cv_final. cv_pre.
Qed.

Lemma cursor_view_inv (m' : mac) (s i : Z) :
  cursor_view m' = (s, i) ->
  nwk_payload_size m' = s /\ nwk_payload_index m' = i.
Proof.
  unfold cursor_view. intros H. injection H as E1 E2. split; assumption.
Qed.

(** The number of LinkADRReq blocks: every counted block starts inside the
    command stream. *)
Lemma count_link_adr_req_bounds (fuel : nat) (m : mac) :
  nwk_payload_size m <= 250 -> 0 <= nwk_payload_index m ->
  forall nb,
    0 <= nb ->
    (nb = 0 \/ nwk_payload_index m + (nb - 1) * LINK_ADR_REQ_SIZE
               < nwk_payload_size m) ->
    let r := count_link_adr_req fuel m nb in
    nb <= r
    /\ (r = 0 \/ nwk_payload_index m + (r - 1) * LINK_ADR_REQ_SIZE
                 < nwk_payload_size m).
Proof.
  intros Hs Hi. unfold LINK_ADR_REQ_SIZE.
  induction fuel as [| k IH]; intros nb Hn Hb; cbv zeta.
  - cbn [count_link_adr_req]. split; [lia | exact Hb].
  - cbn [count_link_adr_req]. unfold LINK_ADR_REQ_SIZE.
    destruct ((cmd_byte m (nb * 5) =? LINK_ADR_REQ)
              && (nwk_payload_index m + nb * 5 <? nwk_payload_size m)) eqn:E.
    + apply andb_prop in E. destruct E as [_ E].
      assert (Hlt : nwk_payload_index m + nb * 5 < nwk_payload_size m) by lia.
      rewrite (u8_small (nb + 1)) by lia.
      destruct (IH (nb + 1) ltac:(lia)
                  ltac:(right; replace (nb + 1 - 1) with nb by lia; exact Hlt))
        as [I1 I2].
      split; [lia | exact I2].
    + split; [lia | exact Hb].
Qed.

Lemma count_link_adr_req_step (k : nat) (m : mac) (nb : Z) :
  count_link_adr_req (S k) m nb
  = if (cmd_byte m (nb * LINK_ADR_REQ_SIZE) =? LINK_ADR_REQ)
       && (nwk_payload_index m + nb * LINK_ADR_REQ_SIZE <? nwk_payload_size m)
    then count_link_adr_req k m (u8 (nb + 1))
    else nb.
Proof. reflexivity. Qed.

Lemma count_link_adr_req_first (m : mac) :
  nwk_payload_size m <= 250 ->
  0 <= nwk_payload_index m < nwk_payload_size m ->
  buf_get (nwk_payload m) (nwk_payload_index m) = LINK_ADR_REQ ->
  let r := count_link_adr_req 256 m 0 in
  1 <= r
  /\ nwk_payload_index m + (r - 1) * LINK_ADR_REQ_SIZE < nwk_payload_size m.
Proof.
  intros Hs Hi Hc. cbv zeta.
  rewrite (count_link_adr_req_step 255 m 0).
  unfold cmd_byte. change (0 * LINK_ADR_REQ_SIZE) with 0.
  rewrite Z.add_0_r, Hc, Z.eqb_refl.
  assert (E : (nwk_payload_index m <? nwk_payload_size m) = true) by lia.
  rewrite E. cbn [andb]. change (u8 (0 + 1)) with 1.
  destruct (count_link_adr_req_bounds 255 m Hs ltac:(lia) 1 ltac:(lia)
              ltac:(right; unfold LINK_ADR_REQ_SIZE; lia)) as [I1 I2].
  split; [exact I1 |]. destruct I2 as [I2 | I2]; [lia | exact I2].
Qed.

(** One pass through the loop body: the cursor moves forward inside the
    8-bit range, or the stream is closed. *)
Lemma cmd_dispatch_progress (m : mac) :
  nwk_payload_size m <= 250 ->
  0 <= nwk_payload_index m < nwk_payload_size m ->
  let m' := cmd_dispatch rl rpo bsp
              (buf_get (nwk_payload m) (nwk_payload_index m)) m in
  (nwk_payload_size m' = nwk_payload_size m
   /\ nwk_payload_index m < nwk_payload_index m' <= 255)
  \/ (nwk_payload_size m' = 0 /\ nwk_payload_index m' = nwk_payload_index m).
Proof.
  intros Hs Hi. cbv zeta. unfold cmd_dispatch.
  set (c := buf_get (nwk_payload m) (nwk_payload_index m)).
  destruct (c =? LINK_CHECK_ANS).
  { destruct (cursor_view_inv _ _ _ (link_check_parser_cv m)) as [E1 E2].
    left. rewrite E1, E2. unfold LINK_CHECK_ANS_SIZE.
    rewrite u8_small by lia. lia. }
  destruct (c =? LINK_ADR_REQ) eqn:Ec.
  { apply Z.eqb_eq in Ec.
    destruct (count_link_adr_req_first m Hs Hi Ec) as [N1 N2].
    destruct (cursor_view_inv _ _ _
                (link_adr_parser_cv m (count_link_adr_req 256 m 0)))
      as [E1 E2].
    left. rewrite E1, E2. unfold LINK_ADR_REQ_SIZE in *.
    rewrite u8_small by lia. lia. }
  destruct (c =? DUTY_CYCLE_REQ).
  { destruct (cursor_view_inv _ _ _ (duty_cycle_parser_cv m)) as [E1 E2].
    left. rewrite E1, E2. unfold DUTY_CYCLE_REQ_SIZE.
    rewrite u8_small by lia. lia. }
  destruct (c =? RXPARRAM_SETUP_REQ).
  { destruct (cursor_view_inv _ _ _ (rx_param_setup_parser_cv m)) as [E1 E2].
    left. rewrite E1, E2. unfold RXPARRAM_SETUP_REQ_SIZE.
    rewrite u8_small by lia. lia. }
  destruct (c =? DEV_STATUS_REQ).
  { destruct (cursor_view_inv _ _ _ (dev_status_parser_cv m)) as [E1 E2].
    left. rewrite E1, E2. unfold DEV_STATUS_REQ_SIZE.
    rewrite u8_small by lia. lia. }
  destruct (c =? NEW_CHANNEL_REQ).
  { destruct (cursor_view_inv _ _ _ (new_channel_parser_cv m)) as [E1 E2].
    left. rewrite E1, E2. unfold NEW_CHANNEL_REQ_SIZE.
    rewrite u8_small by lia. lia. }
  destruct (c =? RXTIMING_SETUP_REQ).
  { destruct (cursor_view_inv _ _ _ (rx_timing_setup_parser_cv m)) as [E1 E2].
    left. rewrite E1, E2. unfold RXTIMING_SETUP_REQ_SIZE.
    rewrite u8_small by lia. lia. }
  destruct (c =? TXPARAM_SETUP_REQ).
  { destruct (cursor_view_inv _ _ _ (tx_param_setup_parser_cv m)) as [E1 E2].
    left. rewrite E1, E2. unfold TXPARAM_SETUP_REQ_SIZE.
    rewrite u8_small by lia. lia. }
  destruct (c =? DL_CHANNEL_REQ).
  { destruct (cursor_view_inv _ _ _ (dl_channel_parser_cv m)) as [E1 E2].
    left. rewrite E1, E2. unfold DL_CHANNEL_REQ_SIZE.
    rewrite u8_small by lia. lia. }
  right. split; reflexivity.
Qed.

(** The loop returns within one evaluation of its condition per byte left,
    plus one. *)
Lemma cmd_parse_loop_returns (n : nat) :
  forall m : mac,
    nwk_payload_size m <= 250 -> 0 <= nwk_payload_index m ->
    (Z.to_nat (nwk_payload_size m - nwk_payload_index m) <= n)%nat ->
    exists st m',
      (forall fuel, (n < fuel)%nat ->
         cmd_parse_loop rl rpo bsp fuel m = Some (st, m'))
      /\ (st = OKLORAWAN /\ nwk_payload_size m' <= nwk_payload_index m'
          \/ st = ERRORLORAWAN /\ tx_fopts_length m' > 200).
Proof.
  induction n as [| k IH]; intros m Hs Hi Hm.
  - exists OKLORAWAN, m. split.
    + intros [| f] Hf; [lia |]. cbn [cmd_parse_loop].
      unfold cmd_parse_iteration.
      assert (E : (nwk_payload_size m >? nwk_payload_index m) = false) by lia.
      rewrite E. reflexivity.
    + left. split; [reflexivity | lia].
  - destruct (nwk_payload_size m >? nwk_payload_index m) eqn:E1.
    + destruct (tx_fopts_length m >? 200) eqn:E2.
      * exists ERRORLORAWAN, m. split.
        -- intros [| f] Hf; [lia |]. cbn [cmd_parse_loop].
           unfold cmd_parse_iteration. rewrite E1, E2. reflexivity.
        -- right. split; [reflexivity | lia].
      * pose proof (cmd_dispatch_progress m Hs ltac:(lia)) as Hp.
        cbv zeta in Hp.
        set (m1 := cmd_dispatch rl rpo bsp
                     (buf_get (nwk_payload m) (nwk_payload_index m)) m) in *.
        destruct (IH m1 ltac:(lia) ltac:(lia) ltac:(lia))
          as (st & m' & Hr & Hst).
        exists st, m'. split; [| exact Hst].
        intros [| f] Hf; [lia |]. cbn [cmd_parse_loop].
        unfold cmd_parse_iteration. rewrite E1, E2. fold m1.
        apply Hr. lia.
    + exists OKLORAWAN, m. split.
      * intros [| f] Hf; [lia |]. cbn [cmd_parse_loop].
        unfold cmd_parse_iteration. rewrite E1. reflexivity.
      * left. split; [reflexivity | lia].
Qed.
End ParseCursor.

(** X21.  [lr1_stack_mac_cmd_parse] returns on every command stream of at most
    250 bytes, whatever its bytes: 251 evaluations of the loop condition are
    enough, and more give the same result.  It returns [OKLORAWAN] with the
    cursor at or after the end of the stream (the stream is closed when a
    byte is no command identifier), or [ERRORLORAWAN] with more than 200
    bytes of answers pending. *)
Theorem cmd_parse_returns {R P : Type} (rl : smtc_real_ops R P)
  (rpo : rp_ops P) (bsp : bsp_ops) (m : lr1_stack_mac_t R P) :
  real_keeps_parse_view rl ->
  nwk_payload_size m <= 250 ->
  exists st m',
    (forall fuel, (251 <= fuel)%nat ->
       lr1_stack_mac_cmd_parse rl rpo bsp fuel m = Some (st, m'))
    /\ (st = OKLORAWAN /\ nwk_payload_size m' <= nwk_payload_index m'
        \/ st = ERRORLORAWAN /\ tx_fopts_length m' > 200).
Proof.
  intros HK Hs. unfold lr1_stack_mac_cmd_parse.
  assert (E1 : nwk_payload_size (cmd_parse_init m) = nwk_payload_size m)
    by reflexivity.
  assert (E2 : nwk_payload_index (cmd_parse_init m) = 0) by reflexivity.
  destruct (cmd_parse_loop_returns rl rpo bsp HK 250 (cmd_parse_init m)
              ltac:(lia) ltac:(lia) ltac:(lia)) as (st & m' & Hr & Hst).
  exists st, m'. split; [| exact Hst].
  intros fuel Hf. apply Hr. lia.
Qed.

Lemma ref_real_keeps_parse_view : real_keeps_parse_view Ref.region.
Proof. intros m a b e. repeat split; reflexivity. Qed.

(** The stream of [Scenario.mac_stream_unknown_cid], which holds a byte that
    is no command identifier. *)
Lemma cmd_parse_returns_witness :
  real_keeps_parse_view Ref.region
  /\ nwk_payload_size Scenario.mac_stream_unknown_cid <= 250
  /\ exists st m',
       lr1_stack_mac_cmd_parse Ref.region Ref.planner Ref.board 251
         Scenario.mac_stream_unknown_cid = Some (st, m').
Proof.
  assert (H : nwk_payload_size Scenario.mac_stream_unknown_cid <= 250)
    by (vm_compute; discriminate).
  split; [exact ref_real_keeps_parse_view |]. split; [exact H |].
  destruct (cmd_parse_returns Ref.region Ref.planner Ref.board
              Scenario.mac_stream_unknown_cid ref_real_keeps_parse_view H)
    as (st & m' & Hr & _).
  exists st, m'. apply Hr. apply le_n.
Defined.


(** * The ADR acknowledgement request *)

Section AdrRequest.
Context {R P : Type} (rl : smtc_real_ops R P) (cr : crypto_ops).
Hypothesis HW : real_keeps_adr_window rl.
Local Abbreviation mac := (lr1_stack_mac_t R P).

Lemma req_let (a : mac) (f : mac -> mac) (v : Z) :
  adr_ack_req a = v ->
  (forall x, adr_ack_req x = v -> adr_ack_req (f x) = v) ->
  adr_ack_req (let x := a in f x) = v.
Proof. intros Ha Hf. cbv zeta. apply Hf. exact Ha. Qed.

Lemma req_name (a : mac) (f : mac -> mac) (v : Z) :
  (forall x, x = a -> adr_ack_req (f x) = v) ->
  adr_ack_req (let x := a in f x) = v.
Proof. intros Hf. cbv zeta. apply Hf. reflexivity. Qed.

Lemma req_if (b : bool) (x y : mac) (v : Z) :
  adr_ack_req x = v -> adr_ack_req y = v ->
  adr_ack_req (if b then x else y) = v.
Proof. intros Hx Hy. destruct b; assumption. Qed.

Lemma req_dec (m : mac) :
  adr_ack_req (smtc_real_dr_decrement rl m) = adr_ack_req m.
Proof. apply (HW m). Qed.

Ltac req_step :=
  lazymatch goal with
  | |- adr_ack_req (let x := ?a in @?f x) = ?v =>
      refine (req_let a f v _ _); [| intros ? ?; lazy beta]
  | |- adr_ack_req (if _ then _ else _) = _ => apply req_if
  | |- adr_ack_req (smtc_real_dr_decrement _ _) = _ => rewrite req_dec
  | H : adr_ack_req ?x = ?v |- adr_ack_req ?x = ?v => exact H
  | |- adr_ack_req (bsp_mcu_handle_lr1mac_issue ?m) = _ =>
      change (adr_ack_req (bsp_mcu_handle_lr1mac_issue m))
        with (adr_ack_req m)
  | |- adr_ack_req (?s ?v ?m) = _ =>
      transitivity (adr_ack_req m); [reflexivity |]
  end.

Lemma update_adr_req (m : mac) :
  adr_ack_req (update_adr rl m)
  = (if (adr_ack_cnt m >=? adr_ack_limit m)
        && (adr_ack_cnt m <=? adr_ack_limit m + adr_ack_delay m)
     then 1 else 0).
Proof.
  lazy delta [update_adr]. lazy beta.
  match goal with
  | |- adr_ack_req (let x := ?a in @?f x) = ?v =>
      refine (req_name a f v _); intros m1 E1; lazy beta
  end.
  match goal with
  | |- adr_ack_req (let x := ?a in @?f x) = ?v =>
      refine (req_name a f v _); intros m2 E2; lazy beta
  end.
  assert (H2 : adr_ack_req m2
               = (if (adr_ack_cnt m >=? adr_ack_limit m)
                     && (adr_ack_cnt m <=? adr_ack_limit m + adr_ack_delay m)
                  then 1 else 0)).
  { subst m2 m1.
    destruct ((adr_ack_cnt m >=? adr_ack_limit m)
              && (adr_ack_cnt m <=? adr_ack_limit m + adr_ack_delay m)) eqn:E.
    - mac_simpl.
      apply andb_prop in E. destruct E as [Ea Eb].
      assert (F : (adr_ack_cnt m <? adr_ack_limit m)
                  || (adr_ack_cnt m >? adr_ack_limit m + adr_ack_delay m)
                  = false)
        by (apply orb_false_intro; lia).
      rewrite F. reflexivity.
    - assert (F : (adr_ack_cnt m <? adr_ack_limit m)
                  || (adr_ack_cnt m >? adr_ack_limit m + adr_ack_delay m)
                  = true).
      { apply andb_false_iff in E. apply orb_true_iff.
        destruct E as [E | E]; [left | right]; lia. }
      rewrite F. reflexivity. }
  clear E1 E2. revert H2. generalize m2. clear m1 m2. intros m2 H2.
  repeat req_step.
Qed.

Lemma update_tail_req (m : mac) :
  adr_ack_req (update_send rl cr (update_fopts (update_retrans m)))
  = adr_ack_req m.
Proof.
  assert (E1 : adr_ack_req (update_retrans m) = adr_ack_req m).
  { unfold update_retrans. destruct (nb_trans_cpt m <=? 1); reflexivity. }
  assert (E2 : forall x : mac, adr_ack_req (update_fopts x) = adr_ack_req x).
  { intros x. unfold update_fopts.
    destruct (tx_fopts_length x + tx_fopts_lengthsticky x >? 15); reflexivity. }
  assert (E3 : forall x : mac,
             adr_ack_req (update_send rl cr x) = adr_ack_req x).
  { intros x. unfold update_send.
    destruct (type_of_ans_to_send x); try reflexivity.
    unfold update_nwk_frame. cbv zeta.
    match goal with
    | |- context [if ?c then _ else _] => destruct c
    end; reflexivity. }
  rewrite E3, E2, E1. reflexivity.
Qed.

Lemma update_join_window (t : Z) (m : mac) :
  adr_ack_cnt (update_join rl t m) = adr_ack_cnt m
  /\ adr_ack_limit (update_join rl t m) = adr_ack_limit m
  /\ adr_ack_delay (update_join rl t m) = adr_ack_delay m.
Proof.
  unfold update_join. destruct (join_status m).
  - cbv zeta.
    repeat match goal with
           | |- context [if ?c then _ else _] => destruct c
           end; repeat split; reflexivity.
  - destruct (HW m) as (E1 & E2 & E3 & _). repeat split; assumption.
Qed.
End AdrRequest.


Lemma ref_real_keeps_adr_window : real_keeps_adr_window Ref.region.
Proof.
  intros m. cbn [smtc_real_next_dr_get smtc_real_dr_decrement Ref.region].
  unfold Ref.next_dr_get, Ref.dr_decrement.
  repeat split;
    repeat match goal with
           | |- context [if ?c then _ else _] => destruct c
           end; reflexivity.
Qed.

